(** * ElectrumX HTTP session handler ([electrumx/server/http_session.py])

    A shallow embedding of [HttpHandler]: the precision set by
    [__init__], the history pipeline ([history], [get_txid_list],
    [history_factory]), the address extraction of decoded scripts, the
    unspent listing of a script hash and of a list of addresses with
    its enrichment, and the guards of the fetches.

    Python values coming from the daemon are JSON-born and dynamically
    typed; they are embedded as [pyval].  Exceptions are values of [exn];
    a coroutine is a computation in the monad [M], which carries the
    result or the exception together with the log of collaborator calls
    it made (daemon, storage, mempool). *)

From Stdlib Require Import ZArith NArith String Ascii List Bool Lia SpecFloat.
From stdpp Require Import base decidable countable gmap strings list sorting.

Set Warnings "-register-all".

Open Scope string_scope.
Open Scope list_scope.
Open Scope Z_scope.

(** ** Bytes *)

#[global] Instance byte_eq_dec : EqDecision Byte.byte := Byte.byte_eq_dec.

#[global] Program Instance byte_countable : Countable Byte.byte :=
  inj_countable' Byte.to_N (fun n => default Byte.x00 (Byte.of_N n)) _.
Next Obligation. intros b; simpl. by rewrite Byte.of_to_N. Qed.

(** Python [bytes]: transaction hashes, hashX keys, raw transactions. *)
Definition bytes := list Byte.byte.

(** ** Binary64 floating point (Python [float]) *)

Module Float.

Definition prec : Z := 53.
Definition emax : Z := 1024.

(** A Python float is an IEEE-754 binary64 value. *)
Definition float := spec_float.

Definition add : float -> float -> float := SFadd prec emax.

(** The float nearest to the integer [z] (ties to even); an infinity
    when [z] is beyond the largest finite float. *)
Definition of_Z (z : Z) : float := binary_normalize prec emax z 0 false.

(** The correctly rounded quotient [a / b] of two non-zero integers:
    the division core of [SFdiv] works on any pair of positive
    mantissas, so the integers need not fit a float. *)
Definition quot_Z (a b : Z) : float :=
  match a, b with
  | Z0, _ => S754_zero (b <? 0)
  | _, Z0 => S754_nan
  | _, _ =>
      let '(mz, ez, lz) := SFdiv_core_binary prec emax (Z.abs a) 0 (Z.abs b) 0 in
      binary_round_aux prec emax (xorb (a <? 0) (b <? 0)) mz ez lz
  end.

Definition is_finite (f : float) : bool :=
  match f with
  | S754_zero _ | S754_finite _ _ _ => true
  | _ => false
  end.

Definition is_zero (f : float) : bool :=
  match f with S754_zero _ => true | _ => false end.

Definition ltb : float -> float -> bool := SFltb.

(** The order between the float [f] and the integer [z], by value;
    none for a NaN. *)
Definition compare_Z (f : float) (z : Z) : option comparison :=
  match f with
  | S754_nan => None
  | S754_infinity s => Some (if s then Lt else Gt)
  | S754_zero _ => Some (0 ?= z)
  | S754_finite s m e =>
      let zm := cond_Zopp s (Zpos m) in
      Some (if 0 <=? e then zm * 2 ^ e ?= z else zm ?= z * 2 ^ (- e))
  end.

End Float.

(** ** Python values *)

Inductive pyval :=
| VNone
| VBool (b : bool)
| VInt (z : Z)
| VFloat (f : Float.float)
| VStr (s : string)
| VBytes (b : bytes)
| VList (l : list pyval)
| VDict (d : list (string * pyval)).

(** ** Exceptions *)

Inductive exn :=
| Exception (msg : string)
| KeyError (key : string)
| IndexError
| TypeError
| ValueError
| AttributeError
| UnboundLocalError (name : string)
| ZeroDivisionError
| OverflowError
| InvalidOperation
| DecimalOverflow
| UpstreamError (msg : string).

(** The result of a pure, fallible expression. *)
Definition result (A : Type) : Type := exn + A.

Abbreviation Ok := (@inr exn _).
Abbreviation Raise := (@inl exn _).

Definition rbind {A B} (r : result A) (k : A -> result B) : result B :=
  match r with
  | inl e => inl e
  | inr a => k a
  end.

Notation "'let*' x ':=' r 'in' k" := (rbind r (fun x => k))
  (at level 10, x pattern, r at level 100, k at level 200).

(** [[f(x) for x in l]] for a fallible [f]: the first exception, in list
    order, ends the comprehension. *)
Fixpoint rmap {A B} (f : A -> result B) (l : list A) : result (list B) :=
  match l with
  | [] => Ok []
  | x :: l' =>
      let* y := f x in
      let* ys := rmap f l' in
      Ok (y :: ys)
  end.

(** [[x for x in l if f(x)]] for a fallible test [f]. *)
Fixpoint rfilter {A} (f : A -> result bool) (l : list A) : result (list A) :=
  match l with
  | [] => Ok []
  | x :: l' =>
      let* b := f x in
      let* ys := rfilter f l' in
      Ok (if b then x :: ys else ys)
  end.

(** ** Python primitives on [pyval] *)

(** [bool(v)]: the truth value used by [if v], [not v] and [and]. *)
Definition truthy (v : pyval) : bool :=
  match v with
  | VNone => false
  | VBool b => b
  | VInt z => negb (z =? 0)
  | VFloat f => negb (Float.is_zero f)
  | VStr s => negb (String.eqb s "")
  | VBytes b => match b with [] => false | _ => true end
  | VList l => match l with [] => false | _ => true end
  | VDict d => match d with [] => false | _ => true end
  end.

(** [v is None] *)
Definition is_none (v : pyval) : bool :=
  match v with VNone => true | _ => false end.

(** A dict is kept as the list of its items; a key is looked up from the
    front. *)
Fixpoint dict_lookup (k : string) (d : list (string * pyval)) : option pyval :=
  match d with
  | [] => None
  | (k', v) :: d' => if String.eqb k k' then Some v else dict_lookup k d'
  end.

(** [v.get(k, dflt)]; only a dict has the method. *)
Definition py_get_default (v : pyval) (k : string) (dflt : pyval) : result pyval :=
  match v with
  | VDict d => Ok (default dflt (dict_lookup k d))
  | _ => Raise AttributeError
  end.

(** [v.get(k)] *)
Definition py_get (v : pyval) (k : string) : result pyval :=
  py_get_default v k VNone.

(** [v[k]] for a string key [k]. *)
Definition py_getitem (v : pyval) (k : string) : result pyval :=
  match v with
  | VDict d =>
      match dict_lookup k d with
      | Some x => Ok x
      | None => Raise (KeyError k)
      end
  | _ => Raise TypeError
  end.

(** [v[0]].  The keys of a JSON object are strings, so the integer key
    is never found in a dict. *)
Definition py_getitem0 (v : pyval) : result pyval :=
  match v with
  | VList (x :: _) => Ok x
  | VList [] => Raise IndexError
  | VStr (String c _) => Ok (VStr (String c ""))
  | VStr EmptyString => Raise IndexError
  | VBytes (b :: _) => Ok (VInt (Z.of_N (Byte.to_N b)))
  | VBytes [] => Raise IndexError
  | VDict _ => Raise (KeyError "0")
  | _ => Raise TypeError
  end.

(** [v == s] for a str [s]: never raises, false across types. *)
Definition py_eq_str (v : pyval) (s : string) : bool :=
  match v with
  | VStr s' => String.eqb s' s
  | _ => false
  end.

(** The float [f] has exactly the integer value [z]. *)
Definition float_eq_Z (f : Float.float) (z : Z) : bool :=
  match Float.compare_Z f z with
  | Some Eq => true
  | _ => false
  end.

(** [v == z] for an int [z]: numbers compare by value, [True] is 1. *)
Definition py_eq_int (v : pyval) (z : Z) : bool :=
  match v with
  | VInt z' => z' =? z
  | VBool b => Z.b2z b =? z
  | VFloat f => float_eq_Z f z
  | _ => false
  end.

(** [k in v] for a str [k]. *)
Definition py_contains (k : string) (v : pyval) : result bool :=
  match v with
  | VDict d => Ok (bool_decide (is_Some (dict_lookup k d)))
  | VList l => Ok (existsb (fun x => py_eq_str x k) l)
  | VStr s => Ok (bool_decide (is_Some (String.index 0 k s)))
  | _ => Raise TypeError
  end.

(** [list(v)] as used by [for x in v] and by comprehensions. *)
Definition py_iter (v : pyval) : result (list pyval) :=
  match v with
  | VList l => Ok l
  | VDict d => Ok (map (fun kv => VStr (fst kv)) d)
  | VStr s => Ok (map (fun c => VStr (String c "")) (list_ascii_of_string s))
  | VBytes b => Ok (map (fun x => VInt (Z.of_N (Byte.to_N x))) b)
  | _ => Raise TypeError
  end.

(** [a < b], as [list.sort] asks it of two keys: numbers are ordered by
    value and strings by their characters; keys of other kinds, which a
    block time is not, are reported as not ordered. *)
Definition py_lt (a b : pyval) : result bool :=
  let num (v : pyval) : option (Z + Float.float) :=
    match v with
    | VInt z => Some (inl z)
    | VBool b => Some (inl (Z.b2z b))
    | VFloat f => Some (inr f)
    | _ => None
    end in
  match a, b with
  | VStr s, VStr s' => Ok (bool_decide (String.compare s s' = Lt))
  | _, _ =>
      match num a, num b with
      | Some (inl x), Some (inl y) => Ok (x <? y)
      | Some (inr f), Some (inr g) => Ok (Float.ltb f g)
      | Some (inr f), Some (inl y) =>
          Ok (bool_decide (Float.compare_Z f y = Some Lt))
      | Some (inl x), Some (inr g) =>
          Ok (bool_decide (Float.compare_Z g x = Some Gt))
      | _, _ => Raise TypeError
      end
  end.

(** *** Numbers *)

(** The value of a running sum that started from the int [0]. *)
Inductive pynum :=
| NInt (z : Z)
| NFloat (f : Float.float).

(** [float(z)]: an int beyond the float range raises. *)
Definition float_of_int (z : Z) : result Float.float :=
  let f := Float.of_Z z in
  if Float.is_finite f then Ok f else Raise OverflowError.

(** [a + v] for a number [a]: int + int is exact, anything with a float
    is a float addition; a non-number on the right raises. *)
Definition num_add (a : pynum) (v : pyval) : result pynum :=
  match a, v with
  | NInt x, VInt y => Ok (NInt (x + y))
  | NInt x, VBool b => Ok (NInt (x + Z.b2z b))
  | NInt x, VFloat g =>
      let* f := float_of_int x in Ok (NFloat (Float.add f g))
  | NFloat f, VInt y =>
      let* g := float_of_int y in Ok (NFloat (Float.add f g))
  | NFloat f, VBool b => Ok (NFloat (Float.add f (Float.of_Z (Z.b2z b))))
  | NFloat f, VFloat g => Ok (NFloat (Float.add f g))
  | _, _ => Raise TypeError
  end.

(** [a / b] on two ints: true division, correctly rounded. *)
Definition int_truediv (a b : Z) : result Float.float :=
  if b =? 0 then Raise ZeroDivisionError
  else
    let q := Float.quot_Z a b in
    if Float.is_finite q then Ok q else Raise OverflowError.

(** ** Fixed-point decimals (Python [decimal.Decimal])

    The arithmetic of the default context: 28 significant digits,
    rounding half to even, traps on [InvalidOperation] and on the
    decimal [Overflow] signal ([DecimalOverflow]). *)

Module PyDecimal.

Definition ctx_prec : Z := 28.
Definition Emax : Z := 999999.
Definition Emin : Z := -999999.
Definition Etiny : Z := Emin - ctx_prec + 1.
Definition Etop : Z := Emax - ctx_prec + 1.

(** [DFin s c e] is [(-1)^s * c * 10^e]. *)
Inductive decimal :=
| DFin (sign : bool) (coef : N) (exp : Z)
| DInf (sign : bool)
| DNaN.

(** The number of decimal digits of the coefficient, [len(str(c))]. *)
Fixpoint ndigits_fuel (fuel : nat) (c : N) : Z :=
  match fuel with
  | O => 1
  | S fuel' =>
      if (c <? 10)%N then 1 else 1 + ndigits_fuel fuel' (c / 10)%N
  end.

Definition ndigits (c : N) : Z := ndigits_fuel (N.to_nat (N.size c)) c.

Definition pow10 (k : Z) : N := (10 ^ Z.to_N k)%N.

(** [n / d] rounded to the nearest integer, ties to the even one. *)
Definition div_half_even (n d : N) : N :=
  let '(q, r) := N.div_eucl n d in
  match (2 * r ?= d)%N with
  | Lt => q
  | Gt => (q + 1)%N
  | Eq => if N.even q then q else (q + 1)%N
  end.

(** The coefficient of [c * 10^e] at exponent [t]: padded with zeros
    when [t <= e], rounded otherwise. *)
Definition rescale (c : N) (e t : Z) : N :=
  if t <=? e then (c * pow10 (e - t))%N
  else div_half_even c (pow10 (t - e)).

(** [Decimal(z)] for an int: exact. *)
Definition of_Z (z : Z) : decimal := DFin (z <? 0) (Z.abs_N z) 0.

(** The odd part of a dyadic mantissa: [m * 2^-k] with common factors
    of two removed ([float.as_integer_ratio]). *)
Fixpoint strip2 (m : positive) (k : Z) : positive * Z :=
  match m with
  | xO m' => if 0 <? k then strip2 m' (k - 1) else (m, k)
  | _ => (m, k)
  end.

(** [Decimal(f)] for a float: the exact binary value, written in
    decimal. *)
Definition of_float (f : Float.float) : decimal :=
  match f with
  | S754_zero s => DFin s 0 0
  | S754_infinity s => DInf s
  | S754_nan => DNaN
  | S754_finite s m e =>
      if 0 <=? e then DFin s (N.pos m * 2 ^ Z.to_N e)%N 0
      else
        let '(n, k) := strip2 m (- e) in
        DFin s (N.pos n * 5 ^ Z.to_N k)%N (- k)
  end.

Definition of_num (a : pynum) : decimal :=
  match a with
  | NInt z => of_Z z
  | NFloat f => of_float f
  end.

(** [d.quantize(Decimal(1).scaleb(-n))], which is what [round(d, n)]
    calls: the value of [d] at exponent [-n]. *)
Definition quantize (d : decimal) (n : Z) : result decimal :=
  match d with
  | DNaN => Ok DNaN
  | DInf _ => Raise InvalidOperation
  | DFin s c e =>
      let t := - n in
      if negb ((Etiny <=? t) && (t <=? Emax)) then Raise InvalidOperation
      else if (c =? 0)%N then Ok (DFin s 0 t)
      else if Emax <? e + ndigits c - 1 then Raise InvalidOperation
      else if ctx_prec <? e + ndigits c - t then Raise InvalidOperation
      else
        let c' := rescale c e t in
        if Emax <? t + ndigits c' - 1 then Raise InvalidOperation
        else if ctx_prec <? ndigits c' then Raise InvalidOperation
        else Ok (DFin s c' t)
  end.

(** [round(d, n)] *)
Definition round (d : decimal) (n : Z) : result decimal := quantize d n.

(** Rounding of an exact result to the context ([Decimal._fix]). *)
Definition fix_ctx (s : bool) (c : N) (e : Z) : result decimal :=
  if (c =? 0)%N then Ok (DFin s 0 (Z.min (Z.max e Etiny) Emax))
  else
    let exp_min0 := ndigits c + e - ctx_prec in
    if Etop <? exp_min0 then Raise DecimalOverflow
    else
      let exp_min := Z.max exp_min0 Etiny in
      if e <? exp_min then
        let c1 := div_half_even c (pow10 (exp_min - e)) in
        let '(c2, e2) :=
          if ctx_prec <? ndigits c1 then ((c1 / 10)%N, exp_min + 1)
          else (c1, exp_min) in
        if Etop <? e2 then Raise DecimalOverflow else Ok (DFin s c2 e2)
      else Ok (DFin s c e).

Definition signed (s : bool) (c : N) : Z := cond_Zopp s (Z.of_N c).

(** [a - b] *)
Definition sub (a b : decimal) : result decimal :=
  match a, b with
  | DNaN, _ | _, DNaN => Ok DNaN
  | DInf sa, DInf sb =>
      if Bool.eqb sa sb then Raise InvalidOperation else Ok (DInf sa)
  | DInf sa, DFin _ _ _ => Ok (DInf sa)
  | DFin _ _ _, DInf sb => Ok (DInf (negb sb))
  | DFin sa ca ea, DFin sb cb eb =>
      let e := Z.min ea eb in
      let d := signed sa (ca * pow10 (ea - e)) - signed sb (cb * pow10 (eb - e)) in
      let s :=
        if d =? 0 then (ca =? 0)%N && (cb =? 0)%N && sa && negb sb
        else d <? 0 in
      fix_ctx s (Z.abs_N d) e
  end.

(** [float(d)]: the float nearest to the decimal value. *)
Definition to_float (d : decimal) : Float.float :=
  match d with
  | DNaN => S754_nan
  | DInf s => S754_infinity s
  | DFin s c e =>
      if (c =? 0)%N then S754_zero s
      else if 0 <=? e then Float.of_Z (signed s (c * pow10 e))
      else Float.quot_Z (signed s c) (Z.of_N (pow10 (- e)))
  end.

End PyDecimal.

(** ** Strings, slices and hexadecimal *)

(** [bytes.hex()]: two lower-case digits per byte. *)
Definition hex_digit (n : N) : ascii :=
  match n with
  | 0%N => "0" | 1%N => "1" | 2%N => "2" | 3%N => "3"
  | 4%N => "4" | 5%N => "5" | 6%N => "6" | 7%N => "7"
  | 8%N => "8" | 9%N => "9" | 10%N => "a" | 11%N => "b"
  | 12%N => "c" | 13%N => "d" | 14%N => "e" | _ => "f"
  end%char.

Fixpoint bytes_hex (b : bytes) : string :=
  match b with
  | [] => ""
  | x :: b' =>
      let n := Byte.to_N x in
      String (hex_digit (n / 16)) (String (hex_digit (n mod 16)) (bytes_hex b'))
  end.

(** [s.split(sep)] for a one-character separator: the current field is
    accumulated in reverse in [cur]. *)
Fixpoint split_go (sep : ascii) (cur : list ascii) (s : string) : list string :=
  match s with
  | EmptyString => [string_of_list_ascii (rev cur)]
  | String c s' =>
      if Ascii.eqb c sep
      then string_of_list_ascii (rev cur) :: split_go sep [] s'
      else split_go sep (c :: cur) s'
  end.

Definition str_split (sep : ascii) (s : string) : list string :=
  split_go sep [] s.

(** An index of a slice, brought into [0 .. len]. *)
Definition slice_index (len i : Z) : Z :=
  let j := if i <? 0 then i + len else i in
  Z.max 0 (Z.min len j).

(** [l[i:j]] *)
Definition py_slice {A} (l : list A) (i j : Z) : list A :=
  let len := Z.of_nat (length l) in
  let lo := slice_index len i in
  let hi := slice_index len j in
  take (Z.to_nat (hi - lo)) (drop (Z.to_nat lo) l).

(** [l[n]] on a list built by the program, for an index [n] that came
    from the daemon: an int (or a bool) selects, counting from the end
    when negative. *)
Definition py_list_item {A} (l : list A) (n : pyval) : result A :=
  let at_index (z : Z) :=
    let len := Z.of_nat (length l) in
    let i := if z <? 0 then z + len else z in
    if i <? 0 then Raise IndexError
    else
      match l !! Z.to_nat i with
      | Some x => Ok x
      | None => Raise IndexError
      end in
  match n with
  | VInt z => at_index z
  | VBool b => at_index (Z.b2z b)
  | _ => Raise TypeError
  end.

(** [zip(a, b, c)]: as long as the shortest. *)
Fixpoint zip3 {A B C} (a : list A) (b : list B) (c : list C) : list (A * B * C) :=
  match a, b, c with
  | x :: a', y :: b', z :: c' => (x, y, z) :: zip3 a' b' c'
  | _, _, _ => []
  end.

(** ** Coroutines

    A coroutine of the handler awaits its collaborators (the daemon, the
    storage index, the mempool) and either returns or raises.  Its
    meaning is the outcome together with the collaborator calls made. *)

Inductive io_event :=
| CallDaemon (method : string) (args : list pyval)
| CallHistory (hashX : bytes)
| CallAllUtxos (hashX : bytes)
| CallTransactionSummaries (hashX : bytes)
| CallUnorderedUTXOs (hashX : bytes)
| CallPotentialSpends (hashX : bytes)
| ReadMempoolDetail (txid : pyval).

Record M (A : Type) := mkM { outcome : result A; calls : list io_event }.
Arguments mkM {A} _ _.
Arguments outcome {A} _.
Arguments calls {A} _.

Definition ret {A} (a : A) : M A := mkM (Ok a) [].

(** A fallible expression evaluated inside a coroutine. *)
Definition lift {A} (r : result A) : M A := mkM r [].

(** One awaited collaborator call with its answer. *)
Definition perform {A} (ev : io_event) (r : result A) : M A := mkM r [ev].

Definition bindM {A B} (m : M A) (k : A -> M B) : M B :=
  match outcome m with
  | inl e => mkM (inl e) (calls m)
  | inr a => mkM (outcome (k a)) (calls m ++ calls (k a))
  end.

Notation "'await' x ':=' m 'in' k" := (bindM m (fun x => k))
  (at level 10, x pattern, m at level 100, k at level 200).
Notation "'let!' x ':=' r 'in' k" := (bindM (lift r) (fun x => k))
  (at level 10, x pattern, r at level 100, k at level 200).

(** [await asyncio.gather] over the coroutines [ms]: every branch is
    started; the results are returned, in the order of [ms], only if
    every branch returns, and otherwise the exception of a failed branch
    is raised, the one that fails first on the event loop.  [outcome]
    takes the failed branch that comes first in [ms]; [gather_may] below
    is what any schedule may give.  The event loop interleaves the
    branches and, on a failure, raises while the others are still under
    way, so the order of the calls across branches is not determined:
    [calls] lists them branch by branch, which is one of the orders for
    a gather that returns, and no statement below relies on the log of
    a gather. *)
Definition gather {A} (ms : list (M A)) : M (list A) :=
  mkM (rmap outcome ms) (concat (map calls ms)).

(** What a gather may return under any order of the event loop: the
    results when every branch returns, and otherwise the exception of
    any branch that raised. *)
Inductive gather_may {A} (ms : list (M A)) : result (list A) -> Prop :=
| gather_may_return (results : list A) :
    Forall2 (fun m r => outcome m = Ok r) ms results ->
    gather_may ms (Ok results)
| gather_may_raise (m : M A) (e : exn) :
    m ∈ ms -> outcome m = Raise e -> gather_may ms (Raise e).

(** The same for two coroutines with results of different types. *)
Definition gather2 {A B} (ma : M A) (mb : M B) : M (A * B) :=
  mkM (let* a := outcome ma in let* b := outcome mb in Ok (a, b))
      (calls ma ++ calls mb).

(** ** Data exchanged with the collaborators *)

(** A stored or mempool unspent output ([UTXO] of the storage layer);
    the fields the handler reads. *)
Record UTXO := mkUTXO {
  tx_hash : bytes;
  tx_pos : Z;
  height : Z;
  value : Z
}.

(** An output of a deserialized raw transaction. *)
Record TxOutput := mkTxOutput {
  out_value : Z;
  pk_script : bytes
}.

(** A deserialized raw transaction; only [outputs] is read. *)
Record Tx := mkTx { outputs : list TxOutput }.

(** A pending transaction of the mempool; only [hash] is read. *)
Record MemPoolTxSummary := mkSummary { hash : bytes }.

(** The handler object [self] with the collaborators it holds.
    [prec] is set once by [__init__] to
    [int(math.log(self.coin.VALUE_PER_COIN, 10))]. *)
Record HttpHandler := mkHandler {
  coin_VALUE_PER_COIN : Z;
  coin_address_to_hashX : string -> result bytes;
  coin_DESERIALIZER_read_tx : pyval -> result Tx;
  prec : Z;
  daemon_request : string -> list pyval -> result pyval;
  session_mgr_history : bytes -> result (list (bytes * Z));
  db_all_utxos : bytes -> result (list UTXO);
  mempool_transaction_summaries : bytes -> result (list MemPoolTxSummary);
  mempool_unordered_UTXOs : bytes -> result (list UTXO);
  mempool_potential_spends : bytes -> result (gset (bytes * Z));
  mempool_detail : gmap string pyval
}.

(** [int(f)] for a float: its integer part, toward zero. *)
Definition int_of_float (f : Float.float) : result Z :=
  match f with
  | S754_zero _ => Ok 0
  | S754_finite s m e =>
      Ok (cond_Zopp s (if 0 <=? e then Zpos m * 2 ^ e else Zpos m / 2 ^ (- e)))
  | S754_infinity _ => Raise OverflowError
  | S754_nan => Raise ValueError
  end.

(** The precision that [__init__] sets:
    [int(math.log(self.coin.VALUE_PER_COIN, 10))], where [math_log] is
    [math.log] of the standard library on two ints. *)
Definition init_prec (math_log : Z -> Z -> result Float.float)
    (VALUE_PER_COIN : Z) : result Z :=
  let* l := math_log VALUE_PER_COIN 10 in
  int_of_float l.


(** ** Records built by the handler *)

(** An entry of [hashX_listunspent]. *)
Record unspent := mkUnspent {
  u_tx_hash : string;
  u_tx_pos : Z;
  u_height : Z;
  u_value : Z
}.

(** The entry returned by [wallet_unspent]. *)
Record wallet_entry := mkWalletEntry {
  w_address : string;
  w_txid : pyval;
  w_vout : Z;
  w_scriptPubKey : pyval;
  w_amount : pyval;
  w_satoshis : Z;
  w_height : Z;
  w_confirmations : pyval
}.

(** A resolved input and a resolved output of a history record. *)
Record vin_entry := mkVin {
  vin_txid : pyval;
  vin_addrs : pyval;
  vin_value : Float.float
}.

Record vout_entry := mkVout {
  vout_addrs : pyval;
  vout_value : pyval
}.

(** The record returned by [process_single_tx_record]. *)
Record history_record := mkRecord {
  r_txid : pyval;
  r_vin : list vin_entry;
  r_vout : list vout_entry;
  r_valueOut : PyDecimal.decimal;
  r_valueIn : PyDecimal.decimal;
  r_fees : PyDecimal.decimal;
  r_confirmations : pyval;
  r_time : pyval
}.

(** The per-address result of [history]. *)
Record address_history := mkAddressHistory {
  h_addr : string;
  h_txs : list history_record
}.

Definition MAX_TX_QUERY : Z := 50.

(** [history.sort(key=lambda tx: tx.get('time'), reverse=True)]: a stable
    sort, latest first, that asks only [<] of the keys.  [list.sort] and
    this insertion sort agree whenever the keys are totally ordered. *)
Fixpoint insert_by_time (x : history_record) (l : list history_record)
  : result (list history_record) :=
  match l with
  | [] => Ok [x]
  | y :: l' =>
      let* lt := py_lt (r_time x) (r_time y) in
      if lt then
        let* rest := insert_by_time x l' in
        Ok (y :: rest)
      else Ok (x :: y :: l')
  end.

Fixpoint sort_by_time (l : list history_record) : result (list history_record) :=
  match l with
  | [] => Ok []
  | x :: l' =>
      let* sorted := sort_by_time l' in
      insert_by_time x sorted
  end.

(** *** The JSON body of a response *)

(** [json.loads(json.dumps(v))] on a value without decimals: every JSON
    value is read back as it was; [bytes] cannot be serialized. *)
Fixpoint json_value (v : pyval) : result pyval :=
  match v with
  | VBytes _ => Raise TypeError
  | VList l =>
      let* l' :=
        (fix go (l : list pyval) : result (list pyval) :=
           match l with
           | [] => Ok []
           | x :: r =>
               let* x' := json_value x in
               let* r' := go r in
               Ok (x' :: r')
           end) l in
      Ok (VList l')
  | VDict d =>
      let* d' :=
        (fix go (d : list (string * pyval)) : result (list (string * pyval)) :=
           match d with
           | [] => Ok []
           | (k, x) :: r =>
               let* x' := json_value x in
               let* r' := go r in
               Ok ((k, x') :: r')
           end) d in
      Ok (VDict d')
  | _ => Ok v
  end.

(** [DecimalEncoder.default]: a decimal is written as a float. *)
Definition DecimalEncoder_default (o : PyDecimal.decimal) : pyval :=
  VFloat (PyDecimal.to_float o).

Definition dict_of_vin (x : vin_entry) : pyval :=
  VDict [("txid", vin_txid x); ("addrs", vin_addrs x); ("value", VFloat (vin_value x))].

Definition dict_of_vout (x : vout_entry) : pyval :=
  VDict [("addrs", vout_addrs x); ("value", vout_value x)].

Definition dict_of_record (r : history_record) : pyval :=
  VDict [("txid", r_txid r);
         ("vin", VList (map dict_of_vin (r_vin r)));
         ("vout", VList (map dict_of_vout (r_vout r)));
         ("valueOut", DecimalEncoder_default (r_valueOut r));
         ("valueIn", DecimalEncoder_default (r_valueIn r));
         ("fees", DecimalEncoder_default (r_fees r));
         ("confirmations", r_confirmations r);
         ("time", r_time r)].

Definition dict_of_address_history (h : address_history) : pyval :=
  VDict [("addr", VStr (h_addr h)); ("txs", VList (map dict_of_record (h_txs h)))].

(** [json.loads(json.dumps(results, cls=DecimalEncoder))] *)
Definition json_of_results (results : list address_history) : result pyval :=
  json_value (VList (map dict_of_address_history results)).

(** ** Requests and responses *)

Record Request := mkRequest {
  match_info : list (string * string);
  query : list (string * string)
}.

Inductive Response :=
| PlainResponse (status : Z) (text : option string)
| JsonResponse (body : pyval).

Fixpoint assoc (k : string) (l : list (string * string)) : option string :=
  match l with
  | [] => None
  | (k', v) :: l' => if String.eqb k k' then Some v else assoc k l'
  end.

(** [query[k]] on the query string of the request. *)
Definition query_getitem (q : list (string * string)) (k : string) : result string :=
  match assoc k q with
  | Some v => Ok v
  | None => Raise (KeyError k)
  end.

(** ** The handler *)

Section Handler.

(** Helpers of [electrumx.lib]: the hexadecimal form of a transaction
    hash, [util.hex_to_bytes], [util.parse_int], and the order in which
    [sorted] puts the UTXO tuples of the storage layer. *)
Variable hash_to_hex_str : bytes -> string.
Variable hex_to_bytes : string -> result bytes.
Variable parse_int : string -> Z -> Z.
Variable utxo_leb : UTXO -> UTXO -> bool.

Variable self : HttpHandler.

(** *** [get_addrs_from_script_list] *)

(** The body of the loop: the address list of one decoded script, or
    [None]. *)
Definition addrs_of_script (s : pyval) : result pyval :=
  if negb (truthy s) then Ok VNone
  else
    let* addresses := py_get s "addresses" in
    if truthy addresses then Ok addresses
    else
      let* type := py_get s "type" in
      if py_eq_str type "nonstandard" then
        let* segwit := py_get s "segwit" in
        if truthy segwit then
          let* segwit_addresses := py_get segwit "addresses" in
          if truthy segwit_addresses then Ok segwit_addresses else Ok VNone
        else Ok VNone
      else Ok VNone.

Definition get_addrs_from_script_list (script_list : pyval) : result (list pyval) :=
  let* scripts := py_iter script_list in
  rmap addrs_of_script scripts.

(** *** [wallet_unspent] *)

(** The test of the loop over [list_vout]: whether [item] is picked. *)
Definition wallet_pick (address : string) (vout : Z) (item : pyval) : result bool :=
  let* spk := py_getitem item "scriptPubKey" in
  let* has_addresses := py_contains "addresses" spk in
  let* addr :=
    if has_addresses then
      let* spk := py_getitem item "scriptPubKey" in
      let* addresses := py_getitem spk "addresses" in
      py_getitem0 addresses
    else Ok (VStr "") in
  let* has_n := py_contains "n" item in
  let* n := if has_n then py_getitem item "n" else Ok (VStr "") in
  Ok (py_eq_str addr address || (py_eq_str addr "" && py_eq_int n vout)).

(** Declared [async]; it awaits nothing. *)
Definition wallet_unspent (address : string) (utxo : unspent) (tx_detail : pyval)
  : result wallet_entry :=
  let height := u_height utxo in
  let satoshis := u_value utxo in
  let vout := u_tx_pos utxo in
  let* has_confirmations := py_contains "confirmations" tx_detail in
  let* confirmations :=
    if has_confirmations then py_getitem tx_detail "confirmations"
    else Ok (VInt 0) in
  let* list_vout := py_getitem tx_detail "vout" in
  let* items := py_iter list_vout in
  let* list_pick := rfilter (wallet_pick address vout) items in
  match list_pick with
  | obj :: _ =>
      let* amount := py_getitem obj "value" in
      let* spk := py_getitem obj "scriptPubKey" in
      let* script_pub_key := py_getitem spk "hex" in
      let* txid := py_getitem tx_detail "txid" in
      Ok {| w_address := address;
            w_txid := txid;
            w_vout := vout;
            w_scriptPubKey := script_pub_key;
            w_amount := amount;
            w_satoshis := satoshis;
            w_height := height;
            w_confirmations := confirmations |}
  | [] =>
      Raise (Exception
        ("cannot get the transaction's list of outputs from address:" +:+ address))
  end.

(** *** [address_to_hashX] *)

Definition address_to_hashX (address : string) : result bytes :=
  match coin_address_to_hashX self address with
  | inr hashX => Ok hashX
  | inl _ => Raise (Exception (address +:+ " is not a valid address"))
  end.

(** *** [assert_tx_hash] and [transaction_get] *)

(** [value] is the hexadecimal string of a transaction hash, as the
    handler passes it ([utxo["tx_hash"]]); any exception of the decoding
    is swallowed, and the message names the value. *)
Definition assert_tx_hash (value : string) : result unit :=
  match hex_to_bytes value with
  | inr b =>
      if Z.of_nat (length b) =? 32 then Ok tt
      else Raise (Exception (value +:+ " should be a transaction hash"))
  | inl _ => Raise (Exception (value +:+ " should be a transaction hash"))
  end.

(** [verbose] is a bool, so the test [verbose not in (True, False)]
    never raises. *)
Definition transaction_get (tx_hash : string) (verbose : bool) : M pyval :=
  let! _ := assert_tx_hash tx_hash in
  perform (CallDaemon "getrawtransaction" [VStr tx_hash; VBool verbose])
          (daemon_request self "getrawtransaction" [VStr tx_hash; VBool verbose]).

(** *** [hashX_listunspent] *)

(** [sorted(utxos)] *)
Definition sorted_utxos (utxos : list UTXO) : list UTXO :=
  merge_sort (fun x y => Is_true (utxo_leb x y)) utxos.

Definition unspent_of_utxo (utxo : UTXO) : unspent :=
  {| u_tx_hash := hash_to_hex_str (tx_hash utxo);
     u_tx_pos := tx_pos utxo;
     u_height := height utxo;
     u_value := value utxo |}.

Definition hashX_listunspent (hashX : bytes) : M (list unspent) :=
  await utxos := perform (CallAllUtxos hashX) (db_all_utxos self hashX) in
  let utxos := sorted_utxos utxos in
  await mempool_utxos :=
    perform (CallUnorderedUTXOs hashX) (mempool_unordered_UTXOs self hashX) in
  let utxos := utxos ++ mempool_utxos in
  await spends :=
    perform (CallPotentialSpends hashX) (mempool_potential_spends self hashX) in
  ret (map unspent_of_utxo
         (filter (fun utxo => (tx_hash utxo, tx_pos utxo) ∉ spends) utxos)).

(** *** The batch fetches *)

(** [txid and isinstance(txid, str) and len(txid)==64]; a str is a
    string of one-byte characters here, as a transaction id is. *)
Definition txid_arg_ok (txid : pyval) : bool :=
  truthy txid &&
  match txid with
  | VStr s => Z.of_nat (String.length s) =? 64
  | _ => false
  end.

Definition get_tx_raw_list (txid_list : list pyval) : M pyval :=
  if forallb txid_arg_ok txid_list then
    perform (CallDaemon "getrawtransactions" [VList txid_list])
            (daemon_request self "getrawtransactions" [VList txid_list])
  else lift (Raise (Exception "invalid format of txid as argument")).

Definition get_tx_detail_list (txid_list : list pyval) : M pyval :=
  if forallb txid_arg_ok txid_list then
    perform (CallDaemon "getdetailedtransactions" [VList txid_list])
            (daemon_request self "getdetailedtransactions" [VList txid_list])
  else lift (Raise (Exception "invalid format of txid as argument")).

Definition get_script_detail_list (script_list : list pyval) : M pyval :=
  perform (CallDaemon "decode_scripts" [VList script_list])
          (daemon_request self "decode_scripts" [VList script_list]).

(** *** [get_txid_list] *)

Definition get_unconfirmed_list (hashX : bytes) : M (list string) :=
  await unconfirmed_list :=
    perform (CallTransactionSummaries hashX)
            (mempool_transaction_summaries self hashX) in
  ret (map (fun tx => hash_to_hex_str (hash tx)) unconfirmed_list).

Definition get_confirmed_list (hashX : bytes) : M (list string) :=
  await confirmed_list :=
    perform (CallHistory hashX) (session_mgr_history self hashX) in
  ret (map (fun '(tx_hash, height) => hash_to_hex_str tx_hash)
           (rev confirmed_list)).

Definition get_txid_list (addr : string) : M (list string) :=
  let! hashX := address_to_hashX addr in
  let coro_u := get_unconfirmed_list hashX in
  let coro_c := get_confirmed_list hashX in
  await (unconfirmed_list, confirmed_list) := gather2 coro_u coro_c in
  ret (unconfirmed_list ++ confirmed_list).

(** *** [history_factory] *)

(** [self.mempool.detail.get(txid)], read under [data_lock]: the keys
    of the snapshot are txid strings; a list or a dict is not
    hashable. *)
Definition mempool_detail_get (txid : pyval) : result pyval :=
  match txid with
  | VStr s => Ok (default VNone (mempool_detail self !! s))
  | VList _ | VDict _ => Raise TypeError
  | _ => Ok VNone
  end.

(** "get transaction time": the local [tx_time] is bound in the
    confirmed branch and, in the other, only when the snapshot has an
    entry; reading it unbound raises. *)
Definition get_transaction_time (tx_detail : pyval) : M pyval :=
  let! confirmations := py_get tx_detail "confirmations" in
  await tx_time :=
    if negb (is_none confirmations) then
      let! time := py_get tx_detail "time" in
      ret (Some time)
    else
      let! txid := py_get tx_detail "txid" in
      await memtx := perform (ReadMempoolDetail txid) (mempool_detail_get txid) in
      if truthy memtx then
        let! time := py_get memtx "time" in
        ret (Some time)
      else ret None in
  match tx_time with
  | None => lift (Raise (UnboundLocalError "tx_time"))
  | Some time =>
      if is_none time
      then lift (Raise (Exception "cannot get the transaction time"))
      else ret time
  end.

(** [reduce(lambda sum, x: sum + x["value"], l, 0)]: the values are
    added one by one, from the left, to the int [0]. *)
Definition reduce_values {A} (value_of : A -> pyval) (l : list A) : result pynum :=
  fold_left (fun acc x => let* sum := acc in num_add sum (value_of x))
            l (Ok (NInt 0)).

(** [round(Decimal(reduce(...)), self.prec)] *)
Definition total_value {A} (value_of : A -> pyval) (l : list A)
  : result PyDecimal.decimal :=
  let* sum := reduce_values value_of l in
  PyDecimal.round (PyDecimal.of_num sum) (prec self).

(** [round(value_in-value_out, self.prec)] *)
Definition fees_of (value_in value_out : PyDecimal.decimal)
  : result PyDecimal.decimal :=
  let* diff := PyDecimal.sub value_in value_out in
  PyDecimal.round diff (prec self).

Definition process_single_tx_record (tx_detail : pyval) : M history_record :=
  if negb (truthy tx_detail)
  then lift (Raise (Exception "missing transaction detail"))
  else
    await tx_time := get_transaction_time tx_detail in
    let! vin := py_get tx_detail "vin" in
    let! vin_items := py_iter vin in
    let! vin_txid_list := rmap (fun i => py_get i "txid") vin_items in
    let! vin_idx_list := rmap (fun i => py_get i "vout") vin_items in
    await vin_raw_list := get_tx_raw_list vin_txid_list in
    let! raws := py_iter vin_raw_list in
    let! vin_tx_list := rmap (coin_DESERIALIZER_read_tx self) raws in
    let! prev_out_list :=
      rmap (fun '(tx, n) => py_list_item (outputs tx) n)
           (zip vin_tx_list vin_idx_list) in
    let! prev_out_value_list :=
      rmap (fun out => int_truediv (out_value out) (coin_VALUE_PER_COIN self))
           prev_out_list in
    let prev_out_script_list :=
      map (fun out => VStr (bytes_hex (pk_script out))) prev_out_list in
    await script_detail_list := get_script_detail_list prev_out_script_list in
    let! vin_addrs_list := get_addrs_from_script_list script_detail_list in
    let final_vin_list :=
      map (fun '(txid, addrs, value) => mkVin txid addrs value)
          (filter (fun '(txid, addrs, value) => Is_true (truthy addrs))
                  (zip3 vin_txid_list vin_addrs_list prev_out_value_list)) in
    let! vout := py_get tx_detail "vout" in
    let! vout_items := py_iter vout in
    let! vout_value_list := rmap (fun out => py_get out "value") vout_items in
    let! vout_script_list := rmap (fun out => py_get out "scriptPubKey") vout_items in
    let! vout_addrs_list := get_addrs_from_script_list (VList vout_script_list) in
    let final_vout_list :=
      map (fun '(addrs, value) => mkVout addrs value)
          (filter (fun '(addrs, value) => Is_true (truthy addrs))
                  (zip vout_addrs_list vout_value_list)) in
    let! value_in := total_value (fun x => VFloat (vin_value x)) final_vin_list in
    let! value_out := total_value vout_value final_vout_list in
    let! txid := py_get tx_detail "txid" in
    let! fees := fees_of value_in value_out in
    let! confirmations := py_get_default tx_detail "confirmations" (VInt 0) in
    ret {| r_txid := txid;
           r_vin := final_vin_list;
           r_vout := final_vout_list;
           r_valueOut := value_out;
           r_valueIn := value_in;
           r_fees := fees;
           r_confirmations := confirmations;
           r_time := tx_time |}.

Definition history_factory (tx_detail_list : pyval) : M (list history_record) :=
  let! details := py_iter tx_detail_list in
  gather (map process_single_tx_record details).

(** *** [history] *)

Definition get_single_address_history (query_from query_to : Z) (addr : string)
  : M address_history :=
  await txid_list := get_txid_list addr in
  await tx_detail_list :=
    get_tx_detail_list (map VStr (py_slice txid_list query_from query_to)) in
  await history := history_factory tx_detail_list in
  let! history := sort_by_time history in
  ret {| h_addr := addr; h_txs := history |}.

(** "check pagination": the rejection, or the window with its end
    brought down to at most [MAX_TX_QUERY] entries. *)
Definition check_pagination (query_from query_to : Z) : Response + (Z * Z) :=
  if query_from <? 0 then
    inl (PlainResponse 400
      (Some "query value 'from' must be greater than or equal to 0"))
  else if query_to <? 0 then
    inl (PlainResponse 400
      (Some "query value 'to' must be greater than or equal to 0"))
  else if query_from >? query_to then
    inl (PlainResponse 400
      (Some "query value 'from' must be less than query value 'to'"))
  else
    let query_to :=
      if query_to >? query_from + MAX_TX_QUERY
      then query_from + MAX_TX_QUERY
      else query_to in
    inr (query_from, query_to).

Definition history (request : Request) : M Response :=
  match assoc "addrs" (match_info request) with
  | None => ret (PlainResponse 404 None)
  | Some addrs =>
      let! from := query_getitem (query request) "from" in
      let query_from := parse_int from 0 in
      let! to := query_getitem (query request) "to" in
      let query_to := parse_int to MAX_TX_QUERY in
      match check_pagination query_from query_to with
      | inl rejection => ret rejection
      | inr (query_from, query_to) =>
          await results :=
            gather (map (get_single_address_history query_from query_to)
                        (str_split "," addrs)) in
          let! body := json_of_results results in
          ret (JsonResponse body)
      end
  end.

End Handler.

(** ** Instances of the helpers and of the collaborators

    The examples run the handler on instances of the helpers of
    [electrumx.lib] and on handlers with given collaborators. *)

(** For [hash_to_hex_str]: the bytes of the hash in reverse, in
    hexadecimal. *)
Definition hash_hex (h : bytes) : string := bytes_hex (rev h).

Definition hex_value (c : ascii) : option N :=
  let n := N_of_ascii c in
  if (48 <=? n)%N && (n <=? 57)%N then Some (n - 48)%N
  else if (97 <=? n)%N && (n <=? 102)%N then Some (n - 87)%N
  else if (65 <=? n)%N && (n <=? 70)%N then Some (n - 55)%N
  else None.

(** ASCII whitespace: space, tab, newline, vertical tab, form feed and
    carriage return. *)
Definition is_ascii_space (c : ascii) : bool :=
  let n := N_of_ascii c in
  (n =? 32)%N || ((9 <=? n)%N && (n <=? 13)%N).

(** For [util.hex_to_bytes], which is [bytes.fromhex]: a string of
    hexadecimal digit pairs; ASCII whitespace is skipped before a pair
    and at the end, not inside a pair. *)
Fixpoint fromhex (s : string) : result bytes :=
  match s with
  | EmptyString => Ok []
  | String c1 s1 =>
      if is_ascii_space c1 then fromhex s1
      else
        match s1 with
        | String c2 s' =>
            match hex_value c1, hex_value c2 with
            | Some h, Some l =>
                match Byte.of_N (16 * h + l) with
                | Some b => let* r := fromhex s' in Ok (b :: r)
                | None => Raise ValueError
                end
            | _, _ => Raise ValueError
            end
        | EmptyString => Raise ValueError
        end
  end.

(** For [util.parse_int]: the value of a string of decimal digits, with
    an optional sign, and the default for any other string. *)
Fixpoint digits_value (acc : Z) (s : string) : option Z :=
  match s with
  | EmptyString => Some acc
  | String c s' =>
      let n := N_of_ascii c in
      if (48 <=? n)%N && (n <=? 57)%N
      then digits_value (10 * acc + Z.of_N (n - 48)) s'
      else None
  end.

Definition int_or_default (s : string) (dflt : Z) : Z :=
  match s with
  | EmptyString => dflt
  | String "-" s' =>
      match s' with
      | EmptyString => dflt
      | _ => default dflt (Z.opp <$> digits_value 0 s')
      end
  | _ => default dflt (digits_value 0 s)
  end.

(** An order on the fields the handler reads, by height and then output
    index, on which the examples run.  The tuples of the storage layer
    are compared field by field from their transaction number, which
    the handler never reads and the record [UTXO] leaves out; the
    handler takes the order as a parameter. *)
Definition utxo_by_height (x y : UTXO) : bool :=
  (height x <? height y) || ((height x =? height y) && (tx_pos x <=? tx_pos y)).

(** For [math.log], which divides the natural logarithm of its first
    argument by that of the base, in binary64: the natural logarithms
    of 10, 10^6 and 10^8, rounded to the nearest float, are tabulated;
    the instance is defined on these only. *)
Definition ln_tabulated (x : Z) : option Float.float :=
  match x with
  | 10 => Some (S754_finite false 5184960683398422 (-51))
  | 1000000 => Some (S754_finite false 7777441025097632 (-49))
  | 100000000 => Some (S754_finite false 5184960683398422 (-48))
  | _ => None
  end.

Definition log_of_table (x base : Z) : result Float.float :=
  match ln_tabulated x, ln_tabulated base with
  | Some a, Some b => Ok (SFdiv Float.prec Float.emax a b)
  | _, _ => Raise ValueError
  end.

(** A handler for a coin of 10^8 minor units whose collaborators hold no
    data. *)
Definition idle_handler : HttpHandler :=
  {| coin_VALUE_PER_COIN := 100000000;
     coin_address_to_hashX := fun addr => Ok [];
     coin_DESERIALIZER_read_tx := fun raw => Raise TypeError;
     prec := 8;
     daemon_request := fun method args => Ok (VList []);
     session_mgr_history := fun hashX => Ok [];
     db_all_utxos := fun hashX => Ok [];
     mempool_transaction_summaries := fun hashX => Ok [];
     mempool_unordered_UTXOs := fun hashX => Ok [];
     mempool_potential_spends := fun hashX => Ok ∅;
     mempool_detail := ∅ |}.

(** ** Notions used in the statements *)

(** The binary64 sum of a list of floats, added from the left to 0.0. *)
Definition float_sum (fs : list Float.float) : Float.float :=
  fold_left Float.add fs (S754_zero false).

(** The sign of the exact difference of [(-1)^s1 * c1] and
    [(-1)^s2 * c2], as decimal subtraction gives it. *)
Definition diff_sign (s1 : bool) (c1 : N) (s2 : bool) (c2 : N) : bool :=
  let d := PyDecimal.signed s1 c1 - PyDecimal.signed s2 c2 in
  if d =? 0 then (c1 =? 0)%N && (c2 =? 0)%N && s1 && negb s2 else d <? 0.

(** ** What the specification states

    Definitions that follow the words of the specification, to be
    compared with what the handler computes. *)

(** The order of the specification for the ids of one lookup key: the
    pending ids as the mempool returned them, then the confirmed ids
    sorted by strictly descending height. *)
Definition spec_txid_order (hash_to_hex_str : bytes -> string)
    (pending : list MemPoolTxSummary) (confirmed : list (bytes * Z))
    (ids : list string) : Prop :=
  exists sorted,
    sorted ≡ₚ confirmed
    /\ StronglySorted (fun x y => x.2 > y.2) sorted
    /\ ids = map (fun tx => hash_to_hex_str (hash tx)) pending
             ++ map (fun p => hash_to_hex_str p.1) sorted.

(** The output the specification prefers: the first one whose index [n]
    is the expected [vout]. *)
Definition spec_index_match (vout : Z) (items : list pyval) : option pyval :=
  List.find
    (fun item =>
       match py_get item "n" with
       | inr n => py_eq_int n vout
       | inl _ => false
       end)
    items.

(** The total the specification asks for: the minor-unit amounts summed
    as integers and expressed in coins with [P] decimal places, in
    decimal arithmetic throughout. *)
Definition spec_fixed_point_total (VALUE_PER_COIN P : Z) (minor_units : list Z)
  : PyDecimal.decimal :=
  let sum := fold_left Z.add minor_units 0 in
  PyDecimal.DFin (sum <? 0)
    (PyDecimal.div_half_even (Z.abs_N sum * PyDecimal.pow10 P)
                             (Z.to_N VALUE_PER_COIN))
    (- P).


(** ** Example data *)

Definition hash_a : bytes := [Byte.x0a; Byte.x01].
Definition hash_b : bytes := [Byte.x0b; Byte.x02].
Definition hash_c : bytes := [Byte.x0c; Byte.x03].

(** A handler whose storage holds two unspent outputs and whose mempool
    holds one more, the second stored output having a pending spend. *)
Definition utxo_handler : HttpHandler :=
  {| coin_VALUE_PER_COIN := 100000000;
     coin_address_to_hashX := fun addr => Ok [];
     coin_DESERIALIZER_read_tx := fun raw => Raise TypeError;
     prec := 8;
     daemon_request := fun method args => Ok (VList []);
     session_mgr_history := fun hashX => Ok [];
     db_all_utxos := fun hashX =>
       Ok [mkUTXO hash_b 0 120 7000; mkUTXO hash_a 1 100 5000];
     mempool_transaction_summaries := fun hashX => Ok [];
     mempool_unordered_UTXOs := fun hashX => Ok [mkUTXO hash_c 0 0 900];
     mempool_potential_spends := fun hashX => Ok {[ (hash_b, 0) ]};
     mempool_detail := ∅ |}.

(** A handler for an address with the given pending and confirmed
    transactions. *)
Definition history_handler (pending : list MemPoolTxSummary)
    (confirmed : list (bytes * Z)) : HttpHandler :=
  {| coin_VALUE_PER_COIN := 100000000;
     coin_address_to_hashX := fun addr => Ok [];
     coin_DESERIALIZER_read_tx := fun raw => Raise TypeError;
     prec := 8;
     daemon_request := fun method args => Ok (VList []);
     session_mgr_history := fun hashX => Ok confirmed;
     db_all_utxos := fun hashX => Ok [];
     mempool_transaction_summaries := fun hashX => Ok pending;
     mempool_unordered_UTXOs := fun hashX => Ok [];
     mempool_potential_spends := fun hashX => Ok ∅;
     mempool_detail := ∅ |}.

(** A decoded script classified nonstandard that carries both a primary
    and a segwit address list. *)
Definition nonstandard_with_both : pyval :=
  VDict [("type", VStr "nonstandard");
         ("addresses", VList [VStr "1Primary"]);
         ("segwit", VDict [("addresses", VList [VStr "bc1qsegwit"])])].

(** A decoded script classified nonstandard with a segwit address list
    only, and a standard one. *)
Definition nonstandard_segwit : pyval :=
  VDict [("asm", VStr "0 1234");
         ("type", VStr "nonstandard");
         ("segwit", VDict [("type", VStr "witness_v0_keyhash");
                           ("addresses", VList [VStr "bc1qsegwit"])])].

Definition standard_script : pyval :=
  VDict [("type", VStr "pubkeyhash"); ("addresses", VList [VStr "1Standard"])].

Definition txid_a : string :=
  "aaaaaaaaaaaaaaaaaaaaaaaaaaaaaaaaaaaaaaaaaaaaaaaaaaaaaaaaaaaaaaaa".
Definition txid_b : string :=
  "bbbbbbbbbbbbbbbbbbbbbbbbbbbbbbbbbbbbbbbbbbbbbbbbbbbbbbbbbbbbbbbb".
Definition txid_z : string :=
  "zzzzzzzzzzzzzzzzzzzzzzzzzzzzzzzzzzzzzzzzzzzzzzzzzzzzzzzzzzzzzzzz".

(** An output of a verbose transaction that pays [coins] to [address]. *)
Definition paying_output (n coins : Z) (address script : string) : pyval :=
  VDict [("value", VFloat (Float.of_Z coins));
         ("n", VInt n);
         ("scriptPubKey",
          VDict [("hex", VStr script);
                 ("type", VStr "pubkeyhash");
                 ("addresses", VList [VStr address])])].

(** A data-carrying output: its script has no addresses. *)
Definition data_output (n : Z) (script : string) : pyval :=
  VDict [("value", VFloat (Float.of_Z 0));
         ("n", VInt n);
         ("scriptPubKey", VDict [("hex", VStr script); ("type", VStr "nulldata")])].

(** A transaction that pays the same address twice: 1 coin at output 0
    and 2 coins at output 1. *)
Definition pays_twice : pyval :=
  VDict [("txid", VStr txid_a);
         ("confirmations", VInt 6);
         ("vout", VList [paying_output 0 1 "1Alice" "76a914aa88ac";
                         paying_output 1 2 "1Alice" "76a914aa88ac"])].

(** A transaction with a data-carrying output 0, an output to another
    address and an output to "1Alice". *)
Definition pays_once : pyval :=
  VDict [("txid", VStr txid_b);
         ("vout", VList [data_output 0 "6a0548656c6c6f";
                         paying_output 1 3 "1Bob" "76a914bb88ac";
                         paying_output 2 5 "1Alice" "76a914aa88ac"])].

(** A pending transaction, as the daemon details it: no confirmation
    count and no block time. *)
Definition pending_detail : pyval :=
  VDict [("txid", VStr txid_a); ("vin", VList []); ("vout", VList [])].

(** A confirmed transaction with one input. *)
Definition confirmed_detail : pyval :=
  VDict [("txid", VStr txid_a);
         ("confirmations", VInt 3);
         ("time", VInt 1600000000);
         ("vin", VList [VDict [("txid", VStr txid_b); ("vout", VInt 0)]]);
         ("vout", VList [paying_output 0 1 "1Alice" "76a914aa88ac"])].

(** A handler whose mempool snapshot has an entry, stale or not, for
    [txid_a]. *)
Definition snapshot_handler : HttpHandler :=
  {| coin_VALUE_PER_COIN := 100000000;
     coin_address_to_hashX := fun addr => Ok [];
     coin_DESERIALIZER_read_tx := fun raw => Raise TypeError;
     prec := 8;
     daemon_request := fun method args => Ok (VList []);
     session_mgr_history := fun hashX => Ok [];
     db_all_utxos := fun hashX => Ok [];
     mempool_transaction_summaries := fun hashX => Ok [];
     mempool_unordered_UTXOs := fun hashX => Ok [];
     mempool_potential_spends := fun hashX => Ok ∅;
     mempool_detail := {[ txid_a := VDict [("time", VInt 1599999000)] ]} |}.

(** The hash whose hexadecimal form is [txid_a]. *)
Definition hash_aa : bytes := repeat Byte.xaa 32.

(** A handler for three addresses of which only "B" has a transaction,
    [confirmed_detail]; the daemon fails to decode scripts. *)
Definition decode_failure_handler : HttpHandler :=
  {| coin_VALUE_PER_COIN := 100000000;
     coin_address_to_hashX := fun addr =>
       if String.eqb addr "B" then Ok [Byte.x0b] else Ok [];
     coin_DESERIALIZER_read_tx := fun raw =>
       Ok (mkTx [mkTxOutput 5000000000 [Byte.x76; Byte.xa9]]);
     prec := 8;
     daemon_request := fun method args =>
       if String.eqb method "getdetailedtransactions" then
         match args with
         | [VList []] => Ok (VList [])
         | _ => Ok (VList [confirmed_detail])
         end
       else if String.eqb method "getrawtransactions" then
         Ok (VList [VBytes [Byte.x01]])
       else Raise (UpstreamError "decode_scripts failed");
     session_mgr_history := fun hashX =>
       match hashX with
       | [] => Ok []
       | _ => Ok [(hash_aa, 100)]
       end;
     db_all_utxos := fun hashX => Ok [];
     mempool_transaction_summaries := fun hashX => Ok [];
     mempool_unordered_UTXOs := fun hashX => Ok [];
     mempool_potential_spends := fun hashX => Ok ∅;
     mempool_detail := ∅ |}.

Definition three_address_request : Request :=
  {| match_info := [("addrs", "A,B,C")];
     query := [("from", "0"); ("to", "50")] |}.

(** A coin of 10^8 minor units.  The daemon returns one raw transaction
    per amount of [amounts], and the i-th deserializes to a transaction
    whose single output holds the i-th amount and is paid to "DAlice". *)
Definition spending_handler (amounts : list Z) : HttpHandler :=
  {| coin_VALUE_PER_COIN := 100000000;
     coin_address_to_hashX := fun addr => Ok [];
     coin_DESERIALIZER_read_tx := fun raw =>
       match raw with
       | VBytes [b] =>
           match amounts !! N.to_nat (Byte.to_N b) with
           | Some amount => Ok (mkTx [mkTxOutput amount [Byte.x76; Byte.xa9]])
           | None => Raise IndexError
           end
       | _ => Raise TypeError
       end;
     prec := 8;
     daemon_request := fun method args =>
       if String.eqb method "getrawtransactions" then
         Ok (VList (imap (fun i _ =>
                            VBytes [default Byte.x00 (Byte.of_N (N.of_nat i))])
                         amounts))
       else if String.eqb method "decode_scripts" then
         Ok (VList (map (fun _ => VDict [("type", VStr "pubkeyhash");
                                         ("addresses", VList [VStr "DAlice"])])
                        amounts))
       else Ok (VList []);
     session_mgr_history := fun hashX => Ok [];
     db_all_utxos := fun hashX => Ok [];
     mempool_transaction_summaries := fun hashX => Ok [];
     mempool_unordered_UTXOs := fun hashX => Ok [];
     mempool_potential_spends := fun hashX => Ok ∅;
     mempool_detail := ∅ |}.

(** A confirmed transaction with [inputs] inputs and one output, which
    pays [coins] to "DBob". *)
Definition spending_detail (inputs : nat) (coins : Float.float) : pyval :=
  VDict [("txid", VStr txid_a);
         ("confirmations", VInt 3);
         ("time", VInt 1600000000);
         ("vin", VList (replicate inputs
                          (VDict [("txid", VStr txid_b); ("vout", VInt 0)])));
         ("vout", VList [VDict [("value", VFloat coins);
                                ("n", VInt 0);
                                ("scriptPubKey",
                                 VDict [("type", VStr "pubkeyhash");
                                        ("addresses", VList [VStr "DBob"])])]])].


(** The record built when the input holds 70000000.00000002 coins and
    the output pays 70000000 coins. *)
Definition large_value_record : history_record :=
  {| r_txid := VStr txid_a;
     r_vin := [mkVin (VStr txid_b) (VList [VStr "DAlice"])
                     (S754_finite false 4697620480000001 (-26))];
     r_vout := [mkVout (VList [VStr "DBob"]) (VFloat (Float.of_Z 70000000))];
     r_valueOut := PyDecimal.DFin false 7000000000000000 (-8);
     r_valueIn := PyDecimal.DFin false 7000000000000001 (-8);
     r_fees := PyDecimal.DFin false 1 (-8);
     r_confirmations := VInt 3;
     r_time := VInt 1600000000 |}.

(** The record built when the input holds 1 coin and the output pays
    0.9999 coins. *)
Definition unit_value_record : history_record :=
  {| r_txid := VStr txid_a;
     r_vin := [mkVin (VStr txid_b) (VList [VStr "DAlice"]) (Float.of_Z 1)];
     r_vout := [mkVout (VList [VStr "DBob"]) (VFloat (Float.quot_Z 9999 10000))];
     r_valueOut := PyDecimal.DFin false 99990000 (-8);
     r_valueIn := PyDecimal.DFin false 100000000 (-8);
     r_fees := PyDecimal.DFin false 10000 (-8);
     r_confirmations := VInt 3;
     r_time := VInt 1600000000 |}.

(** ** The unspent outputs of addresses ([address_listunspent]) *)

(** [list(dict.fromkeys(l))]: a dict keeps its keys in the order of
    their first insertion, and inserting a key again leaves it where it
    is.  [seen] holds the keys inserted so far. *)
Fixpoint fromkeys_go (seen : list string) (l : list string) : list string :=
  match l with
  | [] => []
  | x :: l' =>
      if bool_decide (x ∈ seen) then fromkeys_go seen l'
      else x :: fromkeys_go (x :: seen) l'
  end.

Definition py_fromkeys (l : list string) : list string := fromkeys_go [] l.

(** A [for x in l] loop whose body awaits and appends to a list: the
    bodies run one after the other, and the first exception leaves the
    loop, so the rest of [l] is not visited. *)
Fixpoint for_each {A B} (body : A -> M (list B)) (l : list A) : M (list B) :=
  match l with
  | [] => ret []
  | x :: l' =>
      await appended := body x in
      await rest := for_each body l' in
      ret (appended ++ rest)
  end.

Definition dict_of_wallet_entry (e : wallet_entry) : pyval :=
  VDict [("address", VStr (w_address e));
         ("txid", w_txid e);
         ("vout", VInt (w_vout e));
         ("scriptPubKey", w_scriptPubKey e);
         ("amount", w_amount e);
         ("satoshis", VInt (w_satoshis e));
         ("height", VInt (w_height e));
         ("confirmations", w_confirmations e)].

Section AddressListUnspent.

Variable hash_to_hex_str : bytes -> string.
Variable hex_to_bytes : string -> result bytes.
Variable utxo_leb : UTXO -> UTXO -> bool.

Variable self : HttpHandler.

(** The body of the loop over [list_utxo]: the detail of the transaction
    is fetched, verbose, and the enriched entry is appended. *)
Definition unspent_entry (address : string) (utxo : unspent) : M (list wallet_entry) :=
  await tx_detail :=
    transaction_get hex_to_bytes self (u_tx_hash utxo) true in
  let! entry := wallet_unspent address utxo tx_detail in
  ret [entry].

(** The body of the loop over [list_addr]. *)
Definition unspent_of_address (address : string) : M (list wallet_entry) :=
  let! hashX := address_to_hashX self address in
  await list_utxo := hashX_listunspent hash_to_hex_str utxo_leb self hashX in
  for_each (unspent_entry address) list_utxo.

(** [web.json_response(list_tx)] serializes [list_tx] when the response
    is built. *)
Definition address_listunspent (request : Request) : M Response :=
  let addrs := default "" (assoc "addrs" (match_info request)) in
  if String.eqb addrs "" then ret (PlainResponse 404 None)
  else
    let list_addr := py_fromkeys (str_split "," addrs) in
    await list_tx := for_each unspent_of_address list_addr in
    let! body := json_value (VList (map dict_of_wallet_entry list_tx)) in
    ret (JsonResponse body).

End AddressListUnspent.

(** ** Further notions used in the statements *)

(** The block time of a record when it is an int. *)
Definition int_time (r : history_record) : option Z :=
  match r_time r with
  | VInt z => Some z
  | _ => None
  end.

(** ** Further example data *)

(** The record built for a transaction without inputs that pays 1 coin
    to "DBob". *)
Definition no_input_record : history_record :=
  {| r_txid := VStr txid_a;
     r_vin := [];
     r_vout := [mkVout (VList [VStr "DBob"]) (VFloat (Float.of_Z 1))];
     r_valueOut := PyDecimal.DFin false 100000000 (-8);
     r_valueIn := PyDecimal.DFin false 0 (-8);
     r_fees := PyDecimal.DFin true 100000000 (-8);
     r_confirmations := VInt 3;
     r_time := VInt 1600000000 |}.

(** A confirmed coinbase transaction, as the daemon details it: its
    input carries no [txid]. *)
Definition coinbase_detail : pyval :=
  VDict [("txid", VStr txid_a);
         ("confirmations", VInt 100);
         ("time", VInt 1600000000);
         ("vin", VList [VDict [("coinbase", VStr "04ffff001d0104");
                               ("sequence", VInt 4294967295)]]);
         ("vout", VList [paying_output 0 50 "1Miner" "76a914cc88ac"])].

(** A record with the given id and time, and nothing else. *)
Definition record_at (txid : string) (time : Z) : history_record :=
  {| r_txid := VStr txid;
     r_vin := [];
     r_vout := [];
     r_valueOut := PyDecimal.DFin false 0 (-8);
     r_valueIn := PyDecimal.DFin false 0 (-8);
     r_fees := PyDecimal.DFin false 0 (-8);
     r_confirmations := VInt 1;
     r_time := VInt time |}.

(** A transaction whose output 0 pays "1Alice" and whose output 1
    carries no script. *)
Definition scriptless_detail : pyval :=
  VDict [("txid", VStr txid_a);
         ("confirmations", VInt 6);
         ("vout", VList [paying_output 0 1 "1Alice" "76a914aa88ac";
                         VDict [("value", VFloat (Float.of_Z 2)); ("n", VInt 1)]])].

(** A handler that knows the addresses "1Alice" and "1Bob".  The
    storage holds one unspent output for "1Alice", output 0 of the
    transaction [pays_twice], which the daemon details. *)
Definition wallet_handler : HttpHandler :=
  {| coin_VALUE_PER_COIN := 100000000;
     coin_address_to_hashX := fun addr =>
       if String.eqb addr "1Alice" then Ok [Byte.x01]
       else if String.eqb addr "1Bob" then Ok [Byte.x02]
       else Raise ValueError;
     coin_DESERIALIZER_read_tx := fun raw => Raise TypeError;
     prec := 8;
     daemon_request := fun method args =>
       if String.eqb method "getrawtransaction" then Ok pays_twice
       else Ok (VList []);
     session_mgr_history := fun hashX => Ok [];
     db_all_utxos := fun hashX =>
       match hashX with
       | [Byte.x01] => Ok [mkUTXO hash_aa 0 100 100000000]
       | _ => Ok []
       end;
     mempool_transaction_summaries := fun hashX => Ok [];
     mempool_unordered_UTXOs := fun hashX => Ok [];
     mempool_potential_spends := fun hashX => Ok ∅;
     mempool_detail := ∅ |}.

(** * Properties *)

(** ** The result and coroutine monads *)

Lemma rbind_Ok {A B} (r : result A) (k : A -> result B) (b : B) :
  rbind r k = Ok b <-> exists a, r = Ok a /\ k a = Ok b.
Proof.
  destruct r as [e|a]; simpl; split.
  - discriminate.
  - intros (a & Ha & _). discriminate.
  - eauto.
  - intros (a' & Ha & Hk). by simplify_eq.
Qed.

Lemma rbind_Raise {A B} (r : result A) (k : A -> result B) (e : exn) :
  r = Raise e -> rbind r k = Raise e.
Proof. by intros ->. Qed.

Lemma outcome_bindM_Ok {A B} (m : M A) (k : A -> M B) (b : B) :
  outcome (bindM m k) = Ok b <->
  exists a, outcome m = Ok a /\ outcome (k a) = Ok b.
Proof.
  unfold bindM. destruct (outcome m) as [e|a]; simpl; split.
  - discriminate.
  - intros (a & Ha & _). discriminate.
  - eauto.
  - intros (a' & Ha & Hk). by simplify_eq.
Qed.

Lemma outcome_bindM_Raise {A B} (m : M A) (k : A -> M B) (e : exn) :
  outcome m = Raise e -> outcome (bindM m k) = Raise e.
Proof. unfold bindM. by intros ->. Qed.

Lemma outcome_bindM_step {A B} (m : M A) (k : A -> M B) (a : A) :
  outcome m = Ok a -> outcome (bindM m k) = outcome (k a).
Proof. unfold bindM. by intros ->. Qed.

Lemma calls_bindM_step {A B} (m : M A) (k : A -> M B) (a : A) :
  outcome m = Ok a -> calls (bindM m k) = calls m ++ calls (k a).
Proof. unfold bindM. by intros ->. Qed.

(** ** Pagination *)

Lemma check_pagination_rejects (query_from query_to : Z) :
  (exists text, check_pagination query_from query_to
                = inl (PlainResponse 400 (Some text)))
  <-> query_from < 0 \/ query_to < 0 \/ query_from > query_to.
Proof.
  unfold check_pagination.
  destruct (Z.ltb_spec query_from 0); [split; eauto|].
  destruct (Z.ltb_spec query_to 0); [split; eauto|].
  destruct (Z.gtb_spec query_from query_to); [split; eauto; lia|].
  split; [intros (? & ?); discriminate | lia].
Qed.

Lemma check_pagination_window (query_from query_to : Z) :
  0 <= query_from <= query_to ->
  check_pagination query_from query_to
  = inr (query_from, Z.min query_to (query_from + MAX_TX_QUERY)).
Proof.
  intros H. unfold check_pagination.
  destruct (Z.ltb_spec query_from 0); [lia|].
  destruct (Z.ltb_spec query_to 0); [lia|].
  destruct (Z.gtb_spec query_from query_to); [lia|].
  destruct (Z.gtb_spec query_to (query_from + MAX_TX_QUERY)); do 2 f_equal; lia.
Qed.

(** C6.  The pagination check of [history] rejects the window with a
    400 response exactly when [from < 0], [to < 0] or [from > to], and
    otherwise lets through [(from, min(to, from + MAX_TX_QUERY))]; a
    rejected request is answered without a single collaborator call,
    whatever the collaborators are; (10, 5) and (-1, 5) are rejected and
    (0, 200) becomes (0, 50). *)
Theorem pagination_gate :
  (forall query_from query_to,
     (exists text, check_pagination query_from query_to
                   = inl (PlainResponse 400 (Some text)))
     <-> query_from < 0 \/ query_to < 0 \/ query_from > query_to)
  /\ (forall query_from query_to,
        ~ (query_from < 0 \/ query_to < 0 \/ query_from > query_to) ->
        check_pagination query_from query_to
        = inr (query_from, Z.min query_to (query_from + MAX_TX_QUERY)))
  /\ (forall hash_to_hex_str parse_int self request addrs from to,
        assoc "addrs" (match_info request) = Some addrs ->
        assoc "from" (query request) = Some from ->
        assoc "to" (query request) = Some to ->
        (parse_int from 0 < 0 \/ parse_int to MAX_TX_QUERY < 0
         \/ parse_int from 0 > parse_int to MAX_TX_QUERY) ->
        (exists text,
           outcome (history hash_to_hex_str parse_int self request)
           = Ok (PlainResponse 400 (Some text)))
        /\ calls (history hash_to_hex_str parse_int self request) = [])
  /\ (exists text, check_pagination 10 5 = inl (PlainResponse 400 (Some text)))
  /\ (exists text, check_pagination (-1) 5 = inl (PlainResponse 400 (Some text)))
  /\ check_pagination 0 200 = inr (0, 50).
Proof.
  split; [exact check_pagination_rejects|].
  split; [intros; apply check_pagination_window; lia|].
  split; [|repeat split; eauto].
  intros hash_to_hex_str parse_int self request addrs from to Ha Hf Ht Hbad.
  apply check_pagination_rejects in Hbad as (text & Hrej).
  unfold history, query_getitem. rewrite Ha, Hf, Ht. simpl.
  rewrite Hrej. simpl. eauto.
Qed.

(** A request for the window from 10 to 5 is answered 400 with no call
    to a collaborator; the window from 0 to 200 is cut to 50 entries. *)
Lemma pagination_gate_witness :
  (exists text,
     outcome (history hash_hex int_or_default idle_handler
                {| match_info := [("addrs", "A,B")];
                   query := [("from", "10"); ("to", "5")] |})
     = Ok (PlainResponse 400 (Some text)))
  /\ calls (history hash_hex int_or_default idle_handler
              {| match_info := [("addrs", "A,B")];
                 query := [("from", "10"); ("to", "5")] |}) = []
  /\ check_pagination 0 200 = inr (0, Z.min 200 (0 + MAX_TX_QUERY)).
Proof.
  destruct pagination_gate as (_ & Hwindow & Hreject & _).
  destruct (Hreject hash_hex int_or_default idle_handler
              {| match_info := [("addrs", "A,B")];
                 query := [("from", "10"); ("to", "5")] |}
              "A,B" "10" "5" eq_refl eq_refl eq_refl) as [H400 Hcalls].
  { right. right. reflexivity. }
  split; [exact H400|]. split; [exact Hcalls|].
  apply Hwindow. intros [H|[H|H]]; discriminate H.
Defined.

(** ** Hexadecimal forms *)

Lemma hex_pair_decodes (x : Byte.byte) :
  let n := Byte.to_N x in
  hex_value (hex_digit (n / 16)) = Some (n / 16)%N
  /\ hex_value (hex_digit (n mod 16)) = Some (n mod 16)%N
  /\ Byte.of_N (16 * (n / 16) + n mod 16) = Some x.
Proof. destruct x; vm_compute; auto. Qed.

Lemma hex_digit_not_space (n : N) : is_ascii_space (hex_digit n) = false.
Proof.
  destruct n as [|p]; [done|].
  do 4 (destruct p as [p|p|]; try reflexivity).
Qed.

Lemma fromhex_bytes_hex (b : bytes) : fromhex (bytes_hex b) = Ok b.
Proof.
  induction b as [|x b IH]; [done|].
  cbn [bytes_hex fromhex]. rewrite hex_digit_not_space.
  destruct (hex_pair_decodes x) as (-> & -> & ->).
  by rewrite IH.
Qed.

Lemma bytes_hex_inj (b b' : bytes) : bytes_hex b = bytes_hex b' -> b = b'.
Proof.
  intros H. apply (f_equal fromhex) in H.
  rewrite !fromhex_bytes_hex in H. by simplify_eq.
Qed.

Lemma hash_hex_inj (h h' : bytes) : hash_hex h = hash_hex h' -> h = h'.
Proof.
  unfold hash_hex. intros H%bytes_hex_inj.
  rewrite <- (rev_involutive h), <- (rev_involutive h'). by rewrite H.
Qed.

(** ** The unspent listing *)

Lemma sorted_utxos_elem_of utxo_leb (utxos : list UTXO) (u : UTXO) :
  u ∈ sorted_utxos utxo_leb utxos <-> u ∈ utxos.
Proof. unfold sorted_utxos. by rewrite merge_sort_Permutation. Qed.

(** C5.  Whatever the storage returns, whatever the mempool adds and
    whatever its pending-spend set is, the listing of [hashX_listunspent]
    is returned and holds no entry whose transaction id and output index
    are those of a pair of the pending-spend set; every other output is
    listed. *)
Theorem listunspent_excludes_pending_spends
    (hash_to_hex_str : bytes -> string) (utxo_leb : UTXO -> UTXO -> bool)
    (self : HttpHandler) (hashX : bytes)
    (stored pending : list UTXO) (spends : gset (bytes * Z)) :
  (forall h h', hash_to_hex_str h = hash_to_hex_str h' -> h = h') ->
  db_all_utxos self hashX = Ok stored ->
  mempool_unordered_UTXOs self hashX = Ok pending ->
  mempool_potential_spends self hashX = Ok spends ->
  exists listing,
    outcome (hashX_listunspent hash_to_hex_str utxo_leb self hashX) = Ok listing
    /\ (forall entry h,
          entry ∈ listing ->
          hash_to_hex_str h = u_tx_hash entry ->
          (h, u_tx_pos entry) ∉ spends)
    /\ (forall utxo,
          utxo ∈ stored ++ pending ->
          (tx_hash utxo, tx_pos utxo) ∉ spends ->
          unspent_of_utxo hash_to_hex_str utxo ∈ listing).
Proof.
  intros Hinj Hs Hp Hsp. eexists. split; [|split].
  - unfold hashX_listunspent, bindM, perform, ret. simpl.
    rewrite Hs. simpl. rewrite Hp. simpl. rewrite Hsp. simpl. reflexivity.
  - intros entry h Hin Hhex.
    apply list_elem_of_In, in_map_iff in Hin as (u & <- & Hu).
    apply list_elem_of_In, list_elem_of_filter in Hu as [Hns _].
    simpl in Hhex. apply Hinj in Hhex. by subst h.
  - intros u Hu Hns.
    apply list_elem_of_In, in_map. apply list_elem_of_In, list_elem_of_filter.
    split; [done|].
    rewrite !elem_of_app in *. rewrite sorted_utxos_elem_of. done.
Qed.

Lemma listunspent_excludes_pending_spends_witness :
  exists listing,
    outcome (hashX_listunspent hash_hex utxo_by_height utxo_handler []) = Ok listing
    /\ (forall entry h,
          entry ∈ listing ->
          hash_hex h = u_tx_hash entry ->
          (h, u_tx_pos entry) ∉ ({[ (hash_b, 0) ]} : gset (bytes * Z)))
    /\ (forall utxo,
          utxo ∈ [mkUTXO hash_b 0 120 7000; mkUTXO hash_a 1 100 5000]
                 ++ [mkUTXO hash_c 0 0 900] ->
          (tx_hash utxo, tx_pos utxo) ∉ ({[ (hash_b, 0) ]} : gset (bytes * Z)) ->
          unspent_of_utxo hash_hex utxo ∈ listing).
Proof.
  apply (listunspent_excludes_pending_spends
           hash_hex utxo_by_height utxo_handler []
           [mkUTXO hash_b 0 120 7000; mkUTXO hash_a 1 100 5000]
           [mkUTXO hash_c 0 0 900] {[ (hash_b, 0) ]});
    [exact hash_hex_inj | reflexivity | reflexivity | reflexivity].
Defined.

(** ** The order of the collected transaction ids *)

Lemma rev_descending (l : list (bytes * Z)) :
  StronglySorted (fun x y => x.2 <= y.2) l ->
  StronglySorted (fun x y => x.2 >= y.2) (rev l).
Proof.
  induction 1 as [|x l _ IH Hx]; simpl; [constructor|].
  apply StronglySorted_app_2; [|done | repeat constructor].
  intros y z Hy Hz. apply list_elem_of_In, in_rev in Hy.
  apply list_elem_of_singleton in Hz as ->.
  rewrite Forall_forall in Hx. apply Z.le_ge, Hx. by apply list_elem_of_In.
Qed.

Lemma get_txid_list_outcome hash_to_hex_str self addr hashX pending confirmed :
  coin_address_to_hashX self addr = Ok hashX ->
  mempool_transaction_summaries self hashX = Ok pending ->
  session_mgr_history self hashX = Ok confirmed ->
  outcome (get_txid_list hash_to_hex_str self addr)
  = Ok (map (fun tx => hash_to_hex_str (hash tx)) pending
        ++ map (fun p => hash_to_hex_str p.1) (rev confirmed)).
Proof.
  intros Ha Hp Hc.
  unfold get_txid_list, address_to_hashX, bindM, lift, gather2,
    get_unconfirmed_list, get_confirmed_list, bindM, perform, ret. simpl.
  rewrite Ha. simpl. rewrite Hp, Hc. simpl.
  do 2 f_equal. apply map_ext. by intros [].
Qed.

(** C3 (as amended).  The collected list is the pending ids in the order
    of the mempool followed by the confirmed ids in the reverse of the
    order in which the storage returned them; when the storage returns
    them by ascending height, the confirmed part is by descending height,
    equal heights allowed. *)
Theorem txid_list_pending_then_reversed_confirmed
    (hash_to_hex_str : bytes -> string) (self : HttpHandler) (addr : string)
    (hashX : bytes) (pending : list MemPoolTxSummary)
    (confirmed : list (bytes * Z)) :
  coin_address_to_hashX self addr = Ok hashX ->
  mempool_transaction_summaries self hashX = Ok pending ->
  session_mgr_history self hashX = Ok confirmed ->
  outcome (get_txid_list hash_to_hex_str self addr)
  = Ok (map (fun tx => hash_to_hex_str (hash tx)) pending
        ++ map (fun p => hash_to_hex_str p.1) (rev confirmed))
  /\ (StronglySorted (fun x y => x.2 <= y.2) confirmed ->
      StronglySorted (fun x y => x.2 >= y.2) (rev confirmed)).
Proof.
  intros Ha Hp Hc. split.
  - by apply get_txid_list_outcome with hashX.
  - apply rev_descending.
Qed.

(** The example of the specification: confirmed transactions at heights
    50 and 100, as the storage returns them, and one pending id. *)
Lemma txid_list_pending_then_reversed_confirmed_witness :
  outcome (get_txid_list hash_hex
             (history_handler [mkSummary hash_c] [(hash_a, 50); (hash_b, 100)])
             "addr")
  = Ok [hash_hex hash_c; hash_hex hash_b; hash_hex hash_a]
  /\ StronglySorted (fun x y => x.2 >= y.2) [(hash_b, 100); (hash_a, 50)].
Proof.
  destruct (txid_list_pending_then_reversed_confirmed hash_hex
              (history_handler [mkSummary hash_c] [(hash_a, 50); (hash_b, 100)])
              "addr" [] [mkSummary hash_c] [(hash_a, 50); (hash_b, 100)])
    as [Hids Hdesc]; [reflexivity..|].
  split; [exact Hids|].
  apply Hdesc. repeat constructor; simpl; lia.
Defined.

(** C3 (as stated) fails: two confirmed transactions of one block, both
    at height 100, cannot be listed by strictly descending height. *)
Lemma txid_list_not_strictly_descending :
  exists ids,
    outcome (get_txid_list hash_hex
               (history_handler [mkSummary hash_c] [(hash_a, 100); (hash_b, 100)])
               "addr") = Ok ids
    /\ ids = [hash_hex hash_c; hash_hex hash_b; hash_hex hash_a]
    /\ ~ spec_txid_order hash_hex [mkSummary hash_c]
           [(hash_a, 100); (hash_b, 100)] ids.
Proof.
  eexists. split; [reflexivity|]. split; [reflexivity|].
  intros (sorted & Hperm & Hsorted & _).
  assert (Hall : Forall (fun x => x.2 = 100) sorted).
  { rewrite Hperm. repeat constructor. }
  destruct sorted as [|x [|y sorted]];
    [by apply Permutation_length in Hperm..|].
  inversion Hsorted as [|? ? _ Hx]; subst.
  inversion Hx as [|? ? Hxy _]; subst.
  inversion Hall as [|? ? Hx100 Hall']; subst.
  inversion Hall' as [|? ? Hy100 _]; subst.
  lia.
Qed.

(** ** Address extraction from decoded scripts *)

Lemma rmap_lookup {A B} (f : A -> result B) (l : list A) (l' : list B)
    (i : nat) (x : A) :
  rmap f l = Ok l' -> l !! i = Some x ->
  exists y, f x = Ok y /\ l' !! i = Some y.
Proof.
  revert l' i. induction l as [|a l IH]; intros l' i Hmap Hi; [done|].
  simpl in Hmap. apply rbind_Ok in Hmap as (y & Hy & Hmap).
  apply rbind_Ok in Hmap as (ys & Hys & Hmap). simplify_eq.
  destruct i as [|i]; simpl in *.
  - simplify_eq. eauto.
  - eauto.
Qed.

Lemma dict_lookup_truthy (k : string) (d : list (string * pyval)) (v : pyval) :
  dict_lookup k d = Some v -> truthy (VDict d) = true.
Proof. by destruct d. Qed.

Lemma addrs_of_script_primary (d : list (string * pyval)) (addresses : pyval) :
  dict_lookup "addresses" d = Some addresses ->
  truthy addresses = true ->
  addrs_of_script (VDict d) = Ok addresses.
Proof.
  intros Ha Ht. unfold addrs_of_script.
  rewrite (dict_lookup_truthy _ _ _ Ha). cbn -[truthy].
  rewrite Ha. cbn -[truthy]. by rewrite Ht.
Qed.

Lemma addrs_of_script_segwit (d segwit : list (string * pyval))
    (segwit_addresses : pyval) :
  dict_lookup "type" d = Some (VStr "nonstandard") ->
  truthy (default VNone (dict_lookup "addresses" d)) = false ->
  dict_lookup "segwit" d = Some (VDict segwit) ->
  dict_lookup "addresses" segwit = Some segwit_addresses ->
  truthy segwit_addresses = true ->
  addrs_of_script (VDict d) = Ok segwit_addresses.
Proof.
  intros Hty Hprim Hseg Hsa Ht. unfold addrs_of_script.
  rewrite (dict_lookup_truthy _ _ _ Hty). cbn -[truthy].
  rewrite Hprim, Hty. cbn -[truthy]. rewrite Hseg. cbn -[truthy].
  rewrite (dict_lookup_truthy _ _ _ Hsa), Hsa. cbn -[truthy]. by rewrite Ht.
Qed.

(** C9 (as amended).  For a decoded script classified "nonstandard"
    whose own address list is absent or empty and which bears a populated
    segwit address list, the extraction yields that segwit list at the
    position of the script; a populated address list of the script itself
    is what the extraction yields, whatever the classification and the
    segwit field. *)
Theorem nonstandard_script_yields_segwit_addresses :
  (forall (script_list : pyval) (scripts result : list pyval) (i : nat)
          (d segwit : list (string * pyval)) (segwit_addresses : pyval),
      py_iter script_list = Ok scripts ->
      scripts !! i = Some (VDict d) ->
      dict_lookup "type" d = Some (VStr "nonstandard") ->
      truthy (default VNone (dict_lookup "addresses" d)) = false ->
      dict_lookup "segwit" d = Some (VDict segwit) ->
      dict_lookup "addresses" segwit = Some segwit_addresses ->
      truthy segwit_addresses = true ->
      get_addrs_from_script_list script_list = Ok result ->
      addrs_of_script (VDict d) = Ok segwit_addresses
      /\ result !! i = Some segwit_addresses)
  /\ (forall (script_list : pyval) (scripts result : list pyval) (i : nat)
             (d : list (string * pyval)) (addresses : pyval),
        py_iter script_list = Ok scripts ->
        scripts !! i = Some (VDict d) ->
        dict_lookup "addresses" d = Some addresses ->
        truthy addresses = true ->
        get_addrs_from_script_list script_list = Ok result ->
        result !! i = Some addresses).
Proof.
  split.
  - intros script_list scripts result i d segwit sa Hit Hi Hty Hprim Hseg Hsa Ht Hres.
    pose proof (addrs_of_script_segwit d segwit sa Hty Hprim Hseg Hsa Ht) as Hone.
    split; [done|].
    unfold get_addrs_from_script_list in Hres. rewrite Hit in Hres. simpl in Hres.
    destruct (rmap_lookup _ _ _ _ _ Hres Hi) as (y & Hy & Hlook). congruence.
  - intros script_list scripts result i d addresses Hit Hi Ha Ht Hres.
    pose proof (addrs_of_script_primary d addresses Ha Ht) as Hone.
    unfold get_addrs_from_script_list in Hres. rewrite Hit in Hres. simpl in Hres.
    destruct (rmap_lookup _ _ _ _ _ Hres Hi) as (y & Hy & Hlook). congruence.
Qed.

Lemma nonstandard_script_yields_segwit_addresses_witness :
  get_addrs_from_script_list (VList [standard_script; nonstandard_segwit])
  = Ok [VList [VStr "1Standard"]; VList [VStr "bc1qsegwit"]]
  /\ (addrs_of_script nonstandard_segwit = Ok (VList [VStr "bc1qsegwit"])
      /\ [VList [VStr "1Standard"]; VList [VStr "bc1qsegwit"]] !! 1%nat
         = Some (VList [VStr "bc1qsegwit"]))
  /\ [VList [VStr "1Standard"]; VList [VStr "bc1qsegwit"]] !! 0%nat
     = Some (VList [VStr "1Standard"]).
Proof.
  destruct nonstandard_script_yields_segwit_addresses as [Hsegwit Hprimary].
  split; [reflexivity|]. split.
  - eapply (Hsegwit (VList [standard_script; nonstandard_segwit]) _ _ 1%nat);
      reflexivity.
  - eapply (Hprimary (VList [standard_script; nonstandard_segwit]) _ _ 0%nat);
      reflexivity.
Defined.

(** C9 (as stated) fails: a script classified "nonstandard" with a
    populated segwit address list and a populated address list of its own
    yields the latter. *)
Lemma nonstandard_script_primary_addresses_win :
  exists result,
    get_addrs_from_script_list (VList [nonstandard_with_both]) = Ok result
    /\ py_get nonstandard_with_both "type" = Ok (VStr "nonstandard")
    /\ (exists segwit,
          py_get nonstandard_with_both "segwit" = Ok segwit
          /\ py_get segwit "addresses" = Ok (VList [VStr "bc1qsegwit"]))
    /\ result = [VList [VStr "1Primary"]]
    /\ result <> [VList [VStr "bc1qsegwit"]].
Proof.
  eexists. split; [reflexivity|]. split; [reflexivity|].
  split; [eexists; split; reflexivity|]. split; [reflexivity|]. discriminate.
Qed.

(** ** Enrichment of an unspent entry *)

Lemma rfilter_app {A} (f : A -> result bool) (l1 l2 r1 r2 : list A) :
  rfilter f l1 = Ok r1 -> rfilter f l2 = Ok r2 ->
  rfilter f (l1 ++ l2) = Ok (r1 ++ r2).
Proof.
  revert r1. induction l1 as [|x l1 IH]; intros r1 H1 H2; simpl in *.
  - by simplify_eq.
  - apply rbind_Ok in H1 as (b & Hb & H1).
    apply rbind_Ok in H1 as (ys & Hys & H1). simplify_eq.
    rewrite Hb. simpl. rewrite (IH ys Hys H2). simpl. by destruct b.
Qed.

Lemma rfilter_none {A} (f : A -> result bool) (l : list A) :
  Forall (fun x => f x = Ok false) l -> rfilter f l = Ok [].
Proof.
  induction 1 as [|x l Hx _ IH]; simpl; [done|]. by rewrite Hx, IH.
Qed.

Lemma rfilter_first {A} (f : A -> result bool) (before after rest : list A) (obj : A) :
  Forall (fun x => f x = Ok false) before ->
  f obj = Ok true ->
  rfilter f after = Ok rest ->
  rfilter f (before ++ obj :: after) = Ok (obj :: rest).
Proof.
  intros Hb Ho Ha.
  apply (rfilter_app f before (obj :: after) [] (obj :: rest)).
  - by apply rfilter_none.
  - simpl. by rewrite Ho, Ha.
Qed.

Lemma wallet_pick_with_addresses address vout d spk addresses a :
  dict_lookup "scriptPubKey" d = Some (VDict spk) ->
  dict_lookup "addresses" spk = Some addresses ->
  py_getitem0 addresses = Ok (VStr a) ->
  a <> "" ->
  wallet_pick address vout (VDict d) = Ok (String.eqb a address).
Proof.
  intros Hspk Ha H0 Hne. unfold wallet_pick. cbn -[py_getitem0 py_eq_int].
  rewrite Hspk. cbn -[py_getitem0 py_eq_int]. rewrite Ha.
  cbn -[py_getitem0 py_eq_int]. rewrite H0. cbn -[py_eq_int].
  apply String.eqb_neq in Hne. rewrite Hne.
  by destruct (dict_lookup "n" d); cbn -[py_eq_int]; rewrite orb_false_r.
Qed.

Lemma wallet_pick_without_addresses address vout d spk :
  dict_lookup "scriptPubKey" d = Some (VDict spk) ->
  dict_lookup "addresses" spk = None ->
  wallet_pick address vout (VDict d)
  = Ok (String.eqb "" address
        || py_eq_int (default (VStr "") (dict_lookup "n" d)) vout).
Proof.
  intros Hspk Ha. unfold wallet_pick. cbn -[py_eq_int].
  rewrite Hspk. cbn -[py_eq_int]. rewrite Ha. cbn -[py_eq_int].
  by destruct (dict_lookup "n" d); cbn -[py_eq_int].
Qed.

Lemma wallet_unspent_picks address utxo td list_vout items list_pick :
  dict_lookup "vout" td = Some list_vout ->
  py_iter list_vout = Ok items ->
  rfilter (wallet_pick address (u_tx_pos utxo)) items = Ok list_pick ->
  wallet_unspent address utxo (VDict td)
  = match list_pick with
    | obj :: _ =>
        let* amount := py_getitem obj "value" in
        let* spk := py_getitem obj "scriptPubKey" in
        let* script_pub_key := py_getitem spk "hex" in
        let* txid := py_getitem (VDict td) "txid" in
        Ok {| w_address := address;
              w_txid := txid;
              w_vout := u_tx_pos utxo;
              w_scriptPubKey := script_pub_key;
              w_amount := amount;
              w_satoshis := u_value utxo;
              w_height := u_height utxo;
              w_confirmations := default (VInt 0) (dict_lookup "confirmations" td) |}
    | [] =>
        Raise (Exception
          ("cannot get the transaction's list of outputs from address:" +:+ address))
    end.
Proof.
  intros Hv Hit Hf. unfold wallet_unspent. cbn -[py_iter wallet_pick].
  rewrite Hv.
  destruct (dict_lookup "confirmations" td) as [c|];
    cbn -[py_iter wallet_pick]; rewrite Hit;
    cbn -[wallet_pick]; rewrite Hf; reflexivity.
Qed.

Lemma wallet_unspent_no_match address utxo td list_vout items :
  dict_lookup "vout" td = Some list_vout ->
  py_iter list_vout = Ok items ->
  Forall (fun item => wallet_pick address (u_tx_pos utxo) item = Ok false) items ->
  wallet_unspent address utxo (VDict td)
  = Raise (Exception
      ("cannot get the transaction's list of outputs from address:" +:+ address)).
Proof.
  intros Hv Hit Hnone.
  by rewrite (wallet_unspent_picks address utxo td list_vout items []
                Hv Hit (rfilter_none _ _ Hnone)).
Qed.

(** C7 (code defect).  The unspent output 1 of a transaction that pays
    "1Alice" 1 coin at output 0 and 2 coins at output 1.  The output
    with the expected index is output 1, and the test of the loop
    selects both outputs by their address, whatever their index; the
    entry is built from the first of them.  It names output 1 and the
    200000000 minor units of the unspent output, and carries the amount
    of output 0, 1 coin: the entry describes no output of the
    transaction. *)
Theorem wallet_unspent_entry_mixes_two_outputs :
  exists entry item,
    wallet_unspent "1Alice" (mkUnspent txid_a 1 100 200000000) pays_twice = Ok entry
    /\ py_getitem pays_twice "vout"
       = Ok (VList [paying_output 0 1 "1Alice" "76a914aa88ac";
                    paying_output 1 2 "1Alice" "76a914aa88ac"])
    /\ spec_index_match 1 [paying_output 0 1 "1Alice" "76a914aa88ac";
                           paying_output 1 2 "1Alice" "76a914aa88ac"] = Some item
    /\ item = paying_output 1 2 "1Alice" "76a914aa88ac"
    /\ py_getitem item "value" = Ok (VFloat (Float.of_Z 2))
    /\ wallet_pick "1Alice" 1 (paying_output 0 1 "1Alice" "76a914aa88ac") = Ok true
    /\ wallet_pick "1Alice" 1 item = Ok true
    /\ w_vout entry = 1
    /\ w_satoshis entry = 200000000
    /\ py_getitem (paying_output 0 1 "1Alice" "76a914aa88ac") "value"
       = Ok (w_amount entry)
    /\ w_amount entry = VFloat (Float.of_Z 1)
    /\ w_amount entry <> VFloat (Float.of_Z 2).
Proof.
  do 2 eexists. do 11 (split; [reflexivity|]). discriminate.
Qed.

(** C10.  When the loop over the outputs selects [obj] first, in the
    order of [vout], the entry carries the amount and the script of
    [obj], whatever is selected after it. *)
Theorem wallet_unspent_first_match
    (address : string) (utxo : unspent) (td : list (string * pyval))
    (list_vout : pyval) (before after rest : list pyval) (obj : pyval)
    (amount spk script_pub_key txid : pyval) :
  dict_lookup "vout" td = Some list_vout ->
  py_iter list_vout = Ok (before ++ obj :: after) ->
  Forall (fun item => wallet_pick address (u_tx_pos utxo) item = Ok false) before ->
  wallet_pick address (u_tx_pos utxo) obj = Ok true ->
  rfilter (wallet_pick address (u_tx_pos utxo)) after = Ok rest ->
  py_getitem obj "value" = Ok amount ->
  py_getitem obj "scriptPubKey" = Ok spk ->
  py_getitem spk "hex" = Ok script_pub_key ->
  dict_lookup "txid" td = Some txid ->
  wallet_unspent address utxo (VDict td)
  = Ok {| w_address := address;
          w_txid := txid;
          w_vout := u_tx_pos utxo;
          w_scriptPubKey := script_pub_key;
          w_amount := amount;
          w_satoshis := u_value utxo;
          w_height := u_height utxo;
          w_confirmations := default (VInt 0) (dict_lookup "confirmations" td) |}.
Proof.
  intros Hv Hit Hbefore Hobj Hafter Hamount Hspk Hhex Htxid.
  rewrite (wallet_unspent_picks address utxo td list_vout _ (obj :: rest) Hv Hit
             (rfilter_first _ _ _ _ _ Hbefore Hobj Hafter)).
  rewrite Hamount. simpl. rewrite Hspk. simpl. rewrite Hhex. simpl.
  by rewrite Htxid.
Qed.

(** Both outputs of the transaction pay "1Alice"; the entry for its
    output 1 is built from output 0. *)
Lemma wallet_unspent_first_match_witness :
  wallet_unspent "1Alice" (mkUnspent txid_a 1 100 200000000) pays_twice
  = Ok {| w_address := "1Alice";
          w_txid := VStr txid_a;
          w_vout := 1;
          w_scriptPubKey := VStr "76a914aa88ac";
          w_amount := VFloat (Float.of_Z 1);
          w_satoshis := 200000000;
          w_height := 100;
          w_confirmations := VInt 6 |}.
Proof.
  exact (wallet_unspent_first_match "1Alice" (mkUnspent txid_a 1 100 200000000)
           [("txid", VStr txid_a); ("confirmations", VInt 6);
            ("vout", VList [paying_output 0 1 "1Alice" "76a914aa88ac";
                            paying_output 1 2 "1Alice" "76a914aa88ac"])]
           (VList [paying_output 0 1 "1Alice" "76a914aa88ac";
                   paying_output 1 2 "1Alice" "76a914aa88ac"])
           [] [paying_output 1 2 "1Alice" "76a914aa88ac"]
           [paying_output 1 2 "1Alice" "76a914aa88ac"]
           (paying_output 0 1 "1Alice" "76a914aa88ac")
           (VFloat (Float.of_Z 1))
           (VDict [("hex", VStr "76a914aa88ac"); ("type", VStr "pubkeyhash");
                   ("addresses", VList [VStr "1Alice"])])
           (VStr "76a914aa88ac") (VStr txid_a)
           eq_refl eq_refl (List.Forall_nil _) eq_refl eq_refl
           eq_refl eq_refl eq_refl eq_refl).
Defined.

(** ** The timestamp of a record *)

Lemma transaction_time_confirmed self d confirmations time :
  dict_lookup "confirmations" d = Some confirmations ->
  is_none confirmations = false ->
  dict_lookup "time" d = Some time ->
  is_none time = false ->
  get_transaction_time self (VDict d) = ret time.
Proof.
  intros Hc Hcn Ht Htn. unfold get_transaction_time, bindM, lift, ret. simpl.
  rewrite Hc. simpl. rewrite Hcn. simpl. rewrite Ht. simpl. by rewrite Htn.
Qed.

Lemma transaction_time_pending_found self d txid memtx time :
  is_none (default VNone (dict_lookup "confirmations" d)) = true ->
  dict_lookup "txid" d = Some (VStr txid) ->
  mempool_detail self !! txid = Some (VDict memtx) ->
  dict_lookup "time" memtx = Some time ->
  is_none time = false ->
  outcome (get_transaction_time self (VDict d)) = Ok time.
Proof.
  intros Hc Htx Hm Ht Htn.
  unfold get_transaction_time, bindM, lift, perform, ret. cbn -[truthy].
  rewrite Hc. cbn -[truthy]. rewrite Htx. cbn -[truthy]. rewrite Hm.
  cbn -[truthy]. rewrite (dict_lookup_truthy _ _ _ Ht). cbn -[truthy].
  rewrite Ht. cbn -[truthy]. by rewrite Htn.
Qed.

Lemma transaction_time_pending_missing self d txid :
  is_none (default VNone (dict_lookup "confirmations" d)) = true ->
  dict_lookup "txid" d = Some (VStr txid) ->
  mempool_detail self !! txid = None ->
  outcome (get_transaction_time self (VDict d)) = Raise (UnboundLocalError "tx_time").
Proof.
  intros Hc Htx Hm.
  unfold get_transaction_time, bindM, lift, perform, ret. simpl.
  rewrite Hc. simpl. rewrite Htx. simpl. by rewrite Hm.
Qed.

(** C2 (code defect).  For a pending transaction without an entry in the
    mempool snapshot the record build fails, though not with the
    exception it raises for a missing time ("cannot get the transaction
    time"): the local [tx_time] was never bound, and reading it raises
    [UnboundLocalError].  The same build with a snapshot entry takes the
    cached time, and a confirmed transaction takes its own block time
    without a read of the snapshot. *)
Theorem pending_without_snapshot_entry :
  outcome (process_single_tx_record idle_handler pending_detail)
  = Raise (UnboundLocalError "tx_time")
  /\ Raise (UnboundLocalError "tx_time")
     <> (Raise (Exception "cannot get the transaction time") : result history_record)
  /\ outcome (get_transaction_time snapshot_handler pending_detail)
     = Ok (VInt 1599999000)
  /\ get_transaction_time snapshot_handler confirmed_detail
     = ret (VInt 1600000000).
Proof. repeat split; try reflexivity. discriminate. Qed.

(** ** The guards of the batch fetches *)

Lemma txid_arg_ok_spec (txid : pyval) :
  txid_arg_ok txid = true
  <-> exists s, txid = VStr s /\ String.length s = 64%nat.
Proof.
  unfold txid_arg_ok. split.
  - destruct txid; rewrite ?andb_false_r; try discriminate.
    intros [_ Hlen%Z.eqb_eq]%andb_true_iff. eexists. split; [done|]. lia.
  - intros (s & -> & Hlen). rewrite Hlen.
    destruct s; [done|]. reflexivity.
Qed.

Lemma batch_guard_rejects self (txid_list : list pyval) :
  forallb txid_arg_ok txid_list = false ->
  get_tx_raw_list self txid_list
  = lift (Raise (Exception "invalid format of txid as argument"))
  /\ get_tx_detail_list self txid_list
     = lift (Raise (Exception "invalid format of txid as argument")).
Proof. intros H. unfold get_tx_raw_list, get_tx_detail_list. by rewrite H. Qed.

Lemma forallb_txid_arg_ok (txid_list : list pyval) :
  forallb txid_arg_ok txid_list = true
  <-> Forall (fun txid => exists s, txid = VStr s /\ String.length s = 64%nat)
             txid_list.
Proof.
  rewrite forallb_forall, Forall_forall. split; intros H txid Hin.
  - by apply txid_arg_ok_spec, H, list_elem_of_In.
  - by apply txid_arg_ok_spec, H, list_elem_of_In.
Qed.

(** C8 (as amended).  Both batch fetches send the list to the daemon
    when every id is a string of 64 characters, and otherwise raise
    "invalid format of txid as argument" without a call to the daemon.
    What the characters are is not looked at. *)
Theorem batch_guard_checks_type_and_length
    (self : HttpHandler) (txid_list : list pyval) :
  (Forall (fun txid => exists s, txid = VStr s /\ String.length s = 64%nat)
          txid_list ->
   get_tx_raw_list self txid_list
   = perform (CallDaemon "getrawtransactions" [VList txid_list])
             (daemon_request self "getrawtransactions" [VList txid_list])
   /\ get_tx_detail_list self txid_list
      = perform (CallDaemon "getdetailedtransactions" [VList txid_list])
                (daemon_request self "getdetailedtransactions" [VList txid_list]))
  /\ (~ Forall (fun txid => exists s, txid = VStr s /\ String.length s = 64%nat)
               txid_list ->
      outcome (get_tx_raw_list self txid_list)
      = Raise (Exception "invalid format of txid as argument")
      /\ calls (get_tx_raw_list self txid_list) = []
      /\ outcome (get_tx_detail_list self txid_list)
         = Raise (Exception "invalid format of txid as argument")
      /\ calls (get_tx_detail_list self txid_list) = []).
Proof.
  split.
  - intros H%forallb_txid_arg_ok. unfold get_tx_raw_list, get_tx_detail_list.
    by rewrite H.
  - intros H. rewrite <- forallb_txid_arg_ok in H. apply not_true_is_false in H.
    destruct (batch_guard_rejects self txid_list H) as [-> ->]. done.
Qed.

(** A list with an id of 63 characters, and a list with an int, are
    rejected; a list of two 64-character ids is sent. *)
Lemma batch_guard_checks_type_and_length_witness :
  outcome (get_tx_raw_list idle_handler [VStr txid_a; VStr "abc"])
  = Raise (Exception "invalid format of txid as argument")
  /\ calls (get_tx_detail_list idle_handler [VStr txid_a; VInt 64]) = []
  /\ calls (get_tx_detail_list idle_handler [VStr txid_a; VStr txid_b])
     = [CallDaemon "getdetailedtransactions" [VList [VStr txid_a; VStr txid_b]]].
Proof.
  destruct (batch_guard_checks_type_and_length idle_handler
              [VStr txid_a; VStr "abc"]) as [_ Hno1].
  destruct (batch_guard_checks_type_and_length idle_handler
              [VStr txid_a; VInt 64]) as [_ Hno2].
  destruct (batch_guard_checks_type_and_length idle_handler
              [VStr txid_a; VStr txid_b]) as [Hyes _].
  split; [|split].
  - apply Hno1. intros H. apply forallb_txid_arg_ok in H. discriminate H.
  - apply Hno2. intros H. apply forallb_txid_arg_ok in H. discriminate H.
  - destruct Hyes as [_ ->]; [|reflexivity].
    apply forallb_txid_arg_ok. reflexivity.
Defined.

(** C8 (as stated) fails: an id of 64 characters none of which is a
    hexadecimal digit is not decodable as a hash, yet it passes the
    guard of both batch fetches, and the batch is sent to the daemon. *)
Lemma batch_guard_accepts_non_hex :
  String.length txid_z = 64%nat
  /\ Forall (fun c => hex_value c = None) (list_ascii_of_string txid_z)
  /\ fromhex txid_z = Raise ValueError
  /\ get_tx_detail_list idle_handler [VStr txid_z]
     = perform (CallDaemon "getdetailedtransactions" [VList [VStr txid_z]])
               (daemon_request idle_handler "getdetailedtransactions"
                  [VList [VStr txid_z]])
  /\ get_tx_raw_list idle_handler [VStr txid_z]
     = perform (CallDaemon "getrawtransactions" [VList [VStr txid_z]])
               (daemon_request idle_handler "getrawtransactions"
                  [VList [VStr txid_z]])
  /\ calls (get_tx_detail_list idle_handler [VStr txid_z])
     = [CallDaemon "getdetailedtransactions" [VList [VStr txid_z]]]
  /\ calls (get_tx_raw_list idle_handler [VStr txid_z])
     = [CallDaemon "getrawtransactions" [VList [VStr txid_z]]]
  /\ outcome (get_tx_detail_list idle_handler [VStr txid_z])
     <> Raise (Exception "invalid format of txid as argument").
Proof.
  split; [reflexivity|]. split; [repeat constructor|].
  do 5 (split; [reflexivity|]). discriminate.
Qed.

(** ** Failure of a fan-out *)

Lemma rmap_Raise {A B} (f : A -> result B) (l : list A) (x : A) (e : exn) :
  x ∈ l -> f x = Raise e ->
  exists x' e', x' ∈ l /\ f x' = Raise e' /\ rmap f l = Raise e'.
Proof.
  induction 1 as [x l|x y l _ IH]; intros Hx; simpl.
  - rewrite Hx. simpl. exists x, e. split; [left|done].
  - destruct (f y) as [e'|b] eqn:Hy; simpl.
    + exists y, e'. split; [left|done].
    + destruct (IH Hx) as (x' & e' & Hin & Hx' & ->). simpl.
      exists x', e'. split; [by right|done].
Qed.

(** A gather raises as soon as one branch does, and what it raises is
    what one of its branches raised. *)
Lemma gather_Raise {A} (ms : list (M A)) (m : M A) (e : exn) :
  m ∈ ms -> outcome m = Raise e ->
  exists m' e', m' ∈ ms /\ outcome m' = Raise e'
                /\ outcome (gather ms) = Raise e'.
Proof. intros Hin Hm. simpl. by apply rmap_Raise with m e. Qed.

(** A gather returns exactly when every branch does. *)
Lemma gather_Ok {A} (ms : list (M A)) (results : list A) :
  outcome (gather ms) = Ok results <->
  Forall2 (fun m r => outcome m = Ok r) ms results.
Proof.
  simpl. revert results. induction ms as [|m ms IH]; intros results; simpl.
  - split; [intros; simplify_eq; constructor | by inversion 1].
  - split.
    + intros (r & Hr & H)%rbind_Ok. apply rbind_Ok in H as (rs & Hrs & H).
      simplify_eq. constructor; [done|]. by apply IH.
    + inversion 1 as [|? r ? rs Hr Hrs]; subst.
      rewrite Hr. simpl. apply IH in Hrs. by rewrite Hrs.
Qed.

(** The list order of the embedding is one of the orders of the event
    loop, and under every order a gather with a failed branch raises. *)
Lemma gather_in_gather_may {A} (ms : list (M A)) :
  gather_may ms (outcome (gather ms)).
Proof.
  destruct (outcome (gather ms)) as [e|results] eqn:Hg.
  - assert (exists m, m ∈ ms /\ outcome m = Raise e) as (m & Hin & Hm).
    { simpl in Hg. clear -Hg. induction ms as [|m ms IH]; simpl in Hg; [done|].
      destruct (outcome m) as [e'|r] eqn:Hm; simpl in Hg.
      - simplify_eq. exists m. split; [left|done].
      - destruct (rmap outcome ms) as [e'|rs]; simpl in Hg; [|done].
        simplify_eq. destruct IH as (m' & Hin & Hm'); [done|].
        exists m'. split; [by right|done]. }
    by apply gather_may_raise with m.
  - apply gather_may_return. by apply gather_Ok.
Qed.

Lemma gather_may_Raise {A} (ms : list (M A)) (m : M A) (e : exn) (r : result (list A)) :
  m ∈ ms -> outcome m = Raise e -> gather_may ms r -> exists e', r = Raise e'.
Proof.
  intros Hin Hm [results Hall|m' e' _ _]; [|by exists e'].
  apply list_elem_of_lookup in Hin as (i & Hi).
  destruct (Forall2_lookup_l _ _ _ _ _ Hall Hi) as (r' & _ & Hr'). congruence.
Qed.

Lemma history_factory_Raise self tx_detail_list details tx_detail e :
  py_iter tx_detail_list = Ok details ->
  tx_detail ∈ details ->
  outcome (process_single_tx_record self tx_detail) = Raise e ->
  exists tx_detail' e',
    tx_detail' ∈ details
    /\ outcome (process_single_tx_record self tx_detail') = Raise e'
    /\ outcome (history_factory self tx_detail_list) = Raise e'.
Proof.
  intros Hit Hin He. unfold history_factory.
  rewrite (outcome_bindM_step _ _ details) by done.
  destruct (gather_Raise (map (process_single_tx_record self) details)
              (process_single_tx_record self tx_detail) e)
    as (m' & e' & Hm' & He' & Hg); [|done|].
  { apply list_elem_of_In, in_map. by apply list_elem_of_In. }
  apply list_elem_of_In, in_map_iff in Hm' as (tx_detail' & <- & Hin').
  exists tx_detail', e'. split; [by apply list_elem_of_In|done].
Qed.

Lemma get_single_address_history_Raise
    hash_to_hex_str self query_from query_to addr txid_list tx_detail_list e :
  outcome (get_txid_list hash_to_hex_str self addr) = Ok txid_list ->
  outcome (get_tx_detail_list self
             (map VStr (py_slice txid_list query_from query_to)))
  = Ok tx_detail_list ->
  outcome (history_factory self tx_detail_list) = Raise e ->
  outcome (get_single_address_history hash_to_hex_str self
             query_from query_to addr) = Raise e.
Proof.
  intros Hids Hdetails Hfail. unfold get_single_address_history.
  rewrite (outcome_bindM_step _ _ txid_list) by done.
  rewrite (outcome_bindM_step _ _ tx_detail_list) by done.
  by apply outcome_bindM_Raise.
Qed.

Lemma calls_bindM_Raise {A B} (m : M A) (k : A -> M B) (e : exn) :
  outcome m = Raise e -> calls (bindM m k) = calls m.
Proof. unfold bindM. by intros ->. Qed.

Lemma history_Raise
    hash_to_hex_str parse_int self request addrs from to query_from query_to addr e :
  assoc "addrs" (match_info request) = Some addrs ->
  assoc "from" (query request) = Some from ->
  assoc "to" (query request) = Some to ->
  check_pagination (parse_int from 0) (parse_int to MAX_TX_QUERY)
  = inr (query_from, query_to) ->
  addr ∈ str_split "," addrs ->
  outcome (get_single_address_history hash_to_hex_str self
             query_from query_to addr) = Raise e ->
  exists addr' e',
    addr' ∈ str_split "," addrs
    /\ outcome (get_single_address_history hash_to_hex_str self
                  query_from query_to addr') = Raise e'
    /\ outcome (history hash_to_hex_str parse_int self request) = Raise e'.
Proof.
  intros Ha Hf Ht Hpage Hin Hfail. unfold history, query_getitem.
  rewrite Ha, Hf, Ht.
  rewrite (outcome_bindM_step _ _ from) by done.
  rewrite (outcome_bindM_step _ _ to) by done.
  rewrite Hpage.
  destruct (gather_Raise
              (map (get_single_address_history hash_to_hex_str self
                      query_from query_to) (str_split "," addrs))
              (get_single_address_history hash_to_hex_str self
                 query_from query_to addr) e) as (m' & e' & Hm' & He' & Hg);
    [|done|].
  { apply list_elem_of_In, in_map. by apply list_elem_of_In. }
  apply list_elem_of_In, in_map_iff in Hm' as (addr' & <- & Haddr').
  exists addr', e'. split; [by apply list_elem_of_In|]. split; [done|].
  by apply outcome_bindM_Raise.
Qed.

(** C4.  When, for one of the requested addresses, the build of one
    record of its window raises [e], then: the records of that address
    are not returned, its per-address branch raising the exception of
    one of its failed record builds, unchanged; the whole [history]
    request raises the exception of one of the failed per-address
    branches, unchanged, so that no response and no per-address result
    of any address is returned; under every order in which the event
    loop may run the branches, both fan-outs raise; and when [e] is the
    only exception that any record build of the address and any other
    branch raises, the request raises [e] itself. *)
Theorem history_fails_as_a_whole
    (hash_to_hex_str : bytes -> string) (parse_int : string -> Z -> Z)
    (self : HttpHandler) (request : Request) (addrs from to : string)
    (query_from query_to : Z) (addr : string) (txid_list : list string)
    (tx_detail_list : pyval) (details : list pyval) (tx_detail : pyval)
    (e : exn) :
  assoc "addrs" (match_info request) = Some addrs ->
  assoc "from" (query request) = Some from ->
  assoc "to" (query request) = Some to ->
  check_pagination (parse_int from 0) (parse_int to MAX_TX_QUERY)
  = inr (query_from, query_to) ->
  addr ∈ str_split "," addrs ->
  outcome (get_txid_list hash_to_hex_str self addr) = Ok txid_list ->
  outcome (get_tx_detail_list self
             (map VStr (py_slice txid_list query_from query_to)))
  = Ok tx_detail_list ->
  py_iter tx_detail_list = Ok details ->
  tx_detail ∈ details ->
  outcome (process_single_tx_record self tx_detail) = Raise e ->
  (exists tx_detail' e1,
     tx_detail' ∈ details
     /\ outcome (process_single_tx_record self tx_detail') = Raise e1
     /\ outcome (history_factory self tx_detail_list) = Raise e1
     /\ outcome (get_single_address_history hash_to_hex_str self
                   query_from query_to addr) = Raise e1)
  /\ (exists addr' e',
        addr' ∈ str_split "," addrs
        /\ outcome (get_single_address_history hash_to_hex_str self
                      query_from query_to addr') = Raise e'
        /\ outcome (history hash_to_hex_str parse_int self request) = Raise e')
  /\ (forall r,
        gather_may (map (process_single_tx_record self) details) r ->
        exists e', r = Raise e')
  /\ (forall r,
        gather_may (map (get_single_address_history hash_to_hex_str self
                           query_from query_to) (str_split "," addrs)) r ->
        exists e', r = Raise e')
  /\ ((forall tx_detail' e1,
         tx_detail' ∈ details ->
         outcome (process_single_tx_record self tx_detail') = Raise e1 -> e1 = e) ->
      (forall addr' e',
         addr' ∈ str_split "," addrs -> addr' <> addr ->
         outcome (get_single_address_history hash_to_hex_str self
                    query_from query_to addr') = Raise e' -> e' = e) ->
      outcome (get_single_address_history hash_to_hex_str self
                 query_from query_to addr) = Raise e
      /\ outcome (history hash_to_hex_str parse_int self request) = Raise e).
Proof.
  intros Ha Hf Ht Hpage Hin Hids Hdetails Hit Hd He.
  destruct (history_factory_Raise self tx_detail_list details tx_detail e
              Hit Hd He) as (tx_detail' & e1 & Hd' & He1 & Hfactory).
  assert (Hbranch : outcome (get_single_address_history hash_to_hex_str self
                               query_from query_to addr) = Raise e1)
    by (eapply get_single_address_history_Raise; eauto).
  destruct (history_Raise hash_to_hex_str parse_int self request addrs from to
              query_from query_to addr e1 Ha Hf Ht Hpage Hin Hbranch)
    as (addr' & e' & Hin' & Hbranch' & Hhistory).
  split; [by exists tx_detail', e1|].
  split; [by exists addr', e'|].
  split.
  { intros r. apply (gather_may_Raise _ (process_single_tx_record self tx_detail) e);
      [|done].
    apply list_elem_of_In, in_map. by apply list_elem_of_In. }
  split.
  { intros r.
    apply (gather_may_Raise _ (get_single_address_history hash_to_hex_str self
                                 query_from query_to addr) e1); [|done].
    apply list_elem_of_In, in_map. by apply list_elem_of_In. }
  intros Honly Hothers.
  assert (e1 = e) as -> by by eapply Honly.
  split; [done|].
  destruct (decide (addr' = addr)) as [->|Hne].
  - rewrite Hbranch in Hbranch'. by simplify_eq.
  - by rewrite (Hothers addr' e' Hin' Hne Hbranch') in Hhistory.
Qed.

(** Three addresses are requested; only "B" has a transaction, and the
    decoding of the script of its input fails at the daemon: the request
    raises the failure of the daemon. *)
Lemma history_fails_as_a_whole_witness :
  outcome (get_single_address_history hash_hex decode_failure_handler 0 50 "B")
  = Raise (UpstreamError "decode_scripts failed")
  /\ outcome (history hash_hex int_or_default decode_failure_handler
                three_address_request)
     = Raise (UpstreamError "decode_scripts failed").
Proof.
  apply (history_fails_as_a_whole hash_hex int_or_default decode_failure_handler
           three_address_request "A,B,C" "0" "50" 0 50 "B" [txid_a]
           (VList [confirmed_detail]) [confirmed_detail] confirmed_detail
           (UpstreamError "decode_scripts failed"));
    try reflexivity.
  - apply list_elem_of_In. simpl. auto.
  - apply list_elem_of_In. simpl. auto.
  - intros tx_detail' e1 Hin%list_elem_of_In. simpl in Hin.
    destruct Hin as [<-|[]]. intros H. vm_compute in H. by simplify_eq.
  - intros addr' e' Hin%list_elem_of_In Hne. simpl in Hin.
    destruct Hin as [<-|[<-|[<-|[]]]]; [|done|];
      intros H; vm_compute in H; discriminate H.
Defined.

(** ** Fixed-point decimals *)

Lemma ndigits_fuel_le (fuel k : nat) (c : N) :
  (c < 10 ^ N.of_nat (S k))%N ->
  PyDecimal.ndigits_fuel fuel c <= Z.of_nat (S k).
Proof.
  revert k c. induction fuel as [|fuel IH]; intros k c Hc; simpl; [lia|].
  destruct (N.ltb_spec c 10); [lia|].
  destruct k as [|k].
  - change (10 ^ N.of_nat 1)%N with 10%N in Hc. lia.
  - assert (c / 10 < 10 ^ N.of_nat (S k))%N as Hdiv.
    { apply N.Div0.div_lt_upper_bound.
      rewrite <- N.pow_succ_r'. by rewrite <- Nat2N.inj_succ. }
    specialize (IH k _ Hdiv). lia.
Qed.

Lemma ndigits_le_28 (c : N) : (c < 10 ^ 28)%N -> PyDecimal.ndigits c <= 28.
Proof. intros Hc. apply (ndigits_fuel_le _ 27 c). exact Hc. Qed.

Lemma quantize_exponent (d : PyDecimal.decimal) (n : Z) (s : bool) (c : N) (e : Z) :
  PyDecimal.quantize d n = Ok (PyDecimal.DFin s c e) -> e = - n.
Proof.
  unfold PyDecimal.quantize. destruct d as [s' c' e'| |]; [|done..].
  repeat case_match; intros; by simplify_eq.
Qed.

Lemma quantize_same_exponent (s : bool) (c : N) (n : Z) :
  0 <= n <= 999999 -> (c < 10 ^ 28)%N ->
  PyDecimal.quantize (PyDecimal.DFin s c (- n)) n = Ok (PyDecimal.DFin s c (- n)).
Proof.
  intros Hn Hc. pose proof (ndigits_le_28 c Hc) as Hd.
  unfold PyDecimal.quantize, PyDecimal.Etiny, PyDecimal.Emax, PyDecimal.Emin,
    PyDecimal.ctx_prec in *.
  rewrite (proj2 (Z.leb_le _ _)), (proj2 (Z.leb_le _ _)) by lia.
  simpl negb. cbv iota.
  destruct (N.eqb_spec c 0) as [->|Hnz]; [done|].
  rewrite (proj2 (Z.ltb_ge _ _)) by lia.
  rewrite (proj2 (Z.ltb_ge _ _)) by lia.
  assert (PyDecimal.rescale c (- n) (- n) = c) as ->.
  { unfold PyDecimal.rescale, PyDecimal.pow10.
    rewrite Z.leb_refl, Z.sub_diag. simpl. lia. }
  rewrite (proj2 (Z.ltb_ge _ _)) by lia.
  by rewrite (proj2 (Z.ltb_ge _ _)) by lia.
Qed.

Lemma fix_ctx_exact (s : bool) (c : N) (e : Z) :
  -999999 <= e <= 0 -> (c < 10 ^ 28)%N ->
  PyDecimal.fix_ctx s c e = Ok (PyDecimal.DFin s c e).
Proof.
  intros He Hc. pose proof (ndigits_le_28 c Hc) as Hd.
  unfold PyDecimal.fix_ctx, PyDecimal.Etop, PyDecimal.Etiny, PyDecimal.Emax,
    PyDecimal.Emin, PyDecimal.ctx_prec in *.
  destruct (N.eqb_spec c 0) as [->|Hnz].
  - do 3 f_equal. lia.
  - rewrite (proj2 (Z.ltb_ge _ _)) by lia.
    by rewrite (proj2 (Z.ltb_ge _ _)) by lia.
Qed.

Lemma diff_magnitude (s1 s2 : bool) (c1 c2 : N) :
  (Z.abs_N (PyDecimal.signed s1 c1 - PyDecimal.signed s2 c2) <= c1 + c2)%N.
Proof. unfold PyDecimal.signed, cond_Zopp. destruct s1, s2; lia. Qed.

Lemma sub_same_exponent (s1 s2 : bool) (c1 c2 : N) (e : Z) :
  -999999 <= e <= 0 -> (c1 + c2 < 10 ^ 28)%N ->
  PyDecimal.sub (PyDecimal.DFin s1 c1 e) (PyDecimal.DFin s2 c2 e)
  = Ok (PyDecimal.DFin (diff_sign s1 c1 s2 c2)
          (Z.abs_N (PyDecimal.signed s1 c1 - PyDecimal.signed s2 c2)) e).
Proof.
  intros He Hc. unfold PyDecimal.sub, diff_sign.
  rewrite Z.min_id, Z.sub_diag. change (PyDecimal.pow10 0) with 1%N.
  rewrite !N.mul_1_r.
  apply fix_ctx_exact; [done|].
  pose proof (diff_magnitude s1 s2 c1 c2). lia.
Qed.

(** The fee of two totals at the precision of the coin is their exact
    difference. *)
Lemma fees_of_exact self (s1 s2 : bool) (c1 c2 : N) :
  0 <= prec self <= 999999 -> (c1 + c2 < 10 ^ 28)%N ->
  fees_of self (PyDecimal.DFin s1 c1 (- prec self))
               (PyDecimal.DFin s2 c2 (- prec self))
  = Ok (PyDecimal.DFin (diff_sign s1 c1 s2 c2)
          (Z.abs_N (PyDecimal.signed s1 c1 - PyDecimal.signed s2 c2))
          (- prec self)).
Proof.
  intros Hp Hc. unfold fees_of.
  rewrite sub_same_exponent by (done || lia). simpl.
  apply quantize_same_exponent; [done|].
  pose proof (diff_magnitude s1 s2 c1 c2). lia.
Qed.

(** ** The totals of a record *)



Lemma rmap_elem_of {A B} (f : A -> result B) (l : list A) (l' : list B) (y : B) :
  rmap f l = Ok l' -> y ∈ l' -> exists x, x ∈ l /\ f x = Ok y.
Proof.
  revert l'. induction l as [|a l IH]; intros l' Hmap Hy; simpl in Hmap.
  - simplify_eq. by apply elem_of_nil in Hy.
  - apply rbind_Ok in Hmap as (b & Hb & Hmap).
    apply rbind_Ok in Hmap as (bs & Hbs & Hmap). simplify_eq.
    apply elem_of_cons in Hy as [->|Hy].
    + exists a. split; [left|done].
    + destruct (IH bs Hbs Hy) as (x & Hx & Hfx). exists x. split; [by right|done].
Qed.

Lemma zip3_elem_of_3 {A B C} (a : list A) (b : list B) (c : list C) x y z :
  (x, y, z) ∈ zip3 a b c -> z ∈ c.
Proof.
  revert b c. induction a as [|x' a IH]; intros [|y' b] [|z' c] H;
    simpl in H; try by apply elem_of_nil in H.
  apply elem_of_cons in H as [H|H]; [simplify_eq; left | right; eauto].
Qed.

Lemma process_single_tx_record_Ok self tx_detail r :
  outcome (process_single_tx_record self tx_detail) = Ok r ->
  total_value self (fun x => VFloat (vin_value x)) (r_vin r) = Ok (r_valueIn r)
  /\ total_value self vout_value (r_vout r) = Ok (r_valueOut r)
  /\ fees_of self (r_valueIn r) (r_valueOut r) = Ok (r_fees r)
  /\ (forall input, input ∈ r_vin r ->
        exists out, int_truediv (out_value out) (coin_VALUE_PER_COIN self)
                    = Ok (vin_value input)).
Proof.
  unfold process_single_tx_record. intros H.
  destruct (truthy tx_detail); simpl in H; [|discriminate].
  repeat (apply outcome_bindM_Ok in H as (? & ? & H)).
  simpl in *. simplify_eq. simpl. repeat split; [done..|].
  intros input Hx.
  apply list_elem_of_In, in_map_iff in Hx as ([[txid addrs] v] & <- & Hin).
  apply list_elem_of_In, list_elem_of_filter in Hin as [_ Hin].
  apply zip3_elem_of_3 in Hin.
  match goal with
  | Hdiv : rmap (fun out => int_truediv _ _) _ = Ok _ |- _ =>
      destruct (rmap_elem_of _ _ _ _ Hdiv Hin) as (out & _ & Hout)
  end.
  by exists out.
Qed.


Lemma rmap_lookup_inv {A B} (f : A -> result B) (l : list A) (l' : list B)
    (i : nat) (y : B) :
  rmap f l = Ok l' -> l' !! i = Some y ->
  exists x, l !! i = Some x /\ f x = Ok y.
Proof.
  revert l' i. induction l as [|a l IH]; intros l' i Hmap Hy; simpl in Hmap.
  - by simplify_eq.
  - apply rbind_Ok in Hmap as (b & Hb & Hmap).
    apply rbind_Ok in Hmap as (bs & Hbs & Hmap). simplify_eq.
    destruct i as [|i]; simpl in *.
    + simplify_eq. by exists a.
    + by apply (IH bs).
Qed.


(** What a successful build went through: the values of the
    intermediate lists of [process_single_tx_record]. *)
Lemma process_single_tx_record_inv self tx_detail r :
  outcome (process_single_tx_record self tx_detail) = Ok r ->
  exists tx_time vin vin_items vin_txid_list vin_idx_list vin_raw_list raws
         vin_tx_list prev_out_list prev_out_value_list script_detail_list
         vin_addrs_list vout vout_items vout_value_list vout_script_list
         vout_addrs_list,
    truthy tx_detail = true
    /\ outcome (get_transaction_time self tx_detail) = Ok tx_time
    /\ py_get tx_detail "vin" = Ok vin
    /\ py_iter vin = Ok vin_items
    /\ rmap (fun i => py_get i "txid") vin_items = Ok vin_txid_list
    /\ rmap (fun i => py_get i "vout") vin_items = Ok vin_idx_list
    /\ outcome (get_tx_raw_list self vin_txid_list) = Ok vin_raw_list
    /\ py_iter vin_raw_list = Ok raws
    /\ rmap (coin_DESERIALIZER_read_tx self) raws = Ok vin_tx_list
    /\ rmap (fun '(tx, n) => py_list_item (outputs tx) n)
            (zip vin_tx_list vin_idx_list) = Ok prev_out_list
    /\ rmap (fun out => int_truediv (out_value out) (coin_VALUE_PER_COIN self))
            prev_out_list = Ok prev_out_value_list
    /\ outcome (get_script_detail_list self
                  (map (fun out => VStr (bytes_hex (pk_script out))) prev_out_list))
       = Ok script_detail_list
    /\ get_addrs_from_script_list script_detail_list = Ok vin_addrs_list
    /\ py_get tx_detail "vout" = Ok vout
    /\ py_iter vout = Ok vout_items
    /\ rmap (fun out => py_get out "value") vout_items = Ok vout_value_list
    /\ rmap (fun out => py_get out "scriptPubKey") vout_items = Ok vout_script_list
    /\ get_addrs_from_script_list (VList vout_script_list) = Ok vout_addrs_list
    /\ r_vin r
       = map (fun '(txid, addrs, value) => mkVin txid addrs value)
           (filter (fun '(txid, addrs, value) => Is_true (truthy addrs))
                   (zip3 vin_txid_list vin_addrs_list prev_out_value_list))
    /\ r_vout r
       = map (fun '(addrs, value) => mkVout addrs value)
           (filter (fun '(addrs, value) => Is_true (truthy addrs))
                   (zip vout_addrs_list vout_value_list))
    /\ total_value self (fun x => VFloat (vin_value x)) (r_vin r) = Ok (r_valueIn r)
    /\ total_value self vout_value (r_vout r) = Ok (r_valueOut r)
    /\ fees_of self (r_valueIn r) (r_valueOut r) = Ok (r_fees r)
    /\ py_get tx_detail "txid" = Ok (r_txid r)
    /\ py_get_default tx_detail "confirmations" (VInt 0) = Ok (r_confirmations r)
    /\ r_time r = tx_time.
Proof.
  unfold process_single_tx_record. intros H.
  destruct (truthy tx_detail); simpl in H; [|discriminate].
  apply outcome_bindM_Ok in H as (tx_time & Htime & H).
  apply outcome_bindM_Ok in H as (vin & Hvin & H).
  apply outcome_bindM_Ok in H as (vin_items & Hvin_items & H).
  apply outcome_bindM_Ok in H as (vin_txid_list & Htxids & H).
  apply outcome_bindM_Ok in H as (vin_idx_list & Hidxs & H).
  apply outcome_bindM_Ok in H as (vin_raw_list & Hraw & H).
  apply outcome_bindM_Ok in H as (raws & Hraws & H).
  apply outcome_bindM_Ok in H as (vin_tx_list & Htxs & H).
  apply outcome_bindM_Ok in H as (prev_out_list & Hprev & H).
  apply outcome_bindM_Ok in H as (prev_out_value_list & Hvalues & H).
  apply outcome_bindM_Ok in H as (script_detail_list & Hscripts & H).
  apply outcome_bindM_Ok in H as (vin_addrs_list & Hvin_addrs & H).
  apply outcome_bindM_Ok in H as (vout & Hvout & H).
  apply outcome_bindM_Ok in H as (vout_items & Hvout_items & H).
  apply outcome_bindM_Ok in H as (vout_value_list & Hvout_values & H).
  apply outcome_bindM_Ok in H as (vout_script_list & Hvout_scripts & H).
  apply outcome_bindM_Ok in H as (vout_addrs_list & Hvout_addrs & H).
  apply outcome_bindM_Ok in H as (value_in & Hvalue_in & H).
  apply outcome_bindM_Ok in H as (value_out & Hvalue_out & H).
  apply outcome_bindM_Ok in H as (txid & Htxid & H).
  apply outcome_bindM_Ok in H as (fees & Hfees & H).
  apply outcome_bindM_Ok in H as (confirmations & Hconfirmations & H).
  cbn [outcome ret lift] in *. simplify_eq. cbn [r_vin r_vout r_valueIn r_valueOut
    r_fees r_txid r_confirmations r_time].
  exists tx_time, vin, vin_items, vin_txid_list, vin_idx_list, vin_raw_list, raws,
    vin_tx_list, prev_out_list, prev_out_value_list, script_detail_list,
    vin_addrs_list, vout, vout_items, vout_value_list, vout_script_list,
    vout_addrs_list.
  repeat (split; [done|]). done.
Qed.

(** *** Rounding to [P] places, by value *)











(** The precision for the ratios 10^8 and 10^6, with the logarithms of
    the table: the logarithm of 10^6 is the float just below 6. *)
Lemma init_prec_of_table :
  init_prec log_of_table 100000000 = Ok 8
  /\ init_prec log_of_table 1000000 = Ok 5
  /\ log_of_table 1000000 10 = Ok (S754_finite false 6755399441055743 (-50))
  /\ 5 * 2 ^ 50 < 6755399441055743 < 6 * 2 ^ 50.
Proof. repeat split; reflexivity. Qed.




(** The floats of that record are the binary64 values that IEEE 754
    prescribes, checked here in integers: the quotient
    6710886400000001 * 2^-27 is within half a unit in the last place of
    5000000000000001 / 10^8, and the sum of the two quotients,
    13421772800000001 * 2^-27, lies midway between two floats of which
    6710886400000000 * 2^-26 = 100000000.0 has the even mantissa. *)
Lemma two_input_sum_is_the_binary64_sum :
  int_truediv 5000000000000001 100000000
  = Ok (S754_finite false 6710886400000001 (-27))
  /\ 2 ^ 52 <= 6710886400000001 < 2 ^ 53
  /\ 2 * Z.abs (5000000000000001 * 2 ^ 27 - 6710886400000001 * 10 ^ 8) < 10 ^ 8
  /\ int_truediv 5000000000000000 100000000 = Ok (Float.of_Z 50000000)
  /\ Float.of_Z 50000000 = S754_finite false 6710886400000000 (-27)
  /\ float_sum [S754_finite false 6710886400000001 (-27); Float.of_Z 50000000]
     = S754_finite false 6710886400000000 (-26)
  /\ 6710886400000001 + 6710886400000000 = 2 * 6710886400000000 + 1
  /\ Z.even 6710886400000000 = true
  /\ 2 ^ 52 <= 6710886400000000 < 2 ^ 53.
Proof. repeat split; try reflexivity; vm_compute; congruence. Qed.

(** The quotient alone already leaves the fixed-point grid: an input of
    7000000000000002 minor units is 70000000.00000002 coins; the nearest
    binary64 float, 4697620480000001 * 2^-26, rounds to
    70000000.00000001. *)
Lemma quotient_is_not_the_fixed_point_value :
  outcome (process_single_tx_record (spending_handler [7000000000000002])
             (spending_detail 1 (Float.of_Z 70000000)))
  = Ok large_value_record
  /\ int_truediv 7000000000000002 100000000
     = Ok (S754_finite false 4697620480000001 (-26))
  /\ 2 ^ 52 <= 4697620480000001 < 2 ^ 53
  /\ 2 * Z.abs (7000000000000002 * 2 ^ 26 - 4697620480000001 * 10 ^ 8) < 10 ^ 8
  /\ r_valueIn large_value_record = PyDecimal.DFin false 7000000000000001 (-8)
  /\ spec_fixed_point_total 100000000 8 [7000000000000002]
     = PyDecimal.DFin false 7000000000000002 (-8).
Proof. repeat split; try reflexivity; vm_compute; congruence. Qed.

(** * Further properties of the handler *)

(** ** The page of a history request *)

Lemma py_slice_window {A} (l : list A) (f t : Z) :
  0 <= f <= t ->
  py_slice l f t = take (Z.to_nat (t - f)) (drop (Z.to_nat f) l).
Proof.
  intros Hft. unfold py_slice, slice_index.
  set (len := Z.of_nat (length l)).
  assert (Hlen : 0 <= len) by (unfold len; lia).
  destruct (Z.ltb_spec f 0) as [?|_]; [lia|].
  destruct (Z.ltb_spec t 0) as [?|_]; [lia|].
  destruct (Z.le_gt_cases len f) as [Hf|Hf].
  - rewrite !drop_ge by (unfold len in *; lia). by rewrite !take_nil.
  - replace (Z.max 0 (Z.min len f)) with f by lia.
    destruct (Z.le_gt_cases t len) as [Ht|Ht].
    + by replace (Z.max 0 (Z.min len t)) with t by lia.
    + replace (Z.max 0 (Z.min len t)) with len by lia.
      rewrite !take_ge; [done|..]; rewrite length_drop; unfold len in *; lia.
Qed.

(** X1.  The page of ids that is detailed for an address.  For a request that
    passes the pagination check, the window starts at [from], ends at
    the smaller of [to] and [from + MAX_TX_QUERY], and the slice taken
    of the id list is the ids at the positions [from .. to - 1] that
    exist: at most [MAX_TX_QUERY] of them, and none when [from] is
    beyond the end of the list. *)
Theorem history_page_window {A} (txid_list : list A)
    (query_from query_to from to : Z) :
  check_pagination query_from query_to = inr (from, to) ->
  from = query_from
  /\ to = Z.min query_to (query_from + MAX_TX_QUERY)
  /\ py_slice txid_list from to
     = take (Z.to_nat (to - from)) (drop (Z.to_nat from) txid_list)
  /\ (length (py_slice txid_list from to) <= Z.to_nat MAX_TX_QUERY)%nat
  /\ (forall i : nat,
        py_slice txid_list from to !! i
        = if bool_decide (Z.of_nat i < to - from)
          then txid_list !! (Z.to_nat from + i)%nat
          else None)
  /\ (Z.of_nat (length txid_list) <= from -> py_slice txid_list from to = []).
Proof.
  intros Hw.
  assert (Hacc : 0 <= query_from <= query_to).
  { destruct (Z.lt_ge_cases query_from 0) as [H|H1];
      [|destruct (Z.lt_ge_cases query_to 0) as [H|H2];
        [|destruct (Z.lt_ge_cases query_to query_from) as [H|H3]; [|lia]]].
    all: assert (Hr : exists text, check_pagination query_from query_to
                        = inl (PlainResponse 400 (Some text)))
      by (apply check_pagination_rejects; lia).
    all: destruct Hr as [text Hr]; congruence. }
  rewrite check_pagination_window in Hw by done. simplify_eq.
  unfold MAX_TX_QUERY in *.
  split; [done|]. split; [done|].
  rewrite py_slice_window by lia.
  split; [done|]. split; [rewrite length_take; lia|]. split.
  - intros i. case_bool_decide as Hi.
    + rewrite lookup_take_lt by lia. by rewrite lookup_drop.
    + apply lookup_take_ge. lia.
  - intros Hlen. rewrite drop_ge by lia. by rewrite take_nil.
Qed.

Lemma history_page_window_witness :
  py_slice ["t0"; "t1"; "t2"; "t3"] 1 3 = ["t1"; "t2"]
  /\ check_pagination 1 3 = inr (1, 3)
  /\ check_pagination 2 500 = inr (2, 52).
Proof.
  destruct (history_page_window ["t0"; "t1"; "t2"; "t3"] 1 3 1 3 eq_refl)
    as (_ & _ & Hs & _).
  destruct (history_page_window (@nil string) 2 500 2 52 eq_refl) as (_ & _ & _).
  split; [exact Hs|]. split; reflexivity.
Defined.

(** ** The order of the records of an address *)

Lemma filter_none {A} (P : A -> Prop) `{forall x, Decision (P x)} (l : list A) :
  Forall (fun x => ~ P x) l -> filter P l = [].
Proof.
  induction 1 as [|x l Hx _ IH]; [done|]. by rewrite filter_cons_False.
Qed.

Lemma insert_by_time_int (x : history_record) (l : list history_record) (tx : Z) :
  int_time x = Some tx ->
  Forall (fun r => is_Some (int_time r)) l ->
  exists l1 l2,
    l = l1 ++ l2
    /\ insert_by_time x l = Ok (l1 ++ x :: l2)
    /\ Forall (fun y => exists ty, int_time y = Some ty /\ tx < ty) l1
    /\ match l2 with
       | [] => True
       | y :: _ => exists ty, int_time y = Some ty /\ ty <= tx
       end.
Proof.
  intros Hx. induction 1 as [|y l [ty Hy] Hl IH].
  - by exists [], [].
  - simpl. unfold int_time in Hx, Hy.
    destruct (r_time x) eqn:Ex; try discriminate.
    destruct (r_time y) eqn:Ey; try discriminate. simplify_eq. simpl.
    destruct (Z.ltb_spec tx ty) as [Hlt|Hge].
    + destruct IH as (l1 & l2 & -> & -> & H1 & H2). simpl.
      exists (y :: l1), l2. split; [done|]. split; [done|]. split; [|done].
      constructor; [|done]. exists ty. unfold int_time. by rewrite Ey.
    + exists [], (y :: l). repeat split; [by constructor|].
      exists ty. unfold int_time. by rewrite Ey.
Qed.

(** X2.  The sort of the records of an address, when every record carries an
    int as its time (a block time or a mempool time): the sort returns,
    its result holds the same records, latest first, and records with
    the same time keep the order they had. *)
Theorem history_sorted_latest_first (l : list history_record) :
  Forall (fun r => is_Some (int_time r)) l ->
  exists sorted,
    sort_by_time l = Ok sorted
    /\ sorted ≡ₚ l
    /\ StronglySorted
         (fun a b => exists ta tb,
            int_time a = Some ta /\ int_time b = Some tb /\ tb <= ta)
         sorted
    /\ (forall t : Z,
          filter (fun r => int_time r = Some t) sorted
          = filter (fun r => int_time r = Some t) l).
Proof.
  induction 1 as [|x l [tx Hx] Hl IH].
  - exists []. repeat split; constructor.
  - destruct IH as (s & Hs & Hperm & Hsorted & Hstable).
    simpl. rewrite Hs. simpl.
    assert (Hall : Forall (fun r => is_Some (int_time r)) s) by by rewrite Hperm.
    destruct (insert_by_time_int x s tx Hx Hall) as (l1 & l2 & -> & -> & H1 & H2).
    exists (l1 ++ x :: l2). split; [done|]. split; [|split].
    + etrans; [symmetry; apply Permutation_middle|]. by constructor.
    + apply StronglySorted_app in Hsorted as (S12 & S1 & S2).
      apply StronglySorted_app_2; [|done|].
      * intros a b Ha Hb. apply elem_of_cons in Hb as [->|Hb]; [|by apply S12].
        rewrite Forall_forall in H1. destruct (H1 a Ha) as (ta & Hta & Hlt).
        exists ta, tx. split; [done|]. split; [done|lia].
      * constructor; [done|].
        destruct l2 as [|y l2]; [constructor|].
        destruct H2 as (ty & Hy & Hle).
        apply StronglySorted_inv in S2 as [_ Hy2].
        constructor.
        { by exists tx, ty. }
        eapply Forall_impl; [exact Hy2|].
        intros z (ty' & tz & Hy' & Hz & Hzy). exists tx, tz.
        rewrite Hy in Hy'. simplify_eq. split; [done|]. split; [done|lia].
    + intros t. rewrite filter_app, !filter_cons, <- Hstable, filter_app.
      case_decide as Ht; [|done].
      replace (filter (fun r => int_time r = Some t) l1) with (@nil history_record);
        [done|].
      symmetry. apply filter_none. eapply Forall_impl; [exact H1|].
      intros a (ta & Hta & Hlt) Hat. rewrite Hx in Ht. rewrite Hta in Hat.
      simplify_eq. lia.
Qed.

(** Three records at the times 10, 30 and 10: the record at 30 comes
    first, and the two at 10 keep their order. *)
Lemma history_sorted_latest_first_witness :
  exists sorted,
    sort_by_time [record_at txid_a 10; record_at txid_b 30; record_at txid_z 10]
    = Ok sorted
    /\ sorted = [record_at txid_b 30; record_at txid_a 10; record_at txid_z 10].
Proof.
  destruct (history_sorted_latest_first
              [record_at txid_a 10; record_at txid_b 30; record_at txid_z 10])
    as (sorted & Hs & _).
  { repeat constructor; by eexists. }
  exists sorted. split; [exact Hs|].
  vm_compute in Hs. by simplify_eq.
Defined.

(** ** The record of a transaction *)

Lemma bindM_lift_Ok {A B} (a : A) (k : A -> M B) : bindM (lift (Ok a)) k = k a.
Proof. unfold bindM. simpl. by destruct (k a). Qed.

Lemma bindM_ret {A B} (a : A) (k : A -> M B) : bindM (ret a) k = k a.
Proof. apply bindM_lift_Ok. Qed.

Lemma bindM_lift_Raise {A B} (e : exn) (k : A -> M B) :
  bindM (lift (Raise e)) k = lift (Raise e).
Proof. done. Qed.

Lemma rmap_total {A B} (f : A -> result B) (g : A -> B) (l : list A) :
  Forall (fun x => f x = Ok (g x)) l -> rmap f l = Ok (map g l).
Proof.
  induction 1 as [|x l Hx _ IH]; [done|]. simpl. by rewrite Hx, IH.
Qed.

Lemma forallb_false_elem_of {A} (f : A -> bool) (l : list A) (x : A) :
  x ∈ l -> f x = false -> forallb f l = false.
Proof.
  induction 1 as [y l|y z l _ IH]; intros Hx; simpl.
  - by rewrite Hx.
  - rewrite IH by done. apply andb_false_r.
Qed.

(** X3.  An input without a 64-character [txid] fails the whole record.  A
    confirmed transaction whose inputs are all dicts, one of which has
    no [txid] entry (as the input of a coinbase transaction) or one that
    is not a 64-character string, yields no record: the guard of the raw
    batch fetch raises "invalid format of txid as argument", and the
    daemon is not asked anything. *)
Theorem record_fails_on_input_without_txid
    (self : HttpHandler) (d : list (string * pyval))
    (confirmations time : pyval) (inputs : list (list (string * pyval)))
    (input : list (string * pyval)) :
  dict_lookup "confirmations" d = Some confirmations ->
  is_none confirmations = false ->
  dict_lookup "time" d = Some time ->
  is_none time = false ->
  dict_lookup "vin" d = Some (VList (map VDict inputs)) ->
  input ∈ inputs ->
  txid_arg_ok (default VNone (dict_lookup "txid" input)) = false ->
  outcome (process_single_tx_record self (VDict d))
  = Raise (Exception "invalid format of txid as argument")
  /\ calls (process_single_tx_record self (VDict d)) = [].
Proof.
  intros Hc Hcn Ht Htn Hvin Hin Hbad.
  enough (process_single_tx_record self (VDict d)
          = lift (Raise (Exception "invalid format of txid as argument")))
    as -> by done.
  unfold process_single_tx_record.
  rewrite (dict_lookup_truthy _ _ _ Hc). cbn [negb].
  rewrite (transaction_time_confirmed self d confirmations time) by done.
  rewrite bindM_ret.
  unfold py_get at 1, py_get_default at 1. rewrite Hvin. cbn [from_option id].
  rewrite bindM_lift_Ok. cbn [py_iter]. rewrite bindM_lift_Ok.
  rewrite (rmap_total _ (fun i => default VNone
                           (match i with VDict di => dict_lookup "txid" di | _ => None end))).
  2:{ apply Forall_forall. intros i Hi.
      apply list_elem_of_In, in_map_iff in Hi as (di & <- & _). done. }
  rewrite bindM_lift_Ok.
  rewrite (rmap_total _ (fun i => default VNone
                           (match i with VDict di => dict_lookup "vout" di | _ => None end))).
  2:{ apply Forall_forall. intros i Hi.
      apply list_elem_of_In, in_map_iff in Hi as (di & <- & _). done. }
  rewrite bindM_lift_Ok.
  unfold get_tx_raw_list.
  rewrite (forallb_false_elem_of _ _ (default VNone (dict_lookup "txid" input)));
    [done| |done].
  apply list_elem_of_In, in_map_iff. exists (VDict input). split; [done|].
  apply in_map. by apply list_elem_of_In.
Qed.

Lemma record_fails_on_input_without_txid_witness :
  outcome (process_single_tx_record idle_handler coinbase_detail)
  = Raise (Exception "invalid format of txid as argument")
  /\ calls (process_single_tx_record idle_handler coinbase_detail) = [].
Proof.
  exact (record_fails_on_input_without_txid idle_handler
           [("txid", VStr txid_a); ("confirmations", VInt 100);
            ("time", VInt 1600000000);
            ("vin", VList [VDict [("coinbase", VStr "04ffff001d0104");
                                  ("sequence", VInt 4294967295)]]);
            ("vout", VList [paying_output 0 50 "1Miner" "76a914cc88ac"])]
           (VInt 100) (VInt 1600000000)
           [[("coinbase", VStr "04ffff001d0104"); ("sequence", VInt 4294967295)]]
           [("coinbase", VStr "04ffff001d0104"); ("sequence", VInt 4294967295)]
           eq_refl eq_refl eq_refl eq_refl eq_refl
           (list_elem_of_here _ _) eq_refl).
Defined.

Lemma get_transaction_time_not_none self tx_detail time :
  outcome (get_transaction_time self tx_detail) = Ok time -> is_none time = false.
Proof.
  unfold get_transaction_time. intros H.
  apply outcome_bindM_Ok in H as (c & _ & H).
  apply outcome_bindM_Ok in H as ([t|] & _ & H); [|discriminate].
  destruct (is_none t) eqn:E; [discriminate|]. simpl in H. by simplify_eq.
Qed.

Lemma rmap_length {A B} (f : A -> result B) (l : list A) (l' : list B) :
  rmap f l = Ok l' -> length l' = length l.
Proof.
  revert l'. induction l as [|a l IH]; intros l' H; simpl in H; [by simplify_eq|].
  apply rbind_Ok in H as (b & _ & H). apply rbind_Ok in H as (bs & Hbs & H).
  simplify_eq. simpl. f_equal. by apply IH.
Qed.

Lemma zip3_length_le {A B C} (a : list A) (b : list B) (c : list C) :
  (length (zip3 a b c) <= length a)%nat.
Proof.
  revert b c. induction a as [|x a IH]; intros [|y b] [|z c]; simpl; try lia.
  specialize (IH b c). lia.
Qed.

(** X4.  What every record built holds.  Each input and each output kept has
    a non-empty address list; there are no more kept inputs than inputs
    and no more kept outputs than outputs of the detailed transaction;
    the time is not [None]; the id is the one of the detail, and the
    confirmation count is the one of the detail, or 0 when it has
    none. *)
Theorem record_keeps_resolved_entries
    (self : HttpHandler) (tx_detail : pyval) (r : history_record) :
  outcome (process_single_tx_record self tx_detail) = Ok r ->
  Forall (fun input => truthy (vin_addrs input) = true) (r_vin r)
  /\ Forall (fun output => truthy (vout_addrs output) = true) (r_vout r)
  /\ is_none (r_time r) = false
  /\ py_get tx_detail "txid" = Ok (r_txid r)
  /\ py_get_default tx_detail "confirmations" (VInt 0) = Ok (r_confirmations r)
  /\ (exists vin vin_items vout vout_items,
        py_get tx_detail "vin" = Ok vin /\ py_iter vin = Ok vin_items
        /\ py_get tx_detail "vout" = Ok vout /\ py_iter vout = Ok vout_items
        /\ (length (r_vin r) <= length vin_items)%nat
        /\ (length (r_vout r) <= length vout_items)%nat).
Proof.
  intros H. apply process_single_tx_record_inv in H
    as (tx_time & vin & vin_items & vin_txid_list & vin_idx_list & vin_raw_list
        & raws & vin_tx_list & prev_out_list & prev_out_value_list
        & script_detail_list & vin_addrs_list & vout & vout_items
        & vout_value_list & vout_script_list & vout_addrs_list
        & _ & Htime & Hvin & Hitems & Htxids & _ & _ & _ & _ & _
        & _ & _ & _ & Hvout & Hvitems & Hvalues & _ & _ & Hrvin & Hrvout
        & _ & _ & _ & Htxid & Hconf & Hrtime).
  split.
  { rewrite Hrvin. apply Forall_forall. intros input Hx.
    apply list_elem_of_In, in_map_iff in Hx as ([[txid addrs] v] & <- & Hin).
    apply list_elem_of_In, list_elem_of_filter in Hin as [Hin _].
    simpl. by apply Is_true_true. }
  split.
  { rewrite Hrvout. apply Forall_forall. intros output Hx.
    apply list_elem_of_In, in_map_iff in Hx as ([addrs v] & <- & Hin).
    apply list_elem_of_In, list_elem_of_filter in Hin as [Hin _].
    simpl. by apply Is_true_true. }
  split; [rewrite Hrtime; by eapply get_transaction_time_not_none|].
  do 2 (split; [done|]).
  exists vin, vin_items, vout, vout_items. do 4 (split; [done|]).
  rewrite Hrvin, Hrvout, !length_map. split.
  - pose proof (length_filter (fun '(txid, addrs, value) => Is_true (truthy addrs))
                  (zip3 vin_txid_list vin_addrs_list prev_out_value_list)) as H1.
    pose proof (zip3_length_le vin_txid_list vin_addrs_list prev_out_value_list)
      as H2.
    pose proof (rmap_length _ _ _ Htxids) as H3. lia.
  - pose proof (length_filter (fun '(addrs, value) => Is_true (truthy addrs))
                  (zip vout_addrs_list vout_value_list)) as H1.
    pose proof (length_zip vout_addrs_list vout_value_list) as H2.
    pose proof (rmap_length _ _ _ Hvalues) as H3. lia.
Qed.

Lemma record_keeps_resolved_entries_witness :
  outcome (process_single_tx_record (spending_handler [100000000])
             (spending_detail 1 (Float.quot_Z 9999 10000)))
  = Ok unit_value_record
  /\ Forall (fun input => truthy (vin_addrs input) = true) (r_vin unit_value_record)
  /\ is_none (r_time unit_value_record) = false.
Proof.
  assert (H : outcome (process_single_tx_record (spending_handler [100000000])
                         (spending_detail 1 (Float.quot_Z 9999 10000)))
              = Ok unit_value_record) by reflexivity.
  destruct (record_keeps_resolved_entries _ _ _ H) as (Hin & _ & Ht & _).
  split; [exact H|]. split; [exact Hin|exact Ht].
Defined.

(** X5.  A record without resolved inputs.  When no input is kept (the
    transaction has none, or no script of a spent output decodes to an
    address), [valueIn] is zero and the fee is the negated [valueOut]:
    negative for a transaction that pays anything. *)
Theorem fee_without_resolved_inputs
    (self : HttpHandler) (tx_detail : pyval) (r : history_record)
    (s : bool) (c : N) (e : Z) :
  outcome (process_single_tx_record self tx_detail) = Ok r ->
  0 <= prec self <= 999999 ->
  r_vin r = [] ->
  r_valueOut r = PyDecimal.DFin s c e ->
  (0 < c < 10 ^ 28)%N ->
  r_valueIn r = PyDecimal.DFin false 0 (- prec self)
  /\ r_fees r = PyDecimal.DFin (negb s) c (- prec self).
Proof.
  intros Hr Hp Hvin Hout Hc.
  destruct (process_single_tx_record_Ok self tx_detail r Hr)
    as (Hin & Hout' & Hfee & _).
  rewrite Hvin in Hin. unfold total_value in Hin, Hout'.
  assert (Hzero : r_valueIn r = PyDecimal.DFin false 0 (- prec self)).
  { cbn [reduce_values fold_left rbind PyDecimal.of_num] in Hin.
    unfold PyDecimal.round, PyDecimal.quantize, PyDecimal.of_Z in Hin.
    change (Z.abs_N 0 =? 0)%N with true in Hin.
    unfold PyDecimal.Etiny, PyDecimal.Emin, PyDecimal.Emax, PyDecimal.ctx_prec in Hin.
    destruct (Z.leb_spec (-999999 - 28 + 1) (- prec self)) as [_|?]; [|lia].
    destruct (Z.leb_spec (- prec self) 999999) as [_|?]; [|lia].
    cbn [andb negb] in Hin. by simplify_eq. }
  split; [done|].
  apply rbind_Ok in Hout' as (sum & _ & Hq). rewrite Hout in Hq.
  apply quantize_exponent in Hq as ->.
  rewrite Hzero, Hout, fees_of_exact in Hfee; [|done|lia].
  simplify_eq. rewrite <- Hfee. unfold diff_sign, PyDecimal.signed.
  assert (Hz : 0 < Z.of_N c) by lia.
  destruct s; cbn [cond_Zopp negb Z.of_N].
  - replace (0 - - Z.of_N c) with (Z.of_N c) by lia.
    destruct (Z.eqb_spec (Z.of_N c) 0) as [?|_]; [lia|].
    destruct (Z.ltb_spec (Z.of_N c) 0) as [?|_]; [lia|].
    f_equal. lia.
  - replace (0 - Z.of_N c) with (- Z.of_N c) by lia.
    destruct (Z.eqb_spec (- Z.of_N c) 0) as [?|_]; [lia|].
    destruct (Z.ltb_spec (- Z.of_N c) 0) as [_|?]; [|lia].
    f_equal. lia.
Qed.

Lemma fee_without_resolved_inputs_witness :
  outcome (process_single_tx_record (spending_handler [])
             (spending_detail 0 (Float.of_Z 1))) = Ok no_input_record
  /\ r_valueIn no_input_record = PyDecimal.DFin false 0 (-8)
  /\ r_fees no_input_record = PyDecimal.DFin true 100000000 (-8).
Proof.
  assert (Hr : outcome (process_single_tx_record (spending_handler [])
                          (spending_detail 0 (Float.of_Z 1)))
               = Ok no_input_record) by reflexivity.
  split; [exact Hr|].
  apply (fee_without_resolved_inputs (spending_handler []) _ _ false 100000000 (-8)
           Hr); [simpl; lia|reflexivity|reflexivity|lia].
Defined.

(** ** The address lists of decoded scripts *)

Lemma addrs_of_script_None_or_truthy (s addrs : pyval) :
  addrs_of_script s = Ok addrs -> addrs = VNone \/ truthy addrs = true.
Proof.
  unfold addrs_of_script. destruct (truthy s); cbn [negb]; [|by left; simplify_eq].
  intros H. apply rbind_Ok in H as (addresses & _ & H).
  destruct (truthy addresses) eqn:Ha; [right; by simplify_eq|].
  apply rbind_Ok in H as (type & _ & H).
  destruct (py_eq_str type "nonstandard"); [|by left; simplify_eq].
  apply rbind_Ok in H as (segwit & _ & H).
  destruct (truthy segwit); [|by left; simplify_eq].
  apply rbind_Ok in H as (segwit_addresses & _ & H).
  destruct (truthy segwit_addresses) eqn:Hs; [right|left]; by simplify_eq.
Qed.

Lemma addrs_of_script_total (d : list (string * pyval)) :
  (dict_lookup "segwit" d = None
   \/ (exists segwit, dict_lookup "segwit" d = Some segwit /\ truthy segwit = false)
   \/ exists sd, dict_lookup "segwit" d = Some (VDict sd)) ->
  exists addrs, addrs_of_script (VDict d) = Ok addrs.
Proof.
  intros Hs. unfold addrs_of_script.
  destruct (truthy (VDict d)); cbn [negb]; [|by eexists].
  cbn [py_get py_get_default rbind].
  destruct (truthy (default VNone (dict_lookup "addresses" d))); [by eexists|].
  destruct (py_eq_str _ _); [|by eexists].
  destruct Hs as [->|[(segwit & -> & Hf)|(sd & ->)]];
    cbn [py_get py_get_default rbind from_option id].
  - by eexists.
  - rewrite Hf. by eexists.
  - destruct (truthy (VDict sd)); [|by eexists].
    cbn [py_get py_get_default rbind].
    destruct (truthy _); by eexists.
Qed.

(** X6.  The address lists of a list of decoded scripts.  When the
    extraction returns, there is one entry per script, in the order of
    the scripts; an entry is [None] or a non-empty value, so that the
    test of the record builder keeps exactly the entries that are not
    [None]; the entry of an empty or missing script is [None].  The
    extraction returns on every list whose scripts are [None] or
    objects whose [segwit] member is absent, empty or an object; a
    script that is a non-empty value other than an object (a string,
    say) makes it raise [AttributeError]. *)
Theorem script_addresses_entry_per_script :
  (forall (script_list : pyval) (scripts result : list pyval),
     py_iter script_list = Ok scripts ->
     get_addrs_from_script_list script_list = Ok result ->
     length result = length scripts
     /\ Forall (fun addrs => addrs = VNone \/ truthy addrs = true) result
     /\ (forall (i : nat) addrs,
           result !! i = Some addrs ->
           exists script,
             scripts !! i = Some script /\ addrs_of_script script = Ok addrs)
     /\ (forall (i : nat) script,
           scripts !! i = Some script -> truthy script = false ->
           result !! i = Some VNone))
  /\ (forall scripts : list pyval,
        Forall (fun script =>
                  script = VNone
                  \/ exists d,
                       script = VDict d
                       /\ (dict_lookup "segwit" d = None
                           \/ (exists segwit,
                                 dict_lookup "segwit" d = Some segwit
                                 /\ truthy segwit = false)
                           \/ exists sd, dict_lookup "segwit" d = Some (VDict sd)))
               scripts ->
        exists result, get_addrs_from_script_list (VList scripts) = Ok result)
  /\ (forall (before after : list pyval) (s : string),
        s <> "" ->
        (exists addrs, rmap addrs_of_script before = Ok addrs) ->
        get_addrs_from_script_list (VList (before ++ VStr s :: after))
        = Raise AttributeError).
Proof.
  split; [|split].
  - intros script_list scripts result Hit H. unfold get_addrs_from_script_list in H.
    rewrite Hit in H. cbn [rbind] in H.
    split; [by eapply rmap_length|]. split; [|split].
    + apply Forall_forall. intros addrs Hin.
      destruct (rmap_elem_of _ _ _ _ H Hin) as (s & _ & Hs).
      by eapply addrs_of_script_None_or_truthy.
    + intros i addrs Hi. by eapply rmap_lookup_inv.
    + intros i script Hi Hfalse.
      destruct (rmap_lookup _ _ _ _ _ H Hi) as (addrs & Ha & ->).
      unfold addrs_of_script in Ha. rewrite Hfalse in Ha. cbn [negb] in Ha.
      by simplify_eq.
  - intros scripts Hall. unfold get_addrs_from_script_list. cbn [py_iter rbind].
    induction Hall as [|script scripts Hs _ [result IH]]; [by eexists|].
    cbn [rmap]. rewrite IH.
    destruct Hs as [->|(d & -> & Hd)]; [by eexists|].
    destruct (addrs_of_script_total d Hd) as [addrs ->]. by eexists.
  - intros before after s Hs [addrs Hb]. unfold get_addrs_from_script_list.
    cbn [py_iter rbind]. revert addrs Hb.
    induction before as [|x before IH]; intros addrs Hb.
    + cbn. unfold addrs_of_script. cbn.
      apply String.eqb_neq in Hs. by rewrite Hs.
    + cbn [app rmap] in *. apply rbind_Ok in Hb as (y & -> & Hb).
      apply rbind_Ok in Hb as (ys & Hys & _). cbn [rbind].
      by rewrite (IH ys Hys).
Qed.

(** ** Ill-formed outputs in the enrichment of an unspent entry *)

Lemma rfilter_Raise {A} (f : A -> result bool) (before after : list A) (bad : A)
    (e : exn) :
  Forall (fun x => exists b, f x = Ok b) before ->
  f bad = Raise e ->
  rfilter f (before ++ bad :: after) = Raise e.
Proof.
  intros Hb Hbad. induction Hb as [|x before [b Hx] _ IH]; simpl.
  - by rewrite Hbad.
  - by rewrite Hx, IH.
Qed.

(** X7.  The loop over the outputs inspects every output before one is
    used.  An output on which the test raises fails the enrichment with
    that exception, also when an output before it was selected: an
    output without a [scriptPubKey] member raises [KeyError], and one
    whose script has an empty [addresses] list raises [IndexError]. *)
Theorem wallet_unspent_fails_on_any_ill_formed_output :
  (forall (address : string) (utxo : unspent) (td : list (string * pyval))
          (list_vout : pyval) (before after : list pyval) (bad : pyval) (e : exn),
     dict_lookup "vout" td = Some list_vout ->
     py_iter list_vout = Ok (before ++ bad :: after) ->
     Forall (fun item => exists b, wallet_pick address (u_tx_pos utxo) item = Ok b)
            before ->
     wallet_pick address (u_tx_pos utxo) bad = Raise e ->
     wallet_unspent address utxo (VDict td) = Raise e)
  /\ (forall (address : string) (vout : Z) (d : list (string * pyval)),
        dict_lookup "scriptPubKey" d = None ->
        wallet_pick address vout (VDict d) = Raise (KeyError "scriptPubKey"))
  /\ (forall (address : string) (vout : Z) (d spk : list (string * pyval)),
        dict_lookup "scriptPubKey" d = Some (VDict spk) ->
        dict_lookup "addresses" spk = Some (VList []) ->
        wallet_pick address vout (VDict d) = Raise IndexError).
Proof.
  split; [|split].
  - intros address utxo td list_vout before after bad e Hv Hit Hb Hbad.
    unfold wallet_unspent. cbn -[py_iter wallet_pick]. rewrite Hv.
    destruct (dict_lookup "confirmations" td) as [c|];
      cbn -[py_iter wallet_pick]; rewrite Hit; cbn -[wallet_pick];
      by rewrite (rfilter_Raise _ _ _ _ e Hb Hbad).
  - intros address vout d Hspk. unfold wallet_pick. cbn. by rewrite Hspk.
  - intros address vout d spk Hspk Ha. unfold wallet_pick. cbn -[py_eq_int].
    rewrite Hspk. cbn -[py_eq_int]. rewrite Ha. reflexivity.
Qed.

(** Output 0 pays "1Alice" and is selected; output 1 carries no script:
    the enrichment for "1Alice" raises. *)
Lemma wallet_unspent_fails_on_any_ill_formed_output_witness :
  wallet_pick "1Alice" 0 (paying_output 0 1 "1Alice" "76a914aa88ac") = Ok true
  /\ wallet_unspent "1Alice" (mkUnspent txid_a 0 100 100000000) scriptless_detail
     = Raise (KeyError "scriptPubKey").
Proof.
  split; [reflexivity|].
  destruct wallet_unspent_fails_on_any_ill_formed_output as (Hany & Hkey & _).
  apply (Hany "1Alice" (mkUnspent txid_a 0 100 100000000)
           [("txid", VStr txid_a); ("confirmations", VInt 6);
            ("vout", VList [paying_output 0 1 "1Alice" "76a914aa88ac";
                            VDict [("value", VFloat (Float.of_Z 2)); ("n", VInt 1)]])]
           (VList [paying_output 0 1 "1Alice" "76a914aa88ac";
                   VDict [("value", VFloat (Float.of_Z 2)); ("n", VInt 1)]])
           [paying_output 0 1 "1Alice" "76a914aa88ac"] []
           (VDict [("value", VFloat (Float.of_Z 2)); ("n", VInt 1)])
           (KeyError "scriptPubKey")).
  - reflexivity.
  - reflexivity.
  - repeat constructor. by exists true.
  - apply Hkey. reflexivity.
Defined.

(** ** The order of the unspent listing *)

Lemma StronglySorted_filter {A} (R : relation A) (P : A -> Prop)
    `{forall x, Decision (P x)} (l : list A) :
  StronglySorted R l -> StronglySorted R (filter P l).
Proof.
  induction 1 as [|x l _ IH Hx]; [constructor|].
  rewrite filter_cons. case_decide; [|done].
  constructor; [done|]. apply Forall_forall. intros y Hy.
  apply list_elem_of_filter in Hy as [_ Hy].
  by apply (proj1 (Forall_forall _ _) Hx).
Qed.

Lemma StronglySorted_impl {A} (R1 R2 : relation A) (l : list A) :
  (forall x y, R1 x y -> R2 x y) -> StronglySorted R1 l -> StronglySorted R2 l.
Proof.
  intros HR. induction 1 as [|x l _ IH Hx]; constructor; [done|].
  eapply Forall_impl; [exact Hx|]. intros y. apply HR.
Qed.

(** X8.  The listing of the unspent outputs of a script hash.  The outputs
    of the storage come first, in sorted order, and the outputs of the
    mempool follow, in the order the mempool gave them, both without the
    outputs that have a pending spend; the three collaborators are
    asked once each, the storage first and the pending spends last.
    The stored part is sorted by the order of the tuples whenever that
    order is total and transitive. *)
Theorem listunspent_stored_then_pending
    (hash_to_hex_str : bytes -> string) (utxo_leb : UTXO -> UTXO -> bool)
    (self : HttpHandler) (hashX : bytes)
    (stored pending : list UTXO) (spends : gset (bytes * Z)) :
  db_all_utxos self hashX = Ok stored ->
  mempool_unordered_UTXOs self hashX = Ok pending ->
  mempool_potential_spends self hashX = Ok spends ->
  outcome (hashX_listunspent hash_to_hex_str utxo_leb self hashX)
  = Ok (map (unspent_of_utxo hash_to_hex_str)
          (filter (fun utxo => (tx_hash utxo, tx_pos utxo) ∉ spends)
                  (sorted_utxos utxo_leb stored))
        ++ map (unspent_of_utxo hash_to_hex_str)
             (filter (fun utxo => (tx_hash utxo, tx_pos utxo) ∉ spends) pending))
  /\ sorted_utxos utxo_leb stored ≡ₚ stored
  /\ ((forall x y, utxo_leb x y = true \/ utxo_leb y x = true) ->
      (forall x y z,
         utxo_leb x y = true -> utxo_leb y z = true -> utxo_leb x z = true) ->
      StronglySorted (fun x y => utxo_leb x y = true)
        (filter (fun utxo => (tx_hash utxo, tx_pos utxo) ∉ spends)
                (sorted_utxos utxo_leb stored)))
  /\ calls (hashX_listunspent hash_to_hex_str utxo_leb self hashX)
     = [CallAllUtxos hashX; CallUnorderedUTXOs hashX; CallPotentialSpends hashX].
Proof.
  intros Hs Hp Hsp.
  unfold hashX_listunspent, bindM, perform, ret. cbn. rewrite Hs. cbn.
  rewrite Hp. cbn. rewrite Hsp. cbn.
  split; [by rewrite filter_app, map_app|]. split.
  { unfold sorted_utxos. by rewrite merge_sort_Permutation. }
  split; [|done].
  intros Htotal Htrans. apply StronglySorted_filter.
  assert (Transitive (fun x y : UTXO => Is_true (utxo_leb x y))) as HT.
  { intros x y z Hxy%Is_true_true Hyz%Is_true_true.
    apply Is_true_true. by eapply Htrans. }
  assert (Total (fun x y : UTXO => Is_true (utxo_leb x y))) as HTo.
  { intros x y. destruct (Htotal x y) as [H|H]; [left|right]; by apply Is_true_true. }
  pose proof (StronglySorted_merge_sort (fun x y => Is_true (utxo_leb x y)) stored)
    as Hsorted.
  eapply StronglySorted_impl; [|exact Hsorted].
  intros x y. apply Is_true_true.
Qed.

(** Two stored outputs, of which the one at height 120 has a pending
    spend, and one pending output: the stored output at height 100 comes
    first, the pending one last. *)
Lemma listunspent_stored_then_pending_witness :
  outcome (hashX_listunspent hash_hex utxo_by_height utxo_handler [])
  = Ok [unspent_of_utxo hash_hex (mkUTXO hash_a 1 100 5000);
        unspent_of_utxo hash_hex (mkUTXO hash_c 0 0 900)].
Proof.
  destruct (listunspent_stored_then_pending hash_hex utxo_by_height utxo_handler []
              [mkUTXO hash_b 0 120 7000; mkUTXO hash_a 1 100 5000]
              [mkUTXO hash_c 0 0 900] {[ (hash_b, 0) ]} eq_refl eq_refl eq_refl)
    as (Hout & _).
  rewrite Hout. reflexivity.
Defined.

(** ** The history request *)

(** X9.  What a history request needs.  Without the path variable the
    answer is 404; with it, a query string without [from], or without
    [to], makes the request raise [KeyError]: the defaults passed to
    [parse_int] stand in for values that are not integers, not for a
    missing value.  In the three cases no collaborator is asked. *)
Theorem history_requires_both_bounds
    (hash_to_hex_str : bytes -> string) (parse_int : string -> Z -> Z)
    (self : HttpHandler) (request : Request) :
  (assoc "addrs" (match_info request) = None ->
   history hash_to_hex_str parse_int self request = ret (PlainResponse 404 None))
  /\ (forall addrs,
        assoc "addrs" (match_info request) = Some addrs ->
        assoc "from" (query request) = None ->
        outcome (history hash_to_hex_str parse_int self request)
        = Raise (KeyError "from")
        /\ calls (history hash_to_hex_str parse_int self request) = [])
  /\ (forall addrs from,
        assoc "addrs" (match_info request) = Some addrs ->
        assoc "from" (query request) = Some from ->
        assoc "to" (query request) = None ->
        outcome (history hash_to_hex_str parse_int self request)
        = Raise (KeyError "to")
        /\ calls (history hash_to_hex_str parse_int self request) = []).
Proof.
  split; [|split].
  - intros Ha. unfold history. by rewrite Ha.
  - intros addrs Ha Hf. unfold history, query_getitem. by rewrite Ha, Hf.
  - intros addrs from Ha Hf Ht. unfold history, query_getitem.
    by rewrite Ha, Hf, Ht.
Qed.

Lemma history_requires_both_bounds_witness :
  history hash_hex int_or_default idle_handler
    {| match_info := []; query := [("from", "0"); ("to", "50")] |}
  = ret (PlainResponse 404 None)
  /\ outcome (history hash_hex int_or_default idle_handler
                {| match_info := [("addrs", "A")]; query := [("to", "50")] |})
     = Raise (KeyError "from")
  /\ outcome (history hash_hex int_or_default idle_handler
                {| match_info := [("addrs", "A")]; query := [("from", "0")] |})
     = Raise (KeyError "to").
Proof.
  split; [|split].
  - by apply history_requires_both_bounds.
  - by eapply (proj1 (proj2 (history_requires_both_bounds _ _ _ _))).
  - by eapply (proj2 (proj2 (history_requires_both_bounds _ _ _ _))).
Defined.

Lemma get_single_address_history_Ok
    hash_to_hex_str self query_from query_to addr h :
  outcome (get_single_address_history hash_to_hex_str self
             query_from query_to addr) = Ok h ->
  h_addr h = addr
  /\ exists txid_list tx_detail_list unsorted,
       outcome (get_txid_list hash_to_hex_str self addr) = Ok txid_list
       /\ outcome (get_tx_detail_list self
                     (map VStr (py_slice txid_list query_from query_to)))
          = Ok tx_detail_list
       /\ outcome (history_factory self tx_detail_list) = Ok unsorted
       /\ sort_by_time unsorted = Ok (h_txs h).
Proof.
  unfold get_single_address_history. intros H.
  apply outcome_bindM_Ok in H as (txid_list & Hids & H).
  apply outcome_bindM_Ok in H as (tx_detail_list & Hdetails & H).
  apply outcome_bindM_Ok in H as (unsorted & Hfactory & H).
  apply outcome_bindM_Ok in H as (sorted & Hsorted & H).
  cbn in H, Hsorted. simplify_eq. cbn. split; [done|].
  by exists txid_list, tx_detail_list, unsorted.
Qed.

(** X10.  The answer of a history request.  A request that passes the
    pagination check and returns has one result per requested address,
    in the order of the request and with an address that is named more
    than once answered as often; each result carries its address and the
    records of the page of that address, sorted; the body is the JSON
    value of these results. *)
Theorem history_answers_each_address_in_order
    (hash_to_hex_str : bytes -> string) (parse_int : string -> Z -> Z)
    (self : HttpHandler) (request : Request) (addrs from to : string)
    (query_from query_to : Z) (response : Response) :
  assoc "addrs" (match_info request) = Some addrs ->
  assoc "from" (query request) = Some from ->
  assoc "to" (query request) = Some to ->
  check_pagination (parse_int from 0) (parse_int to MAX_TX_QUERY)
  = inr (query_from, query_to) ->
  outcome (history hash_to_hex_str parse_int self request) = Ok response ->
  exists results body,
    response = JsonResponse body
    /\ json_of_results results = Ok body
    /\ length results = length (str_split "," addrs)
    /\ Forall2
         (fun addr h =>
            outcome (get_single_address_history hash_to_hex_str self
                       query_from query_to addr) = Ok h
            /\ h_addr h = addr
            /\ exists txid_list tx_detail_list unsorted,
                 outcome (get_txid_list hash_to_hex_str self addr) = Ok txid_list
                 /\ outcome (get_tx_detail_list self
                               (map VStr (py_slice txid_list query_from query_to)))
                    = Ok tx_detail_list
                 /\ outcome (history_factory self tx_detail_list) = Ok unsorted
                 /\ sort_by_time unsorted = Ok (h_txs h))
         (str_split "," addrs) results.
Proof.
  intros Ha Hf Ht Hpage H. unfold history, query_getitem in H.
  rewrite Ha, Hf, Ht in H.
  rewrite (outcome_bindM_step _ _ from) in H by done.
  rewrite (outcome_bindM_step _ _ to) in H by done.
  rewrite Hpage in H.
  apply outcome_bindM_Ok in H as (results & Hg & H).
  apply outcome_bindM_Ok in H as (body & Hbody & H).
  cbn in H, Hbody. simplify_eq.
  apply gather_Ok in Hg. apply Forall2_fmap_l in Hg.
  exists results, body. split; [done|]. split; [done|].
  split; [symmetry; by eapply Forall2_length|].
  eapply Forall2_impl; [exact Hg|].
  intros addr h Hh. split; [done|].
  by apply get_single_address_history_Ok in Hh.
Qed.

(** The address "A" named twice, with nothing to report: two results. *)
Lemma history_answers_each_address_in_order_witness :
  exists results body,
    outcome (history hash_hex int_or_default idle_handler
               {| match_info := [("addrs", "A,A")];
                  query := [("from", "0"); ("to", "50")] |})
    = Ok (JsonResponse body)
    /\ body = VList [VDict [("addr", VStr "A"); ("txs", VList [])];
                     VDict [("addr", VStr "A"); ("txs", VList [])]]
    /\ json_of_results results = Ok body
    /\ length results = 2%nat.
Proof.
  assert (H : outcome (history hash_hex int_or_default idle_handler
                         {| match_info := [("addrs", "A,A")];
                            query := [("from", "0"); ("to", "50")] |})
              = Ok (JsonResponse
                      (VList [VDict [("addr", VStr "A"); ("txs", VList [])];
                              VDict [("addr", VStr "A"); ("txs", VList [])]])))
    by reflexivity.
  destruct (history_answers_each_address_in_order hash_hex int_or_default
              idle_handler
              {| match_info := [("addrs", "A,A")];
                 query := [("from", "0"); ("to", "50")] |}
              "A,A" "0" "50" 0 50 _ eq_refl eq_refl eq_refl eq_refl H)
    as (results & body & Heq & Hjson & Hlen & _).
  exists results, body. simplify_eq. done.
Defined.

(** ** The unspent outputs of a list of addresses *)

Lemma fromkeys_go_ext (seen seen' l : list string) :
  (forall x, x ∈ seen <-> x ∈ seen') -> fromkeys_go seen l = fromkeys_go seen' l.
Proof.
  revert seen seen'. induction l as [|x l IH]; intros seen seen' H; [done|].
  simpl. rewrite (bool_decide_ext (x ∈ seen) (x ∈ seen')) by done.
  case_bool_decide; [by apply IH|]. f_equal. apply IH.
  intros y. rewrite !elem_of_cons. by rewrite H.
Qed.

Lemma fromkeys_go_elem_of (seen l : list string) (x : string) :
  x ∈ fromkeys_go seen l <-> x ∈ l /\ x ∉ seen.
Proof.
  revert seen. induction l as [|y l IH]; intros seen; simpl.
  - rewrite elem_of_nil. tauto.
  - case_bool_decide as Hy.
    + rewrite IH, elem_of_cons. split; [tauto|].
      intros [[->|Hx] Hn]; [done|tauto].
    + rewrite !elem_of_cons, IH, elem_of_cons.
      destruct (decide (x = y)) as [->|Hne]; tauto.
Qed.

Lemma fromkeys_go_NoDup (seen l : list string) : NoDup (fromkeys_go seen l).
Proof.
  revert seen. induction l as [|y l IH]; intros seen; simpl; [constructor|].
  case_bool_decide; [done|]. constructor; [|done].
  rewrite fromkeys_go_elem_of, elem_of_cons. tauto.
Qed.

Lemma fromkeys_go_app (seen l1 l2 : list string) :
  fromkeys_go seen (l1 ++ l2)
  = fromkeys_go seen l1 ++ fromkeys_go (l1 ++ seen) l2.
Proof.
  revert seen. induction l1 as [|x l1 IH]; intros seen; [done|].
  simpl. case_bool_decide as Hx.
  - rewrite IH. f_equal. apply fromkeys_go_ext.
    intros y. rewrite elem_of_cons, !elem_of_app. split; [tauto|].
    intros [->|H]; [|done]. by right.
  - simpl. f_equal. rewrite IH. f_equal. apply fromkeys_go_ext.
    intros y. rewrite !elem_of_cons, !elem_of_app, !elem_of_cons. tauto.
Qed.

Lemma for_each_Ok {A B} (body : A -> M (list B)) (l : list A) (r : list B) :
  outcome (for_each body l) = Ok r ->
  exists rs,
    Forall2 (fun x appended => outcome (body x) = Ok appended) l rs
    /\ r = concat rs
    /\ calls (for_each body l) = concat (map (fun x => calls (body x)) l).
Proof.
  revert r. induction l as [|x l IH]; intros r H; simpl in *.
  - simplify_eq. by exists [].
  - pose proof H as H'.
    apply outcome_bindM_Ok in H as (appended & Hx & H).
    rewrite (calls_bindM_step _ _ appended) by done.
    pose proof H as H''.
    apply outcome_bindM_Ok in H as (rest & Hrest & H). cbn in H. simplify_eq.
    rewrite (calls_bindM_step _ _ rest) by done. cbn.
    destruct (IH rest Hrest) as (rs & Hall & -> & ->).
    exists (appended :: rs). split; [by constructor|]. split; [done|].
    by rewrite app_nil_r.
Qed.

Lemma for_each_Raise {A B} (body : A -> M (list B)) (before after : list A)
    (x : A) (e : exn) :
  Forall (fun y => exists appended, outcome (body y) = Ok appended) before ->
  outcome (body x) = Raise e ->
  outcome (for_each body (before ++ x :: after)) = Raise e
  /\ calls (for_each body (before ++ x :: after))
     = concat (map (fun y => calls (body y)) before) ++ calls (body x).
Proof.
  intros Hb Hx. induction Hb as [|y before [appended Hy] _ [IHo IHc]]; simpl.
  - rewrite outcome_bindM_Raise with (e := e) by done.
    by rewrite (calls_bindM_Raise _ _ e).
  - rewrite (outcome_bindM_step _ _ appended), (calls_bindM_step _ _ appended)
      by done.
    rewrite outcome_bindM_Raise with (e := e) by done.
    rewrite (calls_bindM_Raise _ _ e) by done.
    by rewrite IHc, app_assoc.
Qed.

(** X11.  The addresses of an unspent listing.  Without the path variable,
    or with an empty one, the answer is 404 and no collaborator is
    asked.  Otherwise every requested address is visited once, in the
    order of its first appearance in the request; when the listing
    returns, its body holds the entries of the first address, then those
    of the second, and so on, and the collaborator calls made are those
    of the visits, one address after the other. *)
Theorem listunspent_visits_each_address_once
    (hash_to_hex_str : bytes -> string) (hex_to_bytes : string -> result bytes)
    (utxo_leb : UTXO -> UTXO -> bool) (self : HttpHandler) (request : Request) :
  (assoc "addrs" (match_info request) = None
   \/ assoc "addrs" (match_info request) = Some "" ->
   address_listunspent hash_to_hex_str hex_to_bytes utxo_leb self request
   = ret (PlainResponse 404 None))
  /\ (forall addrs,
        NoDup (py_fromkeys (str_split "," addrs))
        /\ (forall a, a ∈ py_fromkeys (str_split "," addrs)
                      <-> a ∈ str_split "," addrs)
        /\ (forall before a after,
              str_split "," addrs = before ++ a :: after -> a ∉ before ->
              exists visited rest,
                py_fromkeys (str_split "," addrs) = visited ++ a :: rest
                /\ forall b, b ∈ visited <-> b ∈ before))
  /\ (forall addrs response,
        assoc "addrs" (match_info request) = Some addrs ->
        addrs <> "" ->
        outcome (address_listunspent hash_to_hex_str hex_to_bytes utxo_leb
                   self request) = Ok response ->
        exists entries body,
          response = JsonResponse body
          /\ Forall2
               (fun a listed =>
                  outcome (unspent_of_address hash_to_hex_str hex_to_bytes
                             utxo_leb self a) = Ok listed)
               (py_fromkeys (str_split "," addrs)) entries
          /\ json_value (VList (map dict_of_wallet_entry (concat entries)))
             = Ok body
          /\ calls (address_listunspent hash_to_hex_str hex_to_bytes utxo_leb
                      self request)
             = concat (map (fun a => calls (unspent_of_address hash_to_hex_str
                                              hex_to_bytes utxo_leb self a))
                           (py_fromkeys (str_split "," addrs)))).
Proof.
  split; [|split].
  - intros [H|H]; unfold address_listunspent; by rewrite H.
  - intros addrs. unfold py_fromkeys. split; [apply fromkeys_go_NoDup|]. split.
    + intros a. rewrite fromkeys_go_elem_of, elem_of_nil. tauto.
    + intros before a after -> Ha. rewrite fromkeys_go_app. simpl.
      rewrite bool_decide_eq_false_2 by (rewrite app_nil_r; exact Ha).
      eexists _, _. split; [reflexivity|].
      intros b. rewrite fromkeys_go_elem_of, elem_of_nil. tauto.
  - intros addrs response Ha Hne H. unfold address_listunspent in *.
    rewrite Ha in *. cbn [from_option id] in *.
    apply String.eqb_neq in Hne. rewrite Hne in *.
    pose proof H as H'.
    apply outcome_bindM_Ok in H as (list_tx & Hloop & H).
    rewrite (calls_bindM_step _ _ list_tx) by done.
    apply outcome_bindM_Ok in H as (body & Hbody & H). cbn in H, Hbody.
    simplify_eq.
    destruct (for_each_Ok _ _ _ Hloop) as (entries & Hall & -> & ->).
    exists entries, body. split; [done|]. split; [done|]. split; [done|].
    rewrite (calls_bindM_step _ _ body) by done. cbn. by rewrite app_nil_r.
Qed.

(** "1Alice" is named twice and "1Bob" once: both are visited once,
    "1Alice" first, and the body holds the one entry of "1Alice". *)
Lemma listunspent_visits_each_address_once_witness :
  py_fromkeys (str_split "," "1Alice,1Bob,1Alice") = ["1Alice"; "1Bob"]
  /\ exists (entries : list (list wallet_entry)) body,
       outcome (address_listunspent hash_hex fromhex utxo_by_height wallet_handler
                  {| match_info := [("addrs", "1Alice,1Bob,1Alice")];
                     query := [] |})
       = Ok (JsonResponse body)
       /\ length entries = 2%nat
       /\ body = VList [VDict [("address", VStr "1Alice");
                              ("txid", VStr txid_a);
                              ("vout", VInt 0);
                              ("scriptPubKey", VStr "76a914aa88ac");
                              ("amount", VFloat (Float.of_Z 1));
                              ("satoshis", VInt 100000000);
                              ("height", VInt 100);
                              ("confirmations", VInt 6)]].
Proof.
  split; [reflexivity|].
  pose proof (listunspent_visits_each_address_once hash_hex fromhex
                utxo_by_height wallet_handler
                {| match_info := [("addrs", "1Alice,1Bob,1Alice")];
                   query := [] |}) as (_ & _ & Hok).
  destruct (Hok "1Alice,1Bob,1Alice" _ eq_refl ltac:(discriminate) eq_refl)
    as (entries & body & Heq & Hall & _).
  exists entries, body. simplify_eq. split; [reflexivity|].
  split; [|reflexivity]. by apply Forall2_length in Hall.
Defined.

(** X12.  The visits are made one after the other, and the first failure
    ends the listing.  When the visit of an address raises, after the
    visits of the addresses before it have returned, the listing raises
    that exception, and the collaborator calls made are those of the
    visits up to the failed one: the addresses after it are not looked
    up.  The visit of an address that the coin does not accept raises
    the exception that names the address, without a call. *)
Theorem listunspent_stops_at_first_failure
    (hash_to_hex_str : bytes -> string) (hex_to_bytes : string -> result bytes)
    (utxo_leb : UTXO -> UTXO -> bool) (self : HttpHandler) (request : Request)
    (addrs : string) (before after : list string) (a : string) (e : exn) :
  assoc "addrs" (match_info request) = Some addrs ->
  addrs <> "" ->
  py_fromkeys (str_split "," addrs) = before ++ a :: after ->
  Forall (fun b =>
            exists listed,
              outcome (unspent_of_address hash_to_hex_str hex_to_bytes
                         utxo_leb self b) = Ok listed)
         before ->
  outcome (unspent_of_address hash_to_hex_str hex_to_bytes utxo_leb self a)
  = Raise e ->
  outcome (address_listunspent hash_to_hex_str hex_to_bytes utxo_leb self request)
  = Raise e
  /\ calls (address_listunspent hash_to_hex_str hex_to_bytes utxo_leb self request)
     = concat (map (fun b => calls (unspent_of_address hash_to_hex_str
                                      hex_to_bytes utxo_leb self b)) before)
       ++ calls (unspent_of_address hash_to_hex_str hex_to_bytes utxo_leb self a)
  /\ (forall e0,
        coin_address_to_hashX self a = Raise e0 ->
        e = Exception (a +:+ " is not a valid address")
        /\ calls (unspent_of_address hash_to_hex_str hex_to_bytes utxo_leb self a)
           = []).
Proof.
  intros Ha Hne Hsplit Hb Hfail. unfold address_listunspent.
  rewrite Ha. cbn [from_option id].
  apply String.eqb_neq in Hne. rewrite Hne. rewrite Hsplit.
  destruct (for_each_Raise
              (unspent_of_address hash_to_hex_str hex_to_bytes utxo_leb self)
              before after a e Hb Hfail) as [Ho Hc].
  split; [by apply outcome_bindM_Raise|].
  split; [by rewrite (calls_bindM_Raise _ _ e)|].
  intros e0 He0. unfold unspent_of_address, address_to_hashX in *.
  rewrite He0 in *. cbn in Hfail. by simplify_eq.
Qed.

(** "nobody" is not an address: the listing for "1Alice,nobody,1Bob"
    raises after the visit of "1Alice", whose four calls are the only
    ones made. *)
Lemma listunspent_stops_at_first_failure_witness :
  outcome (address_listunspent hash_hex fromhex utxo_by_height wallet_handler
             {| match_info := [("addrs", "1Alice,nobody,1Bob")]; query := [] |})
  = Raise (Exception "nobody is not a valid address")
  /\ calls (address_listunspent hash_hex fromhex utxo_by_height wallet_handler
              {| match_info := [("addrs", "1Alice,nobody,1Bob")]; query := [] |})
     = [CallAllUtxos [Byte.x01]; CallUnorderedUTXOs [Byte.x01];
        CallPotentialSpends [Byte.x01];
        CallDaemon "getrawtransaction" [VStr txid_a; VBool true]].
Proof.
  destruct (listunspent_stops_at_first_failure hash_hex fromhex utxo_by_height
              wallet_handler
              {| match_info := [("addrs", "1Alice,nobody,1Bob")]; query := [] |}
              "1Alice,nobody,1Bob" ["1Alice"] ["1Bob"] "nobody"
              (Exception "nobody is not a valid address")
              eq_refl ltac:(discriminate) eq_refl)
    as (Ho & Hc & _).
  - repeat constructor. eexists. reflexivity.
  - reflexivity.
  - split; [exact Ho|]. rewrite Hc. reflexivity.
Defined.

(** ** The collaborator calls of a record build *)






(** ** The guard of the single fetch *)

(** X14.  The ids of a listing and the guard of [transaction_get].  When
    decoding the hexadecimal form of a hash gives back as many bytes as
    the hash has, the entry of an unspent output whose transaction hash
    has 32 bytes passes the guard, and the daemon is asked for that
    transaction, verbose; the entry of an output whose hash has another
    length is refused with the exception that names its id, and the
    daemon is not asked. *)
Theorem listed_ids_reach_the_daemon
    (hash_to_hex_str : bytes -> string) (hex_to_bytes : string -> result bytes)
    (self : HttpHandler) (address : string) (utxo : UTXO) :
  (forall h, exists b,
     hex_to_bytes (hash_to_hex_str h) = Ok b /\ length b = length h) ->
  (length (tx_hash utxo) = 32%nat ->
   calls (unspent_entry hex_to_bytes self address
            (unspent_of_utxo hash_to_hex_str utxo))
   = [CallDaemon "getrawtransaction"
        [VStr (hash_to_hex_str (tx_hash utxo)); VBool true]])
  /\ (length (tx_hash utxo) <> 32%nat ->
      outcome (unspent_entry hex_to_bytes self address
                 (unspent_of_utxo hash_to_hex_str utxo))
      = Raise (Exception (hash_to_hex_str (tx_hash utxo)
                          +:+ " should be a transaction hash"))
      /\ calls (unspent_entry hex_to_bytes self address
                  (unspent_of_utxo hash_to_hex_str utxo)) = []).
Proof.
  intros Hhex. destruct (Hhex (tx_hash utxo)) as (b & Hb & Hlen).
  unfold unspent_entry, transaction_get, assert_tx_hash. cbn [u_tx_hash unspent_of_utxo].
  rewrite Hb, Hlen. split.
  - intros ->. change (Z.of_nat 32 =? 32) with true. cbv iota.
    rewrite bindM_lift_Ok.
    destruct (daemon_request self "getrawtransaction" _) as [e|tx_detail] eqn:Hd.
    + rewrite (calls_bindM_Raise _ _ e) by done. done.
    + rewrite (calls_bindM_step _ _ tx_detail) by done.
      cbn [calls perform]. destruct (wallet_unspent _ _ _); done.
  - intros Hne. destruct (Z.eqb_spec (Z.of_nat (length (tx_hash utxo))) 32); [lia|].
    done.
Qed.

Lemma listed_ids_reach_the_daemon_witness :
  calls (unspent_entry fromhex wallet_handler "1Alice"
           (unspent_of_utxo hash_hex (mkUTXO hash_aa 0 100 100000000)))
  = [CallDaemon "getrawtransaction" [VStr txid_a; VBool true]]
  /\ outcome (unspent_entry fromhex wallet_handler "1Alice"
                (unspent_of_utxo hash_hex (mkUTXO hash_a 0 100 100000000)))
     = Raise (Exception "010a should be a transaction hash").
Proof.
  assert (Hhex : forall h, exists b,
            fromhex (hash_hex h) = Ok b /\ length b = length h).
  { intros h. exists (rev h). split; [apply fromhex_bytes_hex|apply length_rev]. }
  split.
  - by apply (listed_ids_reach_the_daemon hash_hex fromhex wallet_handler
                "1Alice" (mkUTXO hash_aa 0 100 100000000) Hhex).
  - by apply (listed_ids_reach_the_daemon hash_hex fromhex wallet_handler
                "1Alice" (mkUTXO hash_a 0 100 100000000) Hhex).
Defined.

(** ** An address that the coin does not accept *)

(** X15.  An address that the coin does not accept, in a history request.
    Its branch raises the exception that names the address, whatever the
    coin raised, and asks no collaborator; the request raises, and what
    it raises is that exception when no other branch raises another. *)
Theorem history_rejects_invalid_address
    (hash_to_hex_str : bytes -> string) (parse_int : string -> Z -> Z)
    (self : HttpHandler) (request : Request) (addrs from to : string)
    (query_from query_to : Z) (addr : string) (e0 : exn) :
  assoc "addrs" (match_info request) = Some addrs ->
  assoc "from" (query request) = Some from ->
  assoc "to" (query request) = Some to ->
  check_pagination (parse_int from 0) (parse_int to MAX_TX_QUERY)
  = inr (query_from, query_to) ->
  addr ∈ str_split "," addrs ->
  coin_address_to_hashX self addr = Raise e0 ->
  outcome (get_txid_list hash_to_hex_str self addr)
  = Raise (Exception (addr +:+ " is not a valid address"))
  /\ calls (get_single_address_history hash_to_hex_str self
              query_from query_to addr) = []
  /\ (exists e', outcome (history hash_to_hex_str parse_int self request)
                 = Raise e')
  /\ ((forall addr' e',
         addr' ∈ str_split "," addrs ->
         outcome (get_single_address_history hash_to_hex_str self
                    query_from query_to addr') = Raise e' ->
         e' = Exception (addr +:+ " is not a valid address")) ->
      outcome (history hash_to_hex_str parse_int self request)
      = Raise (Exception (addr +:+ " is not a valid address"))).
Proof.
  intros Ha Hf Ht Hpage Hin He0.
  assert (Hids : get_txid_list hash_to_hex_str self addr
                 = lift (Raise (Exception (addr +:+ " is not a valid address")))).
  { unfold get_txid_list, address_to_hashX. by rewrite He0. }
  assert (Hbranch : get_single_address_history hash_to_hex_str self
                      query_from query_to addr
                    = lift (Raise (Exception (addr +:+ " is not a valid address")))).
  { unfold get_single_address_history. by rewrite Hids. }
  split; [by rewrite Hids|]. split; [by rewrite Hbranch|].
  destruct (history_Raise hash_to_hex_str parse_int self request addrs from to
              query_from query_to addr
              (Exception (addr +:+ " is not a valid address")) Ha Hf Ht Hpage Hin)
    as (addr' & e' & Hin' & Hbranch' & Hhistory); [by rewrite Hbranch|].
  split; [by exists e'|].
  intros Honly. by rewrite <- (Honly addr' e' Hin' Hbranch').
Qed.

Lemma history_rejects_invalid_address_witness :
  outcome (history hash_hex int_or_default wallet_handler
             {| match_info := [("addrs", "1Alice,nobody")];
                query := [("from", "0"); ("to", "50")] |})
  = Raise (Exception "nobody is not a valid address").
Proof.
  apply (history_rejects_invalid_address hash_hex int_or_default wallet_handler
           {| match_info := [("addrs", "1Alice,nobody")];
              query := [("from", "0"); ("to", "50")] |}
           "1Alice,nobody" "0" "50" 0 50 "nobody" ValueError
           eq_refl eq_refl eq_refl eq_refl).
  - apply list_elem_of_In. simpl. auto.
  - reflexivity.
  - intros addr' e' Hin%list_elem_of_In. simpl in Hin.
    destruct Hin as [<-|[<-|[]]]; intros H; vm_compute in H; by simplify_eq.
Defined.

(** ** The precision of the handler *)

(** X16.  The precision set by [__init__].  It is defined when the
    logarithm of the ratio of the coin is a finite float, and it is the
    integer part of that float: for a logarithm that is not negative,
    the integer [P] with [P <= log < P + 1].  A logarithm that rounding
    leaves just below an integer thus gives the integer before it. *)
Theorem init_prec_is_the_integer_part
    (math_log : Z -> Z -> result Float.float) (VALUE_PER_COIN P : Z) :
  init_prec math_log VALUE_PER_COIN = Ok P ->
  exists l,
    math_log VALUE_PER_COIN 10 = Ok l
    /\ Float.is_finite l = true
    /\ (Float.compare_Z l 0 <> Some Lt ->
        0 <= P
        /\ Float.compare_Z l P <> Some Lt
        /\ Float.compare_Z l (P + 1) = Some Lt).
Proof.
  unfold init_prec. intros (l & Hl & Hint)%rbind_Ok. exists l. split; [done|].
  destruct l as [s|s| |s m e]; cbn [int_of_float] in Hint; try discriminate;
    simplify_eq.
  - split; [done|]. intros _. by repeat split.
  - split; [done|]. unfold Float.compare_Z. intros Hsign.
    destruct s; cbn [cond_Zopp] in *.
    { exfalso. apply Hsign. f_equal.
      destruct (Z.leb_spec 0 e).
      - assert (0 < 2 ^ e) by (apply Z.pow_pos_nonneg; lia).
        apply Z.compare_lt_iff. nia.
      - apply Z.compare_lt_iff. lia. }
    destruct (Z.leb_spec 0 e) as [He|He].
    + assert (0 < 2 ^ e) by (apply Z.pow_pos_nonneg; lia).
      split; [nia|]. split.
      * rewrite Z.compare_refl. discriminate.
      * f_equal. apply Z.compare_lt_iff. lia.
    + assert (Hk : 0 < 2 ^ (- e)) by (apply Z.pow_pos_nonneg; lia).
      pose proof (Z.mul_div_le (Z.pos m) (2 ^ (- e)) Hk) as Hlo.
      pose proof (Z.mul_succ_div_gt (Z.pos m) (2 ^ (- e)) Hk) as Hhi.
      split; [apply Z.div_pos; lia|]. split.
      * destruct (Z.compare_spec (Z.pos m)
                    (Z.pos m / 2 ^ (- e) * 2 ^ (- e))); [discriminate|lia|discriminate].
      * f_equal. apply Z.compare_lt_iff. lia.
Qed.

(** With the logarithms of CPython: the ratio 10^8 gives 8, and the
    ratio 10^6, whose logarithm is the float just below 6, gives 5. *)
Lemma init_prec_is_the_integer_part_witness :
  init_prec log_of_table 100000000 = Ok 8
  /\ init_prec log_of_table 1000000 = Ok 5
  /\ exists l,
       log_of_table 1000000 10 = Ok l
       /\ Float.compare_Z l 5 <> Some Lt
       /\ Float.compare_Z l 6 = Some Lt.
Proof.
  split; [reflexivity|]. split; [reflexivity|].
  destruct (init_prec_is_the_integer_part log_of_table 1000000 5 eq_refl)
    as (l & Hl & _ & Hpart).
  exists l. split; [exact Hl|].
  assert (Hsign : Float.compare_Z l 0 <> Some Lt).
  { vm_compute in Hl. simplify_eq. discriminate. }
  destruct (Hpart Hsign) as (_ & Hlo & Hhi). split; [exact Hlo|exact Hhi].
Defined.
